(** * Policy-compliance backend: the orchestration and streaming core

    A shallow embedding of [backend/orchestrator] (event_formatter.py,
    executor.py, graph.py, orchestrator.py) and the properties its
    specification states about it.

    Python values are embedded as a small universe [pyval]; a Python [str]
    is a sequence of Unicode code points, so it is a [list N] here and
    [len], slicing and indexing count code points.  Code that can raise
    returns a [result]; [print] calls are kept only for the expressions
    they evaluate, since evaluating them can raise. *)

From Stdlib Require Import Ascii String DecimalString.
From Stdlib Require Import List NArith ZArith Bool Lia.
Import ListNotations.

Set Implicit Arguments.
Set Warnings "-register-all".
Set Warnings "-automation".
Set Warnings "-notation-overridden".
Set Warnings "-notation-incompatible-prefix".

(** ** Python strings *)

Definition pystr := list N.

(** An ASCII literal of the source, as code points. *)
Definition lit (s : string) : pystr :=
  map N_of_ascii (list_ascii_of_string s).
Arguments lit s%_string.

Fixpoint pystr_eqb (a b : pystr) : bool :=
  match a, b with
  | [], [] => true
  | x :: a', y :: b' => N.eqb x y && pystr_eqb a' b'
  | _, _ => false
  end.

(** [s in (t1, t2, ...)] for strings. *)
Definition str_in (s : pystr) (ts : list pystr) : bool :=
  existsb (pystr_eqb s) ts.

Fixpoint is_prefix (p s : pystr) : bool :=
  match p, s with
  | [], _ => true
  | x :: p', y :: s' => N.eqb x y && is_prefix p' s'
  | _ :: _, [] => false
  end.

(** [needle in hay]: substring test. *)
Fixpoint contains (needle hay : pystr) : bool :=
  is_prefix needle hay ||
  match hay with
  | [] => false
  | _ :: hay' => contains needle hay'
  end.

(** [str.isspace] on one code point: the Unicode white space characters. *)
Definition is_space (c : N) : bool :=
  ((9 <=? c) && (c <=? 13) || (28 <=? c) && (c <=? 32)
   || (c =? 133) || (c =? 160) || (c =? 5760)
   || (8192 <=? c) && (c <=? 8202)
   || (c =? 8232) || (c =? 8233) || (c =? 8239) || (c =? 8287)
   || (c =? 12288))%N.

Fixpoint drop_while (A : Type) (f : A -> bool) (l : list A) : list A :=
  match l with
  | [] => []
  | x :: l' => if f x then drop_while f l' else l
  end.

Definition lstrip (s : pystr) : pystr := drop_while is_space s.
Definition rstrip (s : pystr) : pystr := rev (drop_while is_space (rev s)).
Definition strip (s : pystr) : pystr := rstrip (lstrip s).

(** [s[:k]] for any integer [k]: a negative bound counts from the end. *)
Definition slice_to (A : Type) (k : Z) (s : list A) : list A :=
  if (0 <=? k)%Z then firstn (Z.to_nat k) s
  else firstn (length s - Z.to_nat (- k)) s.

(** [s.replace(a, b)] for one-character [a] and [b]. *)
Definition replace_char (a b : N) (s : pystr) : pystr :=
  map (fun c => if N.eqb c a then b else c) s.

(** [sep.join(parts)]. *)
Fixpoint join (sep : pystr) (parts : list pystr) : pystr :=
  match parts with
  | [] => []
  | [p] => p
  | p :: rest => p ++ sep ++ join sep rest
  end.

(** Decimal text of an integer, as [str(int)] prints it. *)
Definition dec (z : Z) : pystr :=
  lit (NilZero.string_of_int (Z.to_int z)).

Definition ellipsis : N := 8230.   (* the character U+2026 *)
Definition dquote : N := 34.
Definition newline : N := 10.
Definition backslash : N := 92.

(** UTF-8 bytes of one code point and of a string (the wire encoding). *)
Definition utf8_char (c : N) : list N :=
  (if c <? 128 then [c]
   else if c <? 2048 then [192 + c / 64; 128 + c mod 64]
   else if c <? 65536 then [224 + c / 4096; 128 + (c / 64) mod 64; 128 + c mod 64]
   else [240 + c / 262144; 128 + (c / 4096) mod 64;
         128 + (c / 64) mod 64; 128 + c mod 64])%N.

Definition utf8 (s : pystr) : list N := flat_map utf8_char s.

(** ** Python values and exceptions *)

(** Dictionaries keep insertion order and are keyed by strings, as every
    event, state and payload dictionary of the program is.  [PObj] is an
    instance of a class this program does not define (a chat message, a
    message chunk): its class name, the text [str]/[repr] give for it, and
    its data attributes.  Floats and sets do not occur in the model. *)
Inductive pyval : Type :=
| PNone
| PBool (b : bool)
| PInt (z : Z)
| PStr (s : pystr)
| PList (l : list pyval)
| PTuple (l : list pyval)
| PDict (d : list (pystr * pyval))
| PObj (cls : pystr) (shown : pystr) (attrs : list (pystr * pyval)).

Definition dict := list (pystr * pyval).

(** An exception instance: its class and [str(e)].  Only instances of
    [Exception] are modelled, the ones an [except Exception] clause
    catches. *)
Inductive exn : Type := Exn (cls : pystr) (msg : pystr).

Definition exn_str (e : exn) : pystr := let (_, m) := e in m.

Inductive result (A : Type) : Type :=
| Ok (a : A)
| Err (e : exn).
Arguments Ok {A} a.
Arguments Err {A} e.

Definition bind (A B : Type) (r : result A) (k : A -> result B) : result B :=
  match r with
  | Ok a => k a
  | Err e => Err e
  end.

Notation "x <- c ;; k" := (bind c (fun x => k))
  (at level 61, c at next level, right associativity).
Notation "c ;;; k" := (bind c (fun _ => k))
  (at level 61, right associativity).

Fixpoint sequence (A : Type) (rs : list (result A)) : result (list A) :=
  match rs with
  | [] => Ok []
  | r :: rs' => x <- r ;; xs <- sequence rs' ;; Ok (x :: xs)
  end.

Definition type_name (v : pyval) : pystr :=
  match v with
  | PNone => lit "NoneType"
  | PBool _ => lit "bool"
  | PInt _ => lit "int"
  | PStr _ => lit "str"
  | PList _ => lit "list"
  | PTuple _ => lit "tuple"
  | PDict _ => lit "dict"
  | PObj cls _ _ => cls
  end.

Definition AttributeError (v : pyval) (attr : string) : exn :=
  Exn (lit "AttributeError")
      (lit "'" ++ type_name v ++ lit "' object has no attribute '" ++ lit attr ++ lit "'").

Definition TypeError (msg : pystr) : exn := Exn (lit "TypeError") msg.

Definition UnboundLocalError (var : string) : exn :=
  Exn (lit "UnboundLocalError")
      (lit "cannot access local variable '" ++ lit var
       ++ lit "' where it is not associated with a value").

Definition AssertionError (msg : string) : exn :=
  Exn (lit "AssertionError") (lit msg).

(** Truth value of a Python value ([bool(v)], [if v], [v or w]). *)
Definition truthy (v : pyval) : bool :=
  match v with
  | PNone => false
  | PBool b => b
  | PInt z => negb (Z.eqb z 0)
  | PStr s => match s with [] => false | _ => true end
  | PList l | PTuple l => match l with [] => false | _ => true end
  | PDict d => match d with [] => false | _ => true end
  | PObj _ _ _ => true
  end.

Definition py_or (a b : pyval) : pyval := if truthy a then a else b.

Definition is_none (v : pyval) : bool :=
  match v with PNone => true | _ => false end.

(** ** Dictionaries *)

Fixpoint dict_find (k : pystr) (d : dict) : option pyval :=
  match d with
  | [] => None
  | (k', v) :: d' => if pystr_eqb k k' then Some v else dict_find k d'
  end.

(** [d.get(k)] and [d.get(k, default)]. *)
Definition dict_get (d : dict) (k : string) : pyval :=
  match dict_find (lit k) d with Some v => v | None => PNone end.

Definition dict_get_default (d : dict) (k : string) (dflt : pyval) : pyval :=
  match dict_find (lit k) d with Some v => v | None => dflt end.

(** [d[k] = v]: an existing key keeps its place. *)
Fixpoint dict_set (k : pystr) (v : pyval) (d : dict) : dict :=
  match d with
  | [] => [(k, v)]
  | (k', v') :: d' =>
      if pystr_eqb k k' then (k, v) :: d' else (k', v') :: dict_set k v d'
  end.

(** [d.update(u)]. *)
Definition dict_update (d u : dict) : dict :=
  fold_left (fun acc kv => dict_set (fst kv) (snd kv) acc) u d.

(** ** What the Python runtime and the operating system provide *)

(** The parts of [str] that depend on the Unicode character database: the
    lower-case mapping of a code point outside ASCII, and the quoting and
    escaping [repr] applies to a string.  Lower-casing is taken code point
    by code point; the one context rule of [str.lower], for a capital
    sigma that ends a word, is not modelled. *)
Class Unicode : Type := {
  unicode_lower : N -> pystr;
  str_repr : pystr -> pystr
}.

(** [os.path.exists] (it raises on an argument that is no path) and
    [os.path.getsize] ([None] when it raises [OSError]). *)
Class FileSystem : Type := {
  os_path_exists : pyval -> result bool;
  os_path_getsize : pyval -> option Z
}.

(** The instances used to run the model on ASCII inputs. *)
Definition plain_unicode : Unicode := {|
  unicode_lower := fun c => [c];
  str_repr := fun s => lit "'" ++ s ++ lit "'"
|}.

Definition no_files : FileSystem := {|
  os_path_exists := fun v =>
    match v with
    | PStr _ | PInt _ | PBool _ => Ok false
    | _ => Err (TypeError (lit "stat: path should be string, bytes, os.PathLike or integer"))
    end;
  os_path_getsize := fun _ => None
|}.

Section Builtins.
Context {U : Unicode}.

Definition lower_char (c : N) : pystr :=
  (if (65 <=? c) && (c <=? 90) then [c + 32]
   else if c <? 128 then [c]
   else unicode_lower c)%N.

(** [s.lower()]. *)
Definition py_lower (s : pystr) : pystr := flat_map lower_char s.

(** [repr(v)] and [str(v)]. *)
Fixpoint py_repr (v : pyval) : pystr :=
  match v with
  | PNone => lit "None"
  | PBool b => if b then lit "True" else lit "False"
  | PInt z => dec z
  | PStr s => str_repr s
  | PList l => lit "[" ++ join (lit ", ") (map py_repr l) ++ lit "]"
  | PTuple l =>
      match l with
      | [x] => lit "(" ++ py_repr x ++ lit ",)"
      | _ => lit "(" ++ join (lit ", ") (map py_repr l) ++ lit ")"
      end
  | PDict d =>
      lit "{"
      ++ join (lit ", ")
           (map (fun kv => match kv with
                           | (k, x) => str_repr k ++ lit ": " ++ py_repr x
                           end) d)
      ++ lit "}"
  | PObj _ shown _ => shown
  end.

Definition py_str (v : pyval) : pystr :=
  match v with
  | PStr s => s
  | _ => py_repr v
  end.

(** A method of [str] called on a value: anything else has no such
    attribute. *)
Definition str_method (name : string) (f : pystr -> pystr) (v : pyval)
  : result pystr :=
  match v with
  | PStr s => Ok (f s)
  | _ => Err (AttributeError v name)
  end.

(** [v[:n]] as evaluated inside a [print]: only its failure matters. *)
Definition slice_check (v : pyval) : result unit :=
  match v with
  | PStr _ | PList _ | PTuple _ => Ok tt
  | PDict _ => Err (TypeError (lit "unhashable type: 'slice'"))
  | _ => Err (TypeError (lit "'" ++ type_name v ++ lit "' object is not subscriptable"))
  end.

(** ** [json.dumps] with its default settings *)

Definition hex_digit (n : N) : N := (if n <? 10 then 48 + n else 87 + n)%N.

Definition hex4 (c : N) : pystr :=
  [hex_digit ((c / 4096) mod 16); hex_digit ((c / 256) mod 16);
   hex_digit ((c / 16) mod 16); hex_digit (c mod 16)]%N.

Definition json_escape (c : N) : pystr :=
  (if c =? 34 then [92; 34]
   else if c =? 92 then [92; 92]
   else if c =? 10 then [92; 110]
   else if c =? 13 then [92; 114]
   else if c =? 9 then [92; 116]
   else if c =? 8 then [92; 98]
   else if c =? 12 then [92; 102]
   else if (32 <=? c) && (c <=? 126) then [c]
   else if c <? 65536 then [92; 117] ++ hex4 c
   else [92; 117] ++ hex4 (55296 + (c - 65536) / 1024)
        ++ [92; 117] ++ hex4 (56320 + (c - 65536) mod 1024))%N.

Definition json_string (s : pystr) : pystr :=
  [dquote] ++ flat_map json_escape s ++ [dquote].

Definition not_serializable (v : pyval) : exn :=
  TypeError (lit "Object of type " ++ type_name v ++ lit " is not JSON serializable").

Fixpoint json_dumps (v : pyval) : result pystr :=
  match v with
  | PNone => Ok (lit "null")
  | PBool b => Ok (if b then lit "true" else lit "false")
  | PInt z => Ok (dec z)
  | PStr s => Ok (json_string s)
  | PList l | PTuple l =>
      items <- sequence (map json_dumps l) ;;
      Ok (lit "[" ++ join (lit ", ") items ++ lit "]")
  | PDict d =>
      items <- sequence
                 (map (fun kv => match kv with
                                 | (k, x) =>
                                     j <- json_dumps x ;;
                                     Ok (json_string k ++ lit ": " ++ j)
                                 end) d) ;;
      Ok (lit "{" ++ join (lit ", ") items ++ lit "}")
  | PObj _ _ _ => Err (not_serializable v)
  end.

(** The Server-Sent-Events frame [f"data: {j}\n\n"]. *)
Definition sse_line (j : pystr) : pystr := lit "data: " ++ j ++ [newline; newline].

End Builtins.

(** ** event_formatter.py *)

Section EventFormatter.
Context {U : Unicode} {F : FileSystem}.

(** [_truncate(text, limit)]. *)
Definition _truncate (text : pyval) (limit : Z) : pystr :=
  if is_none text then []
  else
    let text := py_str text in
    if (Z.of_nat (length text) <=? limit)%Z then text
    else rstrip (slice_to (limit - 1) text) ++ [ellipsis].

(** [_safe_session(value)]: the value, or the empty string when it is
    falsy, with every hyphen replaced by an underscore. *)
Definition _safe_session (value : pyval) : result pystr :=
  str_method "replace" (replace_char 45 95) (py_or value (PStr [])).

(** Lookup in a list of pairs of a key and the text found under it. *)
Fixpoint text_find (k : pystr) (texts : list (pystr * pystr)) : option pystr :=
  match texts with
  | [] => None
  | (k', t) :: texts' => if pystr_eqb k k' then Some t else text_find k texts'
  end.

(** [for key in keys: if key in blob: return ...]: the text under the first
    of [keys] that is present. *)
Fixpoint find_first (keys : list pystr) (texts : list (pystr * pystr))
  : option pystr :=
  match keys with
  | [] => None
  | k :: keys' =>
      match text_find k texts with
      | Some t => Some t
      | None => find_first keys' texts
      end
  end.

Definition nonempty (s : pystr) : bool :=
  match s with [] => false | _ => true end.

(** [_extract_text(blob)].  [texts] pairs every key of a dictionary (every
    attribute of an object) with the text extracted from its value, so
    [_extract_text(blob[key])] is a lookup in it. *)
Fixpoint _extract_text (blob : pyval) : pystr :=
  match blob with
  | PNone => []
  | PStr s => s
  | PDict d =>
      let texts := map (fun kv => match kv with
                                  | (k, x) => (k, _extract_text x)
                                  end) d in
      match find_first [lit "content"; lit "text"; lit "response"] texts with
      | Some t => t
      | None => concat (filter nonempty (map snd texts))
      end
  | PList l | PTuple l => concat (map _extract_text l)
  | PObj _ _ attrs =>
      let texts := map (fun kv => match kv with
                                  | (k, x) => (k, _extract_text x)
                                  end) attrs in
      match find_first [lit "content"] texts with
      | Some t => t
      | None => py_str blob
      end
  | PBool _ | PInt _ => py_str blob
  end.

(** [_extract_count(value)]. *)
Definition _extract_count (value : pyval) : pyval :=
  match value with
  | PList l | PTuple l => PInt (Z.of_nat (length l))
  | PDict d => PInt (Z.of_nat (length d))
  | _ => PNone
  end.

(** [_build_stage_payload(node, message, **extra)]. *)
Definition _build_stage_payload (node message : pystr) (extra : dict) : dict :=
  let payload := [(lit "type", PStr (lit "stage")); (lit "node", PStr node);
                  (lit "message", PStr message)] in
  if truthy (PDict extra)
  then dict_update payload (filter (fun kv => negb (is_none (snd kv))) extra)
  else payload.

(** One item of the generator joined in [_extract_token]; [str.join]
    rejects an item that is not a string. *)
Definition token_part (i : nat) (part : pyval) : result pystr :=
  let item := match part with
              | PDict p => dict_get_default p "text" (PStr [])
              | _ => PStr (py_str part)
              end in
  match item with
  | PStr s => Ok s
  | _ => Err (TypeError (lit "sequence item " ++ dec (Z.of_nat i)
                         ++ lit ": expected str instance, " ++ type_name item
                         ++ lit " found"))
  end.

Fixpoint token_parts (i : nat) (content : list pyval) : list (result pystr) :=
  match content with
  | [] => []
  | part :: rest => token_part i part :: token_parts (S i) rest
  end.

Definition has_attr (v : pyval) (name : string) : option pyval :=
  match v with
  | PObj _ _ attrs => dict_find (lit name) attrs
  | _ => None
  end.

(** End of [_extract_token], from [hasattr(chunk, "content")] on. *)
Definition token_of_object (chunk : pyval) : pystr :=
  match has_attr chunk "content" with
  | Some c => _extract_text c
  | None =>
      match has_attr chunk "text" with
      | Some t => py_str t
      | None => _extract_text chunk
      end
  end.

(** [_extract_token(data_section)]. *)
Definition _extract_token (data_section : pyval) : result pystr :=
  match data_section with
  | PDict data =>
      let chunk := py_or (dict_get data "chunk") (dict_get data "delta") in
      match chunk with
      | PNone => Ok []
      | PStr s => Ok s
      | PDict c =>
          match dict_get c "content" with
          | PList content =>
              parts <- sequence (token_parts 0 content) ;; Ok (concat parts)
          | PStr s => Ok s
          | _ =>
              match dict_find (lit "text") c with
              | Some t => Ok (py_str t)
              | None => Ok (token_of_object chunk)
              end
          end
      | _ => Ok (token_of_object chunk)
      end
  | _ => Ok []
  end.

(** [_maybe_get_state(data_section)]. *)
Definition _maybe_get_state (data_section : pyval) : dict :=
  match data_section with
  | PDict data =>
      match dict_get data "state" with
      | PDict s => s
      | _ =>
          match dict_get data "new_state" with
          | PDict s => s
          | _ =>
              match dict_get data "updated_state" with
              | PDict s => s
              | _ => []
              end
          end
      end
  | _ => []
  end.

(** [ev_type == "..."]. *)
Definition ev_is (ev_type : pyval) (s : string) : bool :=
  match ev_type with
  | PStr t => pystr_eqb t (lit s)
  | _ => false
  end.

(** [section.get(key) if isinstance(section, dict)], else [None]. *)
Definition get_if_dict (section : pyval) (key : string) : pyval :=
  match section with
  | PDict d => dict_get d key
  | _ => PNone
  end.

Definition error_payload (e : exn) : dict :=
  [(lit "type", PStr (lit "error")); (lit "error", PStr (exn_str e))].

(** [final_text] of the output branch of [format_event_for_ui], before the
    payload is appended. *)
Definition output_final_text (data_section output_section : pyval) : pyval :=
  let final_text :=
    match output_section with
    | PDict out =>
        let t := _extract_text (py_or (dict_get out "content") output_section) in
        if nonempty t then PStr t
        else dict_get_default out "response" (PStr [])
    | _ => PStr []
    end in
  if truthy final_text then final_text
  else PStr (_extract_text data_section).

(** The two retrieval branches differ only in their names. *)
Definition retrieval_payload (node : string) (what : string) (key : string)
    (output_section : pyval) (state_snapshot : dict) : dict :=
  let chunks := get_if_dict output_section key in
  let chunks := if is_none chunks && truthy (PDict state_snapshot)
                then dict_get state_snapshot key else chunks in
  let count := py_or (_extract_count chunks) (PInt 0) in
  _build_stage_payload (lit node)
    (lit "Retrieved " ++ py_str count ++ lit what)
    [(lit "count", count);
     (lit "sample",
      match chunks with
      | PList l =>
          PStr (_truncate (if truthy count then hd (PStr []) l else PStr []) 160)
      | _ => PNone
      end)].

(** The body of the [try] block of [format_event_for_ui] after its first two
    assignments: the payloads it leaves in [payloads], or the exception it
    raises. *)
Definition format_body (node_name : pystr) (ev_type : pyval)
    (event initial_state : dict) : result (list dict) :=
  let data_section := py_or (dict_get event "data") (PDict []) in
  let state_snapshot := _maybe_get_state data_section in
  let output_section := get_if_dict data_section "output" in
  if ev_is ev_type "on_chat_model_stream" then
    token <- _extract_token data_section ;;
    Ok (if nonempty token
        then [[(lit "type", PStr (lit "llm_stream")); (lit "node", PStr node_name);
               (lit "content", PStr token)]]
        else [])
  else if ev_is ev_type "on_chat_model_end" then
    let final_text := _extract_text (py_or output_section data_section) in
    Ok (if nonempty final_text
        then [[(lit "type", PStr (lit "llm_final")); (lit "node", PStr node_name);
               (lit "content", PStr final_text)]]
        else [])
  else if str_in node_name [lit "input"; lit "input_node"] then
    if ev_is ev_type "on_chain_start" then
      session <- _safe_session (dict_get initial_state "session_id") ;;
      Ok [_build_stage_payload (lit "input")
            (lit "Validating session & user input" ++ [ellipsis])
            [(lit "session", PStr session);
             (lit "user_message",
              PStr (_truncate (dict_get initial_state "message") 120))]]
    else if ev_is ev_type "on_chain_end" then
      let safe_id := get_if_dict output_section "safe_session_id" in
      safe_id <- (if truthy safe_id then Ok safe_id
                  else s <- _safe_session (dict_get initial_state "session_id") ;;
                       Ok (PStr s)) ;;
      Ok [_build_stage_payload (lit "input") (lit "Session validated")
            [(lit "session", safe_id)]]
    else Ok []
  else if str_in node_name [lit "history"; lit "session_history_node"]
          && ev_is ev_type "on_chain_end" then
    let history := get_if_dict output_section "history" in
    let history := if is_none history && truthy (PDict state_snapshot)
                   then dict_get state_snapshot "history" else history in
    let count := py_or (_extract_count history) (PInt 0) in
    Ok [_build_stage_payload (lit "history")
          (lit "Fetched " ++ py_str count ++ lit " messages from history")
          [(lit "count", count)]]
  else if str_in node_name [lit "doc_download"; lit "document_download_node"] then
    if ev_is ev_type "on_chain_start" then
      let url := py_or (dict_get initial_state "document_url")
                       (dict_get state_snapshot "document_url") in
      Ok (if truthy url
          then [_build_stage_payload (lit "doc_download")
                  (lit "Downloading document from URL " ++ _truncate url 100) []]
          else [])
    else if ev_is ev_type "on_chain_end" then
      let tmp_path := get_if_dict output_section "tmp_file_path" in
      let tmp_path := if negb (truthy tmp_path) && truthy (PDict state_snapshot)
                      then dict_get state_snapshot "tmp_file_path" else tmp_path in
      size_bytes <- (if truthy tmp_path
                     then found <- os_path_exists tmp_path ;;
                          Ok (if (found : bool)
                              then match os_path_getsize tmp_path with
                                   | Some n => PInt n
                                   | None => PNone
                                   end
                              else PNone)
                     else Ok PNone) ;;
      Ok [_build_stage_payload (lit "doc_download") (lit "Document downloaded")
            [(lit "bytes", size_bytes);
             (lit "temp_path",
              if truthy tmp_path then PStr (_truncate tmp_path 80) else PNone)]]
    else Ok []
  else if str_in node_name [lit "doc_process"; lit "document_processing_node"] then
    if ev_is ev_type "on_chain_start" then
      Ok [_build_stage_payload (lit "doc_process")
            (lit "Processing downloaded document" ++ [ellipsis]) []]
    else if ev_is ev_type "on_chain_end" then
      Ok [_build_stage_payload (lit "doc_process")
            (lit "Document chunks prepared for retrieval") []]
    else Ok []
  else if str_in node_name [lit "policy_retriever"; lit "policy_retriever_node"]
          && ev_is ev_type "on_chain_end" then
    Ok [retrieval_payload "policy_retriever" " policy chunks" "policy_context"
          output_section state_snapshot]
  else if str_in node_name [lit "doc_retriever"; lit "document_retriever_node"]
          && ev_is ev_type "on_chain_end" then
    Ok [retrieval_payload "doc_retriever" " document chunks" "doc_context"
          output_section state_snapshot]
  else if str_in node_name [lit "context_combine"; lit "context_combination_node"]
          && ev_is ev_type "on_chain_end" then
    let full_message := get_if_dict output_section "full_user_message" in
    let full_message := if negb (truthy full_message) && truthy (PDict state_snapshot)
                        then dict_get state_snapshot "full_user_message"
                        else full_message in
    Ok [_build_stage_payload (lit "context_combine")
          (lit "Combining policy and document context")
          [(lit "preview",
            if truthy full_message then PStr (_truncate full_message 200)
            else PNone)]]
  else if str_in node_name [lit "llm"; lit "llm_node"]
          && ev_is ev_type "on_chain_start" then
    Ok [_build_stage_payload (lit "llm")
          (lit "Generating response with LLM" ++ [ellipsis]) []]
  else if str_in node_name [lit "session_update"; lit "session_update_node"]
          && ev_is ev_type "on_chain_end" then
    Ok [_build_stage_payload (lit "session_update")
          (lit "Appending messages to session history") []]
  else if str_in node_name [lit "output"; lit "output_node"]
          && ev_is ev_type "on_chain_end" then
    let final_text := output_final_text data_section output_section in
    slice_check final_text ;;;
    Ok [[(lit "type", PStr (lit "final")); (lit "node", PStr node_name);
         (lit "content", final_text)]]
  else if (ev_is ev_type "on_chain_start" || ev_is ev_type "on_chain_end")
          && nonempty node_name then
    let verb := if ev_is ev_type "on_chain_start" then lit "Starting"
                else lit "Finished" in
    Ok [_build_stage_payload node_name
          (verb ++ lit " node '" ++ node_name ++ lit "'") []]
  else Ok [].

(** [format_event_for_ui(event, initial_state)].  When the first assignment
    of the [try] block raises, the handler runs with [node_name] and
    [ev_type] still unbound, and the [print] after the handler reads them. *)
Definition format_event_for_ui (event initial_state : dict)
  : result (list dict) :=
  match str_method "lower" py_lower (py_or (dict_get event "name") (PStr [])) with
  | Err _ => Err (UnboundLocalError "ev_type")
  | Ok node_name =>
      let ev_type := dict_get event "event" in
      Ok (match format_body node_name ev_type event initial_state with
          | Ok payloads => payloads
          | Err e => [error_payload e]
          end)
  end.

(** [str(payload)[:200].replace("\n", "\\n")]. *)
Definition raw_form (payload : dict) : pystr :=
  flat_map (fun c => if N.eqb c newline then [backslash; 110%N] else [c])
           (firstn 200 (py_str (PDict payload))).

Definition safe_payload (payload : dict) : dict :=
  [(lit "type", PStr (lit "event")); (lit "raw", PStr (raw_form payload))].

(** [serialize_payload_for_sse(payload)]. *)
Definition serialize_payload_for_sse (payload : dict) : result pystr :=
  match json_dumps (PDict payload) with
  | Ok j => Ok (sse_line j)
  | Err _ => j <- json_dumps (PDict (safe_payload payload)) ;; Ok (sse_line j)
  end.

End EventFormatter.

(** ** executor.py *)

(** What iterating [graph.astream_events(...)] gives: the events it yields
    and, when the iteration stops by raising, the exception. *)
Definition stream : Type := (list dict * option exn)%type.

(** The queue between producer and consumer: SSE lines, and [None] as the
    close sentinel.  [queue.put] appends. *)
Definition queue : Type := list (option pystr).

Definition put (q : queue) (item : option pystr) : queue := q ++ [item].

Section Executor.
Context {U : Unicode} {F : FileSystem}.

(** The frames the producer builds itself. *)
Definition end_payload : dict := [(lit "type", PStr (lit "end"))].

Definition end_literal : pystr :=
  lit "data: {" ++ [dquote] ++ lit "type" ++ [dquote] ++ lit ": "
  ++ [dquote] ++ lit "end" ++ [dquote] ++ lit "}" ++ [newline; newline].

(** The body of [for payload in payloads] of [async_producer]: the queue
    after it and the exception that leaves it, if any. *)
Fixpoint put_payloads (payloads : list dict) (q : queue) : queue * option exn :=
  match payloads with
  | [] => (q, None)
  | payload :: rest =>
      match serialize_payload_for_sse payload with
      | Ok sse => put_payloads rest (put q (Some sse))
      | Err _ =>
          match json_dumps (PDict (safe_payload payload)) with
          | Ok j => put_payloads rest (put q (Some (sse_line j)))
          | Err e => (q, Some e)
          end
      end
  end.

(** The [async for event in events] loop. *)
Fixpoint consume_events (events : list dict) (ending : option exn)
    (initial_state : dict) (q : queue) : queue * option exn :=
  match events with
  | [] => (q, ending)
  | event :: rest =>
      match format_event_for_ui event initial_state with
      | Err e => (q, Some e)
      | Ok payloads =>
          match put_payloads payloads q with
          | (q', Some e) => (q', Some e)
          | (q', None) => consume_events rest ending initial_state q'
          end
      end
  end.

(** The [except Exception as e] handler of [async_producer]. *)
Definition put_error (e : exn) (q : queue) : queue * option exn :=
  match json_dumps (PDict (error_payload e)) with
  | Ok j => (put q (Some (sse_line j)), None)
  | Err e' => (q, Some e')
  end.

(** The [finally] clause of [async_producer]. *)
Definition put_end (q : queue) : queue :=
  let q := match json_dumps (PDict end_payload) with
           | Ok j => put q (Some (sse_line j))
           | Err _ => put q (Some end_literal)
           end in
  put q None.

(** [async_producer(graph, initial_state, queue)]: the queue it leaves and
    the exception that escapes it, if any.  [graph] stands for its
    [astream_events] method. *)
Definition async_producer (graph : dict -> stream) (initial_state : dict)
    (q : queue) : queue * option exn :=
  let (events, ending) := graph initial_state in
  match consume_events events ending initial_state q with
  | (q, None) => (put_end q, None)
  | (q, Some e) =>
      let (q, escaped) := put_error e q in
      (put_end q, escaped)
  end.

(** The consumer loop of [create_stream_generator]: items are yielded until
    the first [None]. *)
Fixpoint drain (q : queue) : list pystr :=
  match q with
  | Some item :: q' => item :: drain q'
  | _ => []
  end.

(** [initial_state.get('message', '')[:100]], which the first [print]s of
    [run_graph_stream] and of [create_stream_generator] evaluate. *)
Definition message_preview (initial_state : dict) : result unit :=
  slice_check (dict_get_default initial_state "message" (PStr [])).

(** [create_stream_generator(graph, initial_state)], iterated to its end.
    The generator's first step prints the start of the message, and raises
    if the message cannot be sliced, before the queue and the thread exist;
    otherwise the producer fills a fresh queue on its own thread and the
    generator yields the items of the queue. *)
Definition create_stream_generator (graph : dict -> stream)
    (initial_state : dict) : result (list pystr) :=
  message_preview initial_state ;;;
  Ok (drain (fst (async_producer graph initial_state []))).

End Executor.

(** ** graph.py *)

(** The nodes [build_company_policy_graph] adds. *)
Inductive node : Type :=
| input | history | doc_download | doc_process | policy_retriever
| doc_retriever | context_combine | llm | session_update | output.

Definition node_name (n : node) : pystr :=
  match n with
  | input => lit "input"
  | history => lit "history"
  | doc_download => lit "doc_download"
  | doc_process => lit "doc_process"
  | policy_retriever => lit "policy_retriever"
  | doc_retriever => lit "doc_retriever"
  | context_combine => lit "context_combine"
  | llm => lit "llm"
  | session_update => lit "session_update"
  | output => lit "output"
  end.

Definition node_eqb (a b : node) : bool :=
  pystr_eqb (node_name a) (node_name b).

(** What one run of the graph gets from outside the orchestration core.
    Every call site is reached at most once in a run, so each has its own
    answer.
    - [get_history_from_orchestrator]: the session history, or the
      exception the call raises;
    - [temp_table_after_history], [temp_table_after_policy]: the row
      [fetchone()] returns for [SELECT to_regclass(name)] in the two
      routers, or the exception raised while connecting, querying or
      closing;
    - [node_body]: for the nodes made of calls to the retrievers, the
      document processor, the chat model and the history store, the tokens
      they stream and the state update they return or the exception they
      raise. *)
Class Collaborators : Type := {
  get_history_from_orchestrator : dict -> result (list pyval);
  temp_table_after_history : pystr -> result pyval;
  temp_table_after_policy : pystr -> result pyval;
  node_body : node -> dict -> list pyval * result dict
}.

Section Graph.
Context {U : Unicode} {C : Collaborators}.

Definition py_assert (cond : pyval) (msg : string) : result unit :=
  if truthy cond then Ok tt else Err (AssertionError msg).

(** [input_node(state)]. *)
Definition input_node (state : dict) : result dict :=
  py_assert (dict_get state "session_id") "session_id required" ;;;
  py_assert (dict_get state "message") "message required" ;;;
  py_assert (dict_get state "user_id") "user_id required" ;;;
  safe_session_id <- str_method "replace" (replace_char 45 95)
                       (dict_get state "session_id") ;;
  Ok [(lit "safe_session_id", PStr safe_session_id)].

Definition KeyError (key : string) : exn :=
  Exn (lit "KeyError") (lit "'" ++ lit key ++ lit "'").

(** [session_history_node(state)]; its first [print] reads
    [state['session_id']]. *)
Definition session_history_node (state : dict) : result dict :=
  match dict_find (lit "session_id") state with
  | None => Err (KeyError "session_id")
  | Some _ =>
      history <- get_history_from_orchestrator state ;;
      Ok [(lit "history", PList history)]
  end.

(** [exists_row[0]]. *)
Definition index0 (v : pyval) : result pyval :=
  match v with
  | PList (x :: _) | PTuple (x :: _) => Ok x
  | PStr (c :: _) => Ok (PStr [c])
  | PList [] | PTuple [] | PStr [] =>
      Err (Exn (lit "IndexError") (lit "index out of range"))
  | PDict _ => Err (Exn (lit "KeyError") (lit "0"))
  | _ => Err (TypeError (lit "'" ++ type_name v ++ lit "' object is not subscriptable"))
  end.

(** [f"public.temp_documents_{safe_session_id}"]. *)
Definition table_name (safe_session_id : pyval) : pystr :=
  lit "public.temp_documents_" ++ py_str safe_session_id.

(** [bool(exists_row and exists_row[0])] on the answer of the query, inside
    the [try] whose handler sets [has_temp = False]. *)
Definition table_found (answer : result pyval) : bool :=
  match
    exists_row <- answer ;;
    if truthy exists_row
    then first <- index0 exists_row ;; Ok (truthy first)
    else Ok false
  with
  | Ok has_temp => has_temp
  | Err _ => false
  end.

(** The [try] block both routers share: [has_temp] after it.  [check] is
    the query against the database. *)
Definition has_temp_table (check : pystr -> result pyval) (state : dict) : bool :=
  let safe_session_id := dict_get state "safe_session_id" in
  if truthy safe_session_id
  then table_found (check (table_name safe_session_id))
  else false.

(** [route_after_history(state)]. *)
Definition route_after_history (state : dict) : pystr :=
  let document_url := dict_get state "document_url" in
  if has_temp_table temp_table_after_history state then lit "has_doc"
  else if truthy document_url then lit "with_doc"
  else lit "no_doc".

(** [route_after_policy(state)]. *)
Definition route_after_policy (state : dict) : pystr :=
  if has_temp_table temp_table_after_policy state then lit "need_doc"
  else lit "no_doc_needed".

(** The destination tables of the two [add_conditional_edges] calls. *)
Definition after_history_edges : list (pystr * node) :=
  [(lit "with_doc", doc_download); (lit "has_doc", policy_retriever);
   (lit "no_doc", policy_retriever)].

Definition after_policy_edges : list (pystr * node) :=
  [(lit "need_doc", doc_retriever); (lit "no_doc_needed", context_combine)].

Fixpoint destination (label : pystr) (edges : list (pystr * node)) : result node :=
  match edges with
  | [] => Err (Exn (lit "KeyError") label)
  | (l, n) :: edges' => if pystr_eqb label l then Ok n else destination label edges'
  end.

(** The edges of the compiled graph: the node that follows [n] in [state],
    [None] for [END]. *)
Definition next_node (n : node) (state : dict) : result (option node) :=
  match n with
  | input => Ok (Some history)
  | history =>
      d <- destination (route_after_history state) after_history_edges ;; Ok (Some d)
  | doc_download => Ok (Some doc_process)
  | doc_process => Ok (Some policy_retriever)
  | policy_retriever =>
      d <- destination (route_after_policy state) after_policy_edges ;; Ok (Some d)
  | doc_retriever => Ok (Some context_combine)
  | context_combine => Ok (Some llm)
  | llm => Ok (Some session_update)
  | session_update => Ok (Some output)
  | output => Ok None
  end.

(** The function registered for each node by [add_node]. *)
Definition node_function (n : node) (state : dict) : list pyval * result dict :=
  match n with
  | input => ([], input_node state)
  | history => ([], session_history_node state)
  | _ => node_body n state
  end.

(** One node of a run: the state it ran on, the tokens it streamed, and the
    update it returned or the exception it raised. *)
Record step : Type := {
  step_node : node;
  step_state : dict;
  step_tokens : list pyval;
  step_result : result dict
}.

(** Modelled from the spec: the graph runtime (the LangGraph library, not
    part of this repository).  Nodes run one at a time along the path the
    edges select; a node's update is merged into the state before the edge
    out of it is evaluated; a node that raises ends the run with that
    exception.  [limit] is the runtime's bound on the number of steps,
    which raises when exceeded. *)
Fixpoint run_from (limit : nat) (n : node) (state : dict)
  : list step * option exn :=
  match limit with
  | O => ([], Some (Exn (lit "GraphRecursionError") (lit "Recursion limit reached")))
  | S limit' =>
      let (tokens, r) := node_function n state in
      let here := {| step_node := n; step_state := state;
                     step_tokens := tokens; step_result := r |} in
      match r with
      | Err e => ([here], Some e)
      | Ok update =>
          let state' := dict_update state update in
          match next_node n state' with
          | Err e => ([here], Some e)
          | Ok None => ([here], None)
          | Ok (Some n') =>
              let (steps, ending) := run_from limit' n' state' in
              (here :: steps, ending)
          end
      end
  end.

Definition recursion_limit : nat := 25.

(** [START] leads to [input]. *)
Definition run_company_policy_graph (initial_state : dict) : list step * option exn :=
  run_from recursion_limit input initial_state.

(** Modelled from the spec: the raw execution events of one node, a start
    event, one token event per streamed token, and an end event carrying
    the node's output when it returned. *)
Definition raw_event (kind : string) (n : node) (data : dict) : dict :=
  [(lit "event", PStr (lit kind)); (lit "name", PStr (node_name n));
   (lit "data", PDict data)].

Definition events_of_step (s : step) : list dict :=
  raw_event "on_chain_start" (step_node s) [(lit "input", PDict (step_state s))]
  :: map (fun tok => raw_event "on_chat_model_stream" (step_node s)
                       [(lit "chunk", tok)]) (step_tokens s)
  ++ match step_result s with
     | Ok update =>
         [raw_event "on_chain_end" (step_node s) [(lit "output", PDict update)]]
     | Err _ => []
     end.

(** [astream_events] of the compiled company-policy graph. *)
Definition company_policy_graph (initial_state : dict) : stream :=
  let (steps, ending) := run_company_policy_graph initial_state in
  (flat_map events_of_step steps, ending).

End Graph.

(** ** orchestrator.py *)

Definition policy_keywords : list pystr := map lit [
  "policy"; "policies"; "hr"; "human resources"; "vacation"; "leave"; "sick"; "holiday";
  "dress code"; "attendance"; "remote work"; "work from home"; "benefits"; "insurance";
  "harassment"; "discrimination"; "complaint"; "procedure"; "handbook"; "employee";
  "employment"; "contract"; "agreement"; "disciplinary"; "termination"; "salary";
  "pay"; "compensation"; "bonus"; "raise"; "promotion"; "performance"; "training";
  "development"; "onboarding"; "orientation"; "safety"; "security"; "compliance";
  "regulation"; "legal"; "law"; "rights"; "responsibilities"; "workplace"; "office";
  "company"; "organization"; "corporate"; "business"; "work"; "job"; "career"
]%string.

Definition casual_keywords : list pystr := map lit [
  "hello"; "hi"; "hey"; "good morning"; "good afternoon"; "good evening";
  "how are you"; "what's up"; "thanks"; "thank you"; "bye"; "goodbye";
  "see you"; "have a good"; "nice to meet"; "pleasure"; "welcome"
]%string.

Definition capability_keywords : list pystr := map lit [
  "what can you"; "what do you"; "how can you"; "what are you"; "help me";
  "assist"; "support"; "capabilities"; "features"; "functions"; "do for"
]%string.

Definition history_keywords : list pystr := map lit [
  "previous"; "before"; "earlier"; "last time"; "conversation"; "chat";
  "history"; "asked"; "questions"; "messages"; "what did i"; "what was";
  "recall"; "remember"; "past"; "earlier"; "ago"
]%string.

(** [sum(1 for keyword in keywords if keyword in message_lower)]. *)
Definition keyword_matches (keywords : list pystr) (message_lower : pystr) : nat :=
  length (filter (fun keyword => contains keyword message_lower) keywords).

(** The external services of the orchestrator: the chat model behind
    [self.llm.invoke] (given the user message, the prompt being fixed) and
    the history store behind [self.get_session_history]. *)
Class Services : Type := {
  llm_invoke : pystr -> result pyval;
  get_session_history : pystr -> result (list pyval)
}.

Section Orchestrator.
Context {U : Unicode} {Sv : Services}.

(** [_rule_based_classification(message)]; [None] is Python's [None]. *)
Definition _rule_based_classification (message : pystr) : option pystr :=
  let message_lower := strip (py_lower message) in
  if 0 <? keyword_matches policy_keywords message_lower
  then Some (lit "company_policy")
  else if 0 <? keyword_matches casual_keywords message_lower
  then Some (lit "general")
  else if 0 <? keyword_matches capability_keywords message_lower
  then Some (lit "general")
  else if 0 <? keyword_matches history_keywords message_lower
  then Some (lit "general")
  else None.

(** [obj.name]. *)
Definition getattr (v : pyval) (name : string) : result pyval :=
  match has_attr v name with
  | Some x => Ok x
  | None => Err (AttributeError v name)
  end.

(** The [try] block of [_llm_classification] up to the value bound to
    [intent] by [response.content.strip().lower()]. *)
Definition llm_intent (message session_id : pystr) : result pystr :=
  get_session_history session_id ;;;
  response <- llm_invoke message ;;
  content <- getattr response "content" ;;
  stripped <- str_method "strip" strip content ;;
  Ok (py_lower stripped).

(** [_llm_classification(message, session_id)]. *)
Definition _llm_classification (message session_id : pystr) : pystr :=
  match llm_intent message session_id with
  | Ok intent =>
      if str_in intent [lit "company_policy"; lit "general"] then intent
      else lit "general"
  | Err _ => lit "general"
  end.

(** [classify_intent(message, session_id)]. *)
Definition classify_intent (message session_id : pystr) : pystr :=
  match _rule_based_classification message with
  | Some intent => if nonempty intent then intent
                   else _llm_classification message session_id
  | None => _llm_classification message session_id
  end.

End Orchestrator.

(** ** The statements of the specification that the code is compared with *)

(** The truncation rule as the specification words it: cut to [N]
    characters and append one ellipsis when the text is longer. *)
Definition truncate_rule (s : pystr) (N : Z) : pystr :=
  if (Z.of_nat (length s) <=? N)%Z then s
  else firstn (Z.to_nat N) s ++ [ellipsis].



(** The frames named by the wire format, as the text queued for them. *)
Definition end_frame : pystr :=
  sse_line (lit "{" ++ json_string (lit "type") ++ lit ": "
            ++ json_string (lit "end") ++ lit "}").

Definition error_frame (message : pystr) : pystr :=
  sse_line (lit "{" ++ json_string (lit "type") ++ lit ": "
            ++ json_string (lit "error") ++ lit ", "
            ++ json_string (lit "error") ++ lit ": "
            ++ json_string message ++ lit "}").

Definition fallback_frame (raw : pystr) : pystr :=
  sse_line (lit "{" ++ json_string (lit "type") ++ lit ": "
            ++ json_string (lit "event") ++ lit ", "
            ++ json_string (lit "raw") ++ lit ": "
            ++ json_string raw ++ lit "}").

(** The payload types the formatter and the serializer put on the wire
    before the end of a run. *)
Definition body_types : list pystr :=
  map lit ["stage"; "llm_stream"; "llm_final"; "final"; "error"; "event"]%string.

(** [line] is the frame of a payload of one of those types. *)
Definition body_frame (line : pystr) : Prop :=
  exists t rest j,
    In t body_types /\
    json_dumps (PDict ((lit "type", PStr t) :: rest)) = Ok j /\
    line = sse_line j.

(** A required field of the initial state is missing or empty. *)
Definition required_missing (state : dict) : Prop :=
  truthy (dict_get state "session_id") = false \/
  truthy (dict_get state "message") = false \/
  truthy (dict_get state "user_id") = false.


(** The names under which the formatter reports each node: the stage
    payload's node, and the event names it is used for. *)
Definition node_aliases : list (pystr * list pystr) :=
  [(lit "input", [lit "input"; lit "input_node"]);
   (lit "history", [lit "history"; lit "session_history_node"]);
   (lit "doc_download", [lit "doc_download"; lit "document_download_node"]);
   (lit "doc_process", [lit "doc_process"; lit "document_processing_node"]);
   (lit "policy_retriever", [lit "policy_retriever"; lit "policy_retriever_node"]);
   (lit "doc_retriever", [lit "doc_retriever"; lit "document_retriever_node"]);
   (lit "context_combine", [lit "context_combine"; lit "context_combination_node"]);
   (lit "llm", [lit "llm"; lit "llm_node"]);
   (lit "session_update", [lit "session_update"; lit "session_update_node"])].

(** [n] can be the node of a payload made for an event named [event_name]. *)
Definition reported_as (event_name n : pystr) : Prop :=
  n = event_name \/
  exists aliases, In (n, aliases) node_aliases /\ str_in event_name aliases = true.

(** The shape of every payload the [try] block leaves in [payloads]. *)
Definition formatter_payload (event_name : pystr) (p : dict) : Prop :=
  exists t n rest,
    p = (lit "type", PStr t) :: (lit "node", PStr n) :: rest /\
    In t (map lit ["stage"; "llm_stream"; "llm_final"; "final"]%string) /\
    reported_as event_name n.

(** A payload whose first member is its type, one of [body_types]. *)
Definition typed_payload (p : dict) : Prop :=
  exists t rest, p = (lit "type", PStr t) :: rest /\ In t body_types.

(** The event the runtime emits when the input node starts, and the stage
    payload the formatter makes for it. *)
Definition input_start (st : dict) : dict :=
  raw_event "on_chain_start" input [(lit "input", PDict st)].

Definition validating_payload {U : Unicode} (session : pystr) (st : dict) : dict :=
  _build_stage_payload (lit "input")
    (lit "Validating session & user input" ++ [ellipsis])
    [(lit "session", PStr session);
     (lit "user_message", PStr (_truncate (dict_get st "message") 120))].

(** The nodes a run can be in once document download is behind it. *)
Definition past_documents (n : node) : bool :=
  match n with
  | input | history | doc_download | doc_process => false
  | _ => true
  end.

Definition document_node (n : node) : bool :=
  match n with
  | doc_download | doc_process => true
  | _ => false
  end.

(** A request that carries an empty message. *)
Definition empty_message_state : dict :=
  [(lit "session_id", PStr (lit "s-1")); (lit "message", PStr []);
   (lit "user_id", PStr (lit "u1"))].

(** ** Collaborators used to run the model *)

(** No stored history, no temporary table, and nodes that return an empty
    update without streaming. *)
Definition quiet_collaborators : Collaborators := {|
  get_history_from_orchestrator := fun _ => Ok [];
  temp_table_after_history := fun _ => Ok (PTuple [PNone]);
  temp_table_after_policy := fun _ => Ok (PTuple [PNone]);
  node_body := fun _ _ => ([], Ok [])
|}.

(** A session whose temporary table exists. *)
Definition stored_document : Collaborators := {|
  get_history_from_orchestrator := fun _ => Ok [];
  temp_table_after_history := fun name => Ok (PTuple [PStr name]);
  temp_table_after_policy := fun name => Ok (PTuple [PStr name]);
  node_body := fun _ _ => ([], Ok [])
|}.

(** A database that cannot be reached. *)
Definition database_down : Collaborators := {|
  get_history_from_orchestrator := fun _ => Ok [];
  temp_table_after_history :=
    fun _ => Err (Exn (lit "OperationalError") (lit "connection refused"));
  temp_table_after_policy :=
    fun _ => Err (Exn (lit "OperationalError") (lit "connection refused"));
  node_body := fun _ _ => ([], Ok [])
|}.

(** A chat model that answers with a fixed text, and one that is down. *)
Definition model_says (answer : pystr) : Services := {|
  llm_invoke := fun _ =>
    Ok (PObj (lit "AIMessage") (lit "AIMessage") [(lit "content", PStr answer)]);
  get_session_history := fun _ => Ok []
|}.

Definition model_down : Services := {|
  llm_invoke := fun _ => Err (Exn (lit "RuntimeError") (lit "model unavailable"));
  get_session_history := fun _ => Ok []
|}.

(** * The rest of the orchestration code *)

(** ** More of the Python runtime *)

(** [len(v)]. *)
Definition py_len (v : pyval) : result Z :=
  match v with
  | PStr s => Ok (Z.of_nat (length s))
  | PList l | PTuple l => Ok (Z.of_nat (length l))
  | PDict d => Ok (Z.of_nat (length d))
  | _ => Err (TypeError (lit "object of type '" ++ type_name v ++ lit "' has no len()"))
  end.

(** [len(v) if v else 0], evaluated inside a [print]. *)
Definition len_if_truthy (v : pyval) : result unit :=
  if truthy v then py_len v ;;; Ok tt else Ok tt.

Definition IndexError (v : pyval) : exn :=
  Exn (lit "IndexError") (type_name v ++ lit " index out of range").

(** [v[i]] for a constant index [i >= 0]. *)
Definition py_item (v : pyval) (i : nat) : result pyval :=
  match v with
  | PList l | PTuple l =>
      match nth_error l i with
      | Some x => Ok x
      | None => Err (IndexError v)
      end
  | PStr s =>
      match nth_error s i with
      | Some c => Ok (PStr [c])
      | None => Err (Exn (lit "IndexError") (lit "string index out of range"))
      end
  | PDict _ => Err (Exn (lit "KeyError") (dec (Z.of_nat i)))
  | _ => Err (TypeError (lit "'" ++ type_name v ++ lit "' object is not subscriptable"))
  end.

(** [v[key]] for a string key. *)
Definition py_getitem (v : pyval) (key : string) : result pyval :=
  match v with
  | PDict d =>
      match dict_find (lit key) d with
      | Some x => Ok x
      | None => Err (Exn (lit "KeyError") (lit "'" ++ lit key ++ lit "'"))
      end
  | PStr _ => Err (TypeError (lit "string indices must be integers, not 'str'"))
  | PList _ | PTuple _ =>
      Err (TypeError (type_name v ++ lit " indices must be integers or slices, not str"))
  | _ => Err (TypeError (lit "'" ++ type_name v ++ lit "' object is not subscriptable"))
  end.

(** [v[:k]] as a value. *)
Definition py_slice_to (v : pyval) (k : Z) : result pyval :=
  match v with
  | PStr s => Ok (PStr (slice_to k s))
  | PList l => Ok (PList (slice_to k l))
  | PTuple l => Ok (PTuple (slice_to k l))
  | PDict _ => Err (TypeError (lit "unhashable type: 'slice'"))
  | _ => Err (TypeError (lit "'" ++ type_name v ++ lit "' object is not subscriptable"))
  end.

(** [for x in v]: the items the loop visits. *)
Definition py_iter (v : pyval) : result (list pyval) :=
  match v with
  | PList l | PTuple l => Ok l
  | PStr s => Ok (map (fun c => PStr [c]) s)
  | PDict d => Ok (map (fun kv => PStr (fst kv)) d)
  | _ => Err (TypeError (lit "'" ++ type_name v ++ lit "' object is not iterable"))
  end.

(** [l[lo:hi]] for any integers. *)
Definition clip_index (len i : Z) : Z :=
  (if i <? 0 then Z.max 0 (i + len) else Z.min i len)%Z.

Definition py_slice (A : Type) (lo hi : Z) (l : list A) : list A :=
  let len := Z.of_nat (length l) in
  let lo' := clip_index len lo in
  let hi' := clip_index len hi in
  firstn (Z.to_nat (hi' - lo')) (skipn (Z.to_nat lo') l).

(** A chat message of the message library: an object of class [cls] with a
    [content] attribute.  The constructor validates its content, which must
    be a string or a list. *)
Definition message (cls : string) (content : pyval) : pyval :=
  PObj (lit cls) (lit cls) [(lit "content", content)].

Definition make_message (cls : string) (content : pyval) : result pyval :=
  match content with
  | PStr _ | PList _ => Ok (message cls content)
  | _ => Err (Exn (lit "ValidationError")
                  (lit "1 validation error for " ++ lit cls))
  end.

(** ** What the nodes and the orchestrator call outside the core *)

(** - [MAIN_PROMPT]: the constant of utils/prompts.py;
    - [fetch_policy_rows], [fetch_session_rows]: the [try] block of
      [Retriever.retrieve_chunks] and [TempRetriever.retrieve_chunks] up to
      [conn.close()]: embedding of the question and the vector query,
      giving the rows of [cur.fetchall()] or raising;
    - [chat_model]: [_LLM.invoke(convo)], and [chat_model_tokens]: the
      chunks the model streams while it answers;
    - [download_to_temp]: the [try] block of [document_download_node],
      [requests.get] and the temporary file, giving [tmp.name];
    - [process_document]: [_doc_processor.process];
    - [remove_file]: [os.remove];
    - [chat_repo_get_messages], [chat_repo_get_or_create_session],
      [chat_repo_save_message]: the methods of [ChatRepository]. *)
Class Externals : Type := {
  MAIN_PROMPT : pystr;
  fetch_policy_rows : pyval -> result (list pyval);
  fetch_session_rows : pyval -> pyval -> result (list pyval);
  chat_model : list pyval -> result pyval;
  chat_model_tokens : list pyval -> list pyval;
  download_to_temp : pyval -> result pystr;
  process_document : pyval -> pyval -> result pyval;
  remove_file : pyval -> result unit;
  chat_repo_get_messages : pyval -> result pyval;
  chat_repo_get_or_create_session : pyval -> pyval -> pyval -> result unit;
  chat_repo_save_message : pyval -> pystr -> pyval -> result unit
}.

(** ** agents/chuck_retriever.py and agents/chunk_retriever_temp.py *)

(** [{"id": r[0], "content": r[1], "distance": r[2]}]. *)
Definition chunk_of_row (r : pyval) : result pyval :=
  id <- py_item r 0 ;;
  content <- py_item r 1 ;;
  distance <- py_item r 2 ;;
  Ok (PDict [(lit "id", id); (lit "content", content); (lit "distance", distance)]).

(** The rest of both [retrieve_chunks] methods, given the rows or the
    exception. *)
Definition chunks_answer (rows : result (list pyval)) : pyval :=
  match rs <- rows ;; sequence (map chunk_of_row rs) with
  | Ok chunks =>
      PDict [(lit "status", PStr (lit "success")); (lit "chunks", PList chunks)]
  | Err e =>
      PDict [(lit "status", PStr (lit "error")); (lit "message", PStr (exn_str e))]
  end.

Section Retrievers.
Context {E : Externals}.

(** [Retriever.retrieve_chunks(question)]. *)
Definition Retriever_retrieve_chunks (question : pyval) : pyval :=
  chunks_answer (fetch_policy_rows question).

(** [TempRetriever.retrieve_chunks(question, safe_session_id)]. *)
Definition TempRetriever_retrieve_chunks (question safe_session_id : pyval) : pyval :=
  chunks_answer (fetch_session_rows question safe_session_id).

End Retrievers.

(** ** The other nodes of graph.py *)

Section GraphNodes.
Context {U : Unicode} {E : Externals} {C : Collaborators}.

(** [state[key]]. *)
Definition state_item (state : dict) (key : string) : result pyval :=
  match dict_find (lit key) state with
  | Some v => Ok v
  | None => Err (KeyError key)
  end.

(** [v == "..."]. *)
Definition equals_str (v : pyval) (s : string) : bool :=
  match v with
  | PStr t => pystr_eqb t (lit s)
  | _ => false
  end.

(** [policy_retriever_node(state)]. *)
Definition policy_retriever_node (state : dict) : result dict :=
  message <- state_item state "message" ;;
  slice_check message ;;;
  let policy_context := Retriever_retrieve_chunks message in
  len_if_truthy policy_context ;;;
  Ok [(lit "policy_context", policy_context)].

(** [context_combination_node(state)]. *)
Definition context_combination_node (state : dict) : result dict :=
  message <- state_item state "message" ;;
  let policy_context := py_or (dict_get state "policy_context") (PList []) in
  let doc_context := py_or (dict_get state "doc_context") (PList []) in
  slice_check message ;;;
  len_if_truthy policy_context ;;;
  len_if_truthy doc_context ;;;
  let combined_context :=
    [newline] ++ lit "    Policy Context: " ++ py_str policy_context
    ++ [newline] ++ lit "    Document Context: " ++ py_str doc_context
    ++ [newline] ++ lit "    " in
  let full_message :=
    lit "User Message: " ++ py_str message ++ [newline] ++ lit "Context: "
    ++ combined_context in
  Ok [(lit "full_user_message", PStr full_message)].

Definition llm_fallback : pystr :=
  lit "I'm temporarily unavailable to generate a detailed answer, but I've recorded your question.".

(** [[system_message] + history]: only a list can be added to a list. *)
Definition with_history (system history : pyval) : result (list pyval) :=
  match history with
  | PList h => Ok ([system] ++ h)
  | _ => Err (TypeError (lit "can only concatenate list (not '" ++ type_name history
                         ++ lit "') to list"))
  end.

(** The [try] block of [llm_node]: the value bound to ["response"]. *)
Definition llm_answer (history full_user_message : pyval) : result pyval :=
  system_message <- make_message "SystemMessage" (PStr MAIN_PROMPT) ;;
  prefix <- with_history system_message history ;;
  human <- make_message "HumanMessage" full_user_message ;;
  let convo := prefix ++ [human] in
  response <- chat_model convo ;;
  content <- getattr response "content" ;;
  len_if_truthy content ;;;
  Ok content.

(** [llm_node(state)]. *)
Definition llm_node (state : dict) : result dict :=
  history <- state_item state "history" ;;
  py_len history ;;;
  full_user_message <- state_item state "full_user_message" ;;
  py_len full_user_message ;;;
  Ok [(lit "response",
       match llm_answer history full_user_message with
       | Ok content => content
       | Err _ => PStr llm_fallback
       end)].

(** [document_download_node(state)]. *)
Definition document_download_node (state : dict) : result dict :=
  let url := dict_get state "document_url" in
  if truthy url
  then match download_to_temp url with
       | Ok name => Ok [(lit "tmp_file_path", PStr name)]
       | Err _ => Ok []
       end
  else Ok [].

(** The [try] block of [document_processing_node]; it returns an empty
    update on every path. *)
Definition process_and_clean (tmp_file_path safe_session_id : pyval) : result unit :=
  r <- process_document tmp_file_path safe_session_id ;;
  (if truthy r
   then match r with
        | PDict _ => Ok tt
        | _ => Err (AttributeError r "get")
        end
   else Ok tt) ;;;
  match remove_file tmp_file_path with
  | Ok _ => Ok tt
  | Err _ => Ok tt
  end.

(** [document_processing_node(state)]. *)
Definition document_processing_node (state : dict) : result dict :=
  let tmp_file_path := dict_get state "tmp_file_path" in
  let safe_session_id := dict_get state "safe_session_id" in
  if negb (truthy tmp_file_path) then Ok []
  else if negb (truthy safe_session_id) then Ok []
  else match process_and_clean tmp_file_path safe_session_id with
       | Ok _ => Ok []
       | Err _ => Ok []
       end.

(** The [try] block of [document_retriever_node]: the value of
    [doc_context]. *)
Definition retrieved_doc_context (question safe_session_id : pyval) : result pyval :=
  let doc_results := TempRetriever_retrieve_chunks question safe_session_id in
  doc_context <-
    match doc_results with
    | PDict d =>
        let status := dict_get d "status" in
        let chunks := dict_get_default d "chunks" (PList []) in
        py_len chunks ;;;
        Ok (if equals_str status "success" then chunks else PList [])
    | _ => Ok (PList [])
    end ;;
  py_len doc_context ;;;
  Ok doc_context.

(** [document_retriever_node(state)]. *)
Definition document_retriever_node (state : dict) : result dict :=
  question <- state_item state "message" ;;
  let safe_session_id := dict_get state "safe_session_id" in
  slice_check question ;;;
  if negb (truthy safe_session_id) then Ok [(lit "doc_context", PList [])]
  else Ok [(lit "doc_context",
            match retrieved_doc_context question safe_session_id with
            | Ok doc_context => doc_context
            | Err _ => PList []
            end)].

(** [{"type": type(msg).__name__, "content": msg.content}]. *)
Definition serialize_message (msg : pyval) : result pyval :=
  content <- getattr msg "content" ;;
  Ok (PDict [(lit "type", PStr (type_name msg)); (lit "content", content)]).

(** [serialize_messages(messages)]. *)
Definition serialize_messages (messages : list pyval) : result (list pyval) :=
  sequence (map serialize_message messages).

(** [output_node(state)]. *)
Definition output_node (state : dict) : result dict :=
  let response_text := dict_get_default state "response" (PStr []) in
  len_if_truthy response_text ;;;
  let session_id := dict_get state "session_id" in
  history_serialized <-
    (if truthy session_id
     then history <- get_history_from_orchestrator state ;;
          serialize_messages history
     else Ok []) ;;
  Ok [(lit "content", response_text); (lit "history", PList history_serialized)].

End GraphNodes.

(** ** The Orchestrator class of orchestrator.py *)

(** A call to the chat repository that went through. *)
Inductive repo_call : Type :=
| GetOrCreateSession (session_id user_id title : pyval)
| SaveMessage (session_id : pyval) (role : pystr) (content : pyval).

(** The fields of an [Orchestrator] that change: the two graphs built on
    first use ([None] before), and the attributes [update_global_context]
    sets by name. *)
Record orchestrator (G : Type) : Type := {
  cached_company_policy_graph : option G;
  cached_general_purpose_graph : option G;
  dynamic_attributes : dict
}.
Arguments cached_company_policy_graph {G} _.
Arguments cached_general_purpose_graph {G} _.
Arguments dynamic_attributes {G} _.

Module Orchestrator.
Section Methods.
Context {U : Unicode} {E : Externals}.

Definition default_history : list pyval :=
  [message "SystemMessage" (PStr (lit "You are a helpful assistant."))].

(** The [for msg in db_messages] loop of [get_session_history]. *)
Fixpoint history_of_rows (rows : list pyval) : result (list pyval) :=
  match rows with
  | [] => Ok []
  | msg :: rest =>
      role <- py_getitem msg "role" ;;
      here <-
        (if equals_str role "user"
         then content <- py_getitem msg "content" ;;
              m <- make_message "HumanMessage" content ;; Ok [m]
         else if equals_str role "assistant"
         then content <- py_getitem msg "content" ;;
              m <- make_message "AIMessage" content ;; Ok [m]
         else Ok []) ;;
      more <- history_of_rows rest ;;
      Ok (here ++ more)
  end.

(** [get_session_history(session_id, user_id)]. *)
Definition get_session_history (session_id : pyval) : list pyval :=
  match db_messages <- chat_repo_get_messages session_id ;;
        rows <- py_iter db_messages ;;
        history_of_rows rows
  with
  | Ok [] => default_history
  | Ok messages => messages
  | Err _ => default_history
  end.

(** [update_session_history(session_id, user_id, human_message,
    ai_response)]: it returns nothing and swallows every exception; the
    value here is the list of repository calls that went through. *)
Definition update_session_history
    (session_id user_id human_message ai_response : pyval) : list repo_call :=
  match
    title <- (if truthy human_message then py_slice_to human_message 50
              else Ok (PStr (lit "New Chat"))) ;;
    chat_repo_get_or_create_session session_id user_id title ;;;
    Ok title
  with
  | Err _ => []
  | Ok title =>
      GetOrCreateSession session_id user_id title ::
      match chat_repo_save_message session_id (lit "user") human_message with
      | Err _ => []
      | Ok _ =>
          SaveMessage session_id (lit "user") human_message ::
          match chat_repo_save_message session_id (lit "assistant") ai_response with
          | Err _ => []
          | Ok _ => [SaveMessage session_id (lit "assistant") ai_response]
          end
      end
  end.

Section Graphs.
Variable G : Type.
Variable build_company_policy_graph : result G.
Variable build_general_purpose_graph : result G.

(** [get_graph(intent)]: the graph or the exception, and the orchestrator
    afterwards. *)
Definition get_graph (self : orchestrator G) (intent : pyval)
  : result G * orchestrator G :=
  if equals_str intent "company_policy" then
    match cached_company_policy_graph self with
    | Some g => (Ok g, self)
    | None =>
        match build_company_policy_graph with
        | Ok g =>
            (Ok g, {| cached_company_policy_graph := Some g;
                      cached_general_purpose_graph := cached_general_purpose_graph self;
                      dynamic_attributes := dynamic_attributes self |})
        | Err e => (Err e, self)
        end
    end
  else if equals_str intent "general" then
    match cached_general_purpose_graph self with
    | Some g => (Ok g, self)
    | None =>
        match build_general_purpose_graph with
        | Ok g =>
            (Ok g, {| cached_company_policy_graph := cached_company_policy_graph self;
                      cached_general_purpose_graph := Some g;
                      dynamic_attributes := dynamic_attributes self |})
        | Err e => (Err e, self)
        end
    end
  else (Err (Exn (lit "ValueError") (lit "Unknown intent: " ++ py_str intent)), self).

Definition last_intent_attribute (session_id : pyval) : pystr :=
  lit "_last_intent_" ++ py_str session_id.

Definition context_data_attribute (session_id : pyval) : pystr :=
  lit "_context_data_" ++ py_str session_id.

(** [getattr(self, name, default)] on the attributes set by name. *)
Definition attribute_or (self : orchestrator G) (name : pystr) (dflt : pyval) : pyval :=
  match dict_find name (dynamic_attributes self) with
  | Some v => v
  | None => dflt
  end.

Definition set_attribute (self : orchestrator G) (name : pystr) (v : pyval)
  : orchestrator G :=
  {| cached_company_policy_graph := cached_company_policy_graph self;
     cached_general_purpose_graph := cached_general_purpose_graph self;
     dynamic_attributes := dict_set name v (dynamic_attributes self) |}.

(** [get_global_context(session_id, user_id)]. *)
Definition get_global_context (self : orchestrator G) (session_id : pyval) : dict :=
  let history := get_session_history session_id in
  [(lit "session_id", session_id);
   (lit "message_count", PInt (Z.of_nat (length history)));
   (lit "last_intent", attribute_or self (last_intent_attribute session_id) PNone);
   (lit "context_data",
    attribute_or self (context_data_attribute session_id) (PDict []))].

(** [update_global_context(session_id, **context_updates)]. *)
Definition update_global_context (self : orchestrator G) (session_id : pyval)
    (context_updates : dict) : orchestrator G :=
  let self := set_attribute self (last_intent_attribute session_id)
                (dict_get context_updates "intent") in
  match dict_find (lit "context_data") context_updates with
  | Some data => set_attribute self (context_data_attribute session_id) data
  | None => self
  end.

End Graphs.

Section Streaming.
Context {F : FileSystem} {Sv : Services}.
Variable build_company_policy_graph : result (dict -> stream).
Variable build_general_purpose_graph : result (dict -> stream).

(** The orchestrator as the value of the state's "orchestrator" key. *)
Definition self_reference : pyval :=
  PObj (lit "Orchestrator") (lit "Orchestrator") [].

(** The initial state [create_stream_generator] assembles. *)
Definition initial_state_of (session_id message : pystr)
    (document_url user_id : pyval) (intent : pystr) : dict :=
  [(lit "session_id", PStr session_id); (lit "message", PStr message);
   (lit "document_url", document_url); (lit "intent", PStr intent);
   (lit "orchestrator", self_reference); (lit "user_id", user_id)].

(** [create_stream_generator(session_id, message, document_url, user_id)]
    for a session id and a message that are strings, as their annotations
    say: the items the returned generator yields, or the exception raised
    on the way to it, and the orchestrator afterwards. *)
Definition create_stream_generator (self : orchestrator (dict -> stream))
    (session_id message : pystr) (document_url user_id : pyval)
  : result (list pystr) * orchestrator (dict -> stream) :=
  let intent := classify_intent message session_id in
  match get_graph build_company_policy_graph build_general_purpose_graph
          self (PStr intent) with
  | (Ok graph, self') =>
      (create_stream_generator graph
         (initial_state_of session_id message document_url user_id intent),
       self')
  | (Err e, self') => (Err e, self')
  end.

End Streaming.
End Methods.
End Orchestrator.

(** ** The nodes that persist and the graph as a whole *)

Section Wiring.
Context {U : Unicode} {E : Externals} {C : Collaborators}.

Definition is_orchestrator (v : pyval) : bool :=
  match v with
  | PObj cls _ _ => pystr_eqb cls (lit "Orchestrator")
  | _ => false
  end.

(** [orchestrator.name] in [orchestrator = state.get("orchestrator")]
    followed by [if orchestrator: orchestrator.name(...) else:
    get_orchestrator().name(...)]: a value that is truthy and no
    orchestrator has no such method.  [get_orchestrator()] gives the
    orchestrator of the process, which exists once a request is served. *)
Definition orchestrator_method (state : dict) (name : string) : result unit :=
  let orchestrator := dict_get state "orchestrator" in
  if truthy orchestrator && negb (is_orchestrator orchestrator)
  then Err (AttributeError orchestrator name)
  else Ok tt.

(** [get_history_from_orchestrator(state)]. *)
Definition history_from_orchestrator (state : dict) : result (list pyval) :=
  orchestrator_method state "get_session_history" ;;;
  session_id <- state_item state "session_id" ;;
  Ok (Orchestrator.get_session_history session_id).

(** [session_update_node(state)]: both branches of its [if] call
    [update_session_history] with the same arguments, and that method
    swallows every exception. *)
Definition session_update_node (state : dict) : result dict :=
  state_item state "session_id" ;;;
  orchestrator_method state "update_session_history" ;;;
  Ok [].

(** The repository calls [session_update_node] gets through. *)
Definition session_update_saved (state : dict) : list repo_call :=
  match session_update_node state, state_item state "session_id" with
  | Ok _, Ok session_id =>
      Orchestrator.update_session_history session_id (dict_get state "user_id")
        (dict_get_default state "message" (PStr []))
        (dict_get_default state "response" (PStr []))
  | _, _ => []
  end.

(** The functions [build_company_policy_graph] registers for the nodes
    after [history]. *)
Definition source_node (n : node) (state : dict) : list pyval * result dict :=
  match n with
  | doc_download => ([], document_download_node state)
  | doc_process => ([], document_processing_node state)
  | policy_retriever => ([], policy_retriever_node state)
  | doc_retriever => ([], document_retriever_node state)
  | context_combine => ([], context_combination_node state)
  | llm =>
      (match state_item state "history", state_item state "full_user_message" with
       | Ok (PList h), Ok full =>
           chat_model_tokens
             ([message "SystemMessage" (PStr MAIN_PROMPT)] ++ h
              ++ [message "HumanMessage" full])
       | _, _ => []
       end,
       llm_node state)
  | session_update => ([], session_update_node state)
  | output => ([], output_node state)
  | input | history => ([], Ok [])
  end.

End Wiring.

(** The collaborators of a run whose nodes are the functions of graph.py:
    the history comes from the orchestrator's own method, the answers of
    the database to the two routers are those of [C], and the node bodies
    are [source_node]. *)
Definition with_history_store {U : Unicode} {E : Externals} (C : Collaborators)
  : Collaborators := {|
  get_history_from_orchestrator := history_from_orchestrator;
  temp_table_after_history := @temp_table_after_history C;
  temp_table_after_policy := @temp_table_after_policy C;
  node_body := @node_body C
|}.

Definition wired {U : Unicode} {E : Externals} (C : Collaborators) : Collaborators := {|
  get_history_from_orchestrator := history_from_orchestrator;
  temp_table_after_history := @temp_table_after_history C;
  temp_table_after_policy := @temp_table_after_policy C;
  node_body := source_node (C := with_history_store C)
|}.

Section Invoke.
Context {U : Unicode} {C : Collaborators}.

(** Modelled from the spec: [invoke] of the graph runtime (the LangGraph
    library), the state after the last node of a run that ends normally,
    or the exception of a run that does not. *)
Definition final_state (initial_state : dict) (steps : list step) : dict :=
  match last (map Some steps) None with
  | Some s =>
      match step_result s with
      | Ok update => dict_update (step_state s) update
      | Err _ => step_state s
      end
  | None => initial_state
  end.

Definition invoke (initial_state : dict) : result dict :=
  match run_company_policy_graph initial_state with
  | (steps, None) => Ok (final_state initial_state steps)
  | (_, Some e) => Err e
  end.

(** The [try] block of [run_company_policy]; [built] is the outcome of
    [build_company_policy_graph()]. *)
Definition company_policy_content (built : result unit)
    (session_id message document_url : pyval) : result pyval :=
  built ;;;
  final <- invoke [(lit "session_id", session_id); (lit "message", message);
                   (lit "document_url", document_url)] ;;
  let content := py_or (dict_get_default final "content" (PStr []))
                       (dict_get_default final "response" (PStr [])) in
  (if truthy content then slice_check content else Ok tt) ;;;
  len_if_truthy content ;;;
  Ok content.

(** [run_company_policy(session_id, message, document_url)]. *)
Definition run_company_policy (built : result unit)
    (session_id message document_url : pyval) : result pyval :=
  slice_check message ;;;
  Ok match company_policy_content built session_id message document_url with
     | Ok content => content
     | Err e => PStr (lit "Error processing request: " ++ exn_str e)
     end.

End Invoke.

(** ** More of executor.py *)

Section ExecutorRest.
Context {U : Unicode} {F : FileSystem}.

(** [run_graph_stream(graph, initial_state)]: what iterating it gives. *)
Definition run_graph_stream (graph : dict -> stream) (initial_state : dict)
  : stream :=
  match message_preview initial_state with
  | Ok _ => graph initial_state
  | Err e => ([], Some e)
  end.

(** The line [async_producer] queues for one payload. *)
Definition payload_frame (payload : dict) : pystr :=
  match serialize_payload_for_sse payload with
  | Ok sse => sse
  | Err _ => fallback_frame (raw_form payload)
  end.

(** The lines queued for one event. *)
Definition event_frames (initial_state : dict) (event : dict) : list pystr :=
  match format_event_for_ui event initial_state with
  | Ok payloads => map payload_frame payloads
  | Err _ => []
  end.

End ExecutorRest.

(** ** agents/attached_document_processor.py: [chunk_text] *)

(** [sent_tokenize] of the nltk library. *)
Class Tokenizer : Type := {
  sent_tokenize : pystr -> list pystr
}.

(** [text.split()]: the maximal runs of characters that are not white
    space.  [word] holds the current run, last character first. *)
Fixpoint split_runs (word : pystr) (text : pystr) : list pystr :=
  match text with
  | [] => if nonempty word then [rev word] else []
  | c :: text' =>
      if is_space c
      then (if nonempty word then [rev word] else []) ++ split_runs [] text'
      else split_runs (c :: word) text'
  end.

Definition py_split (text : pystr) : list pystr := split_runs [] text.

(** The [while start < len(sentences)] loop of [chunk_text], run for at
    most [fuel] rounds: the chunks, or [None] when the rounds do not
    suffice. *)
Fixpoint chunk_loop (fuel : nat) (sentences : list pystr)
    (sentences_per_chunk overlap start : Z) : option (list pystr) :=
  match fuel with
  | O => None
  | S fuel' =>
      if (start <? Z.of_nat (length sentences))%Z then
        let stop := (start + sentences_per_chunk)%Z in
        let chunk := join (lit " ") (py_slice start stop sentences) in
        match chunk_loop fuel' sentences sentences_per_chunk overlap
                (start + (sentences_per_chunk - overlap))%Z with
        | Some chunks => Some (chunk :: chunks)
        | None => None
        end
      else Some []
  end.

(** [chunk_text(text, sentences_per_chunk, overlap)]. *)
Definition chunk_text {T : Tokenizer} (fuel : nat) (text : pystr)
    (sentences_per_chunk overlap : Z) : option (list pystr) :=
  let text := join (lit " ") (py_split text) in
  chunk_loop fuel (sent_tokenize text) sentences_per_chunk overlap 0.

(** ** Services and externals used to run the model *)

(** A repository that holds the given rows and accepts every write, a
    retriever that finds the given rows, and a chat model that answers with
    a fixed text. *)
Definition simple_externals (stored found : list pyval) (answer : pystr) : Externals := {|
  MAIN_PROMPT := lit "You are a Policy Compliance Agent.";
  fetch_policy_rows := fun _ => Ok found;
  fetch_session_rows := fun _ _ => Ok found;
  chat_model := fun _ => Ok (message "AIMessage" (PStr answer));
  chat_model_tokens := fun _ => [];
  download_to_temp := fun _ => Ok (lit "/tmp/tmpabc");
  process_document := fun _ _ => Ok (PDict [(lit "status", PStr (lit "success"))]);
  remove_file := fun _ => Ok tt;
  chat_repo_get_messages := fun _ => Ok (PList stored);
  chat_repo_get_or_create_session := fun _ _ _ => Ok tt;
  chat_repo_save_message := fun _ _ _ => Ok tt
|}.

(** Everything outside the core fails. *)
Definition failing_externals : Externals := {|
  MAIN_PROMPT := lit "You are a Policy Compliance Agent.";
  fetch_policy_rows := fun _ => Err (Exn (lit "RuntimeError") (lit "embedding failed"));
  fetch_session_rows := fun _ _ => Err (Exn (lit "RuntimeError") (lit "embedding failed"));
  chat_model := fun _ => Err (Exn (lit "RuntimeError") (lit "model unavailable"));
  chat_model_tokens := fun _ => [];
  download_to_temp := fun _ => Err (Exn (lit "ConnectionError") (lit "unreachable"));
  process_document := fun _ _ => Err (Exn (lit "RuntimeError") (lit "no parser"));
  remove_file := fun _ => Err (Exn (lit "OSError") (lit "no such file"));
  chat_repo_get_messages := fun _ => Err (Exn (lit "OperationalError") (lit "connection refused"));
  chat_repo_get_or_create_session :=
    fun _ _ _ => Err (Exn (lit "OperationalError") (lit "connection refused"));
  chat_repo_save_message :=
    fun _ _ _ => Err (Exn (lit "OperationalError") (lit "connection refused"))
|}.

(** A tokenizer that ends a sentence at every full stop. *)
Fixpoint stop_sentences (current : pystr) (text : pystr) : list pystr :=
  match text with
  | [] => if nonempty current then [rev current] else []
  | c :: text' =>
      if N.eqb c 46 then rev (c :: current) :: stop_sentences [] text'
      else stop_sentences (c :: current) text'
  end.

Definition full_stop_tokenizer : Tokenizer := {|
  sent_tokenize := fun text => map lstrip (stop_sentences [] text)
|}.

(** ** Statements about the formatter's dispatch *)

(** The node names and chain events that [format_event_for_ui] handles in a
    branch of their own; [starting] tells a start event from an end event. *)
Definition handled_in_own_branch (node_name : pystr) (starting : bool) : bool :=
  str_in node_name [lit "input"; lit "input_node"]
  || str_in node_name [lit "doc_download"; lit "document_download_node"]
  || str_in node_name [lit "doc_process"; lit "document_processing_node"]
  || (if starting
      then str_in node_name [lit "llm"; lit "llm_node"]
      else str_in node_name [lit "history"; lit "session_history_node"]
           || str_in node_name [lit "policy_retriever"; lit "policy_retriever_node"]
           || str_in node_name [lit "doc_retriever"; lit "document_retriever_node"]
           || str_in node_name [lit "context_combine"; lit "context_combination_node"]
           || str_in node_name [lit "session_update"; lit "session_update_node"]
           || str_in node_name [lit "output"; lit "output_node"]).

Definition chain_event (starting : bool) : pystr :=
  if starting then lit "on_chain_start" else lit "on_chain_end".

(** Printable ASCII, the characters [json.dumps] writes. *)
Definition printable (s : pystr) : Prop :=
  Forall (fun c => (32 <= c <= 126)%N) s.

(** The payload of a streamed token. *)
Definition token_payload (node_name token : pystr) : dict :=
  [(lit "type", PStr (lit "llm_stream")); (lit "node", PStr node_name);
   (lit "content", PStr token)].

(** The event the runtime emits when a node returns [update]. *)
Definition node_end (n : node) (update : dict) : dict :=
  raw_event "on_chain_end" n [(lit "output", PDict update)].

(** The formatter returns for the event. *)
Definition formats {U : Unicode} {F : FileSystem} (st ev : dict) : Prop :=
  exists payloads, format_event_for_ui ev st = Ok payloads.

(** A value [v] of which [v[:100]] can be taken. *)
Definition sliceable (v : pyval) : bool :=
  match v with
  | PStr _ | PList _ | PTuple _ => true
  | _ => false
  end.

(** A message object of one of the three classes the code constructs. *)
Definition chat_message (classes : list string) (v : pyval) : Prop :=
  exists cls content, In cls classes /\ v = message cls content.

(** The conversation [llm_node] sends to the chat model. *)
Definition conversation {E : Externals} (h : list pyval) (full : pyval) : list pyval :=
  [message "SystemMessage" (PStr MAIN_PROMPT)] ++ h ++ [message "HumanMessage" full].

(** The nodes of a run that ends at [output]: the document nodes are on the
    path when [download] holds, the document retriever when [retrieve]
    holds. *)
Definition path_of (download retrieve : bool) : list node :=
  [input; history]
  ++ (if download then [doc_download; doc_process] else [])
  ++ [policy_retriever]
  ++ (if retrieve then [doc_retriever] else [])
  ++ [context_combine; llm; session_update; output].

(** The node returned. *)
Definition returned (s : step) : Prop := exists update, step_result s = Ok update.

(** A run from [n] within [limit] steps ends without an exception after
    the nodes [nodes], each of which returned. *)
Definition completes {U : Unicode} {C : Collaborators} (limit : nat) (n : node)
    (state : dict) (nodes : list node) : Prop :=
  exists steps,
    run_from limit n state = (steps, None) /\
    map step_node steps = nodes /\
    Forall returned steps.

(** The chunk that starts at sentence [start]. *)
Definition chunk_from (sentences : list pystr) (sentences_per_chunk start : Z)
  : pystr :=
  join (lit " ") (py_slice start (start + sentences_per_chunk)%Z sentences).

(** The number of chunks of [n] sentences when each chunk starts [stride]
    sentences after the one before. *)
Definition chunk_count (n stride : Z) : nat :=
  Z.to_nat ((n + stride - 1) / stride).

(** The position of a node along the edges of the graph. *)
Definition rank (n : node) : nat :=
  match n with
  | input => 0
  | history => 1
  | doc_download => 2
  | doc_process => 3
  | policy_retriever => 4
  | doc_retriever => 5
  | context_combine => 6
  | llm => 7
  | session_update => 8
  | output => 9
  end.

Definition all_nodes : list node :=
  [input; history; doc_download; doc_process; policy_retriever; doc_retriever;
   context_combine; llm; session_update; output].

(** * Properties *)

Unset Implicit Arguments.

(** ** Strings *)

Lemma pystr_eqb_eq (a b : pystr) : pystr_eqb a b = true <-> a = b.
Proof.
  revert b; induction a as [|x a IH]; intros [|y b]; simpl;
    try (split; [discriminate | discriminate]); try tauto.
  rewrite andb_true_iff, N.eqb_eq, IH.
  split; [intros [-> ->]; reflexivity | intros E; inversion E; auto].
Qed.

Lemma pystr_eqb_refl (a : pystr) : pystr_eqb a a = true.
Proof. apply pystr_eqb_eq; reflexivity. Qed.

Lemma drop_while_suffix {A : Type} (f : A -> bool) (l : list A) :
  exists dropped, l = dropped ++ drop_while f l.
Proof.
  induction l as [|x l [d IH]]; simpl.
  - exists []; reflexivity.
  - destruct (f x).
    + exists (x :: d); simpl; f_equal; exact IH.
    + exists []; reflexivity.
Qed.

(** [rstrip] keeps a prefix of its argument. *)
Lemma rstrip_prefix (s : pystr) : exists dropped, s = rstrip s ++ dropped.
Proof.
  unfold rstrip.
  destruct (drop_while_suffix is_space (rev s)) as [d E].
  exists (rev d).
  rewrite <- rev_app_distr, <- E, rev_involutive; reflexivity.
Qed.

Lemma rstrip_length (s : pystr) : length (rstrip s) <= length s.
Proof.
  destruct (rstrip_prefix s) as [d E].
  rewrite E at 2; rewrite length_app; lia.
Qed.

Lemma utf8_app (a b : pystr) : utf8 (a ++ b) = utf8 a ++ utf8 b.
Proof. unfold utf8; apply flat_map_app. Qed.

Lemma slice_to_nonneg {A : Type} (k : Z) (s : list A) :
  (0 <= k)%Z -> slice_to k s = firstn (Z.to_nat k) s.
Proof.
  intros H; unfold slice_to.
  destruct (Z.leb_spec 0 k); [reflexivity | lia].
Qed.

(** ** Text truncation *)

Section Truncation.
Context {U : Unicode}.

Lemma _truncate_short (s : pystr) (N : Z) :
  (Z.of_nat (length s) <= N)%Z -> _truncate (PStr s) N = s.
Proof.
  intros H; unfold _truncate; simpl.
  destruct (Z.leb_spec (Z.of_nat (length s)) N); [reflexivity | lia].
Qed.

Lemma _truncate_long (s : pystr) (N : Z) :
  (N < Z.of_nat (length s))%Z ->
  _truncate (PStr s) N = rstrip (slice_to (N - 1) s) ++ [ellipsis].
Proof.
  intros H; unfold _truncate; simpl.
  destruct (Z.leb_spec (Z.of_nat (length s)) N); [lia | reflexivity].
Qed.

Lemma slice_to_prefix {A : Type} (k : Z) (s : list A) :
  exists n, slice_to k s = firstn n s.
Proof. unfold slice_to; destruct (0 <=? k)%Z; eexists; reflexivity. Qed.

(** C3, as the code has it.  A text no longer than [N] is returned
    unchanged.  A longer one is cut to [s[:N-1]], its first [N - 1]
    characters when [N] is at least one; white space at the end of the cut
    is removed and one ellipsis is appended, so the result has at most [N]
    characters.  What is kept is a whole number of code points of the
    text: the UTF-8 form of the text is the UTF-8 form of what is kept
    followed by that of what is dropped. *)
Theorem truncate_keeps_limit (s : pystr) (N : Z) :
  ((Z.of_nat (length s) <= N)%Z -> _truncate (PStr s) N = s) /\
  ((N < Z.of_nat (length s))%Z ->
   exists kept dropped,
     _truncate (PStr s) N = kept ++ [ellipsis] /\
     kept = rstrip (slice_to (N - 1) s) /\
     s = kept ++ dropped /\
     utf8 s = utf8 kept ++ utf8 dropped /\
     ((1 <= N)%Z ->
      kept = rstrip (firstn (Z.to_nat (N - 1)) s) /\
      (Z.of_nat (length (_truncate (PStr s) N)) <= N)%Z)).
Proof.
  split; [apply _truncate_short|].
  intros Hlong.
  destruct (slice_to_prefix (N - 1) s) as [n Hn].
  destruct (rstrip_prefix (slice_to (N - 1) s)) as [d Hd].
  exists (rstrip (slice_to (N - 1) s)), (d ++ skipn n s).
  assert (Hs : s = rstrip (slice_to (N - 1) s) ++ d ++ skipn n s).
  { rewrite app_assoc, <- Hd, Hn; symmetry; apply firstn_skipn. }
  rewrite _truncate_long by exact Hlong.
  split; [reflexivity|]; split; [reflexivity|]; split; [exact Hs|].
  split; [rewrite <- utf8_app, <- Hs; reflexivity|].
  intros HN; rewrite slice_to_nonneg by lia.
  split; [reflexivity|].
  rewrite length_app; simpl.
  pose proof (rstrip_length (firstn (Z.to_nat (N - 1)) s)) as Hl.
  rewrite length_firstn in Hl; lia.
Qed.

End Truncation.

(** The witness of [truncate_keeps_limit]: a text of six characters and the
    limit three. *)
Lemma truncate_keeps_limit_witness :
  _truncate (U := plain_unicode) (PStr (lit "abcdef")) 3 = lit "ab" ++ [ellipsis].
Proof.
  destruct (truncate_keeps_limit (U := plain_unicode) (lit "abcdef") 3)
    as [_ H].
  destruct H as (kept & dropped & E & K & _); [simpl; lia|].
  rewrite E, K; reflexivity.
Defined.

(** C3 as the specification words it fails: six characters cut at the limit
    three give two characters and the ellipsis, not three. *)
Lemma truncate_rule_fails :
  _truncate (U := plain_unicode) (PStr (lit "abcdef")) 3
  <> truncate_rule (lit "abcdef") 3.
Proof. vm_compute; discriminate. Qed.

(** ** Intent classification *)

Lemma keyword_matches_pos (keywords : list pystr) (text : pystr) :
  (0 <? keyword_matches keywords text) = true <->
  exists keyword, In keyword keywords /\ contains keyword text = true.
Proof.
  unfold keyword_matches; rewrite Nat.ltb_lt.
  induction keywords as [|k ks IH]; simpl.
  - split; [lia | intros (x & [] & _)].
  - destruct (contains k text) eqn:E; simpl.
    + split; [intros _; exists k; auto | lia].
    + rewrite IH; split.
      * intros (x & Hin & Hx); exists x; auto.
      * intros (x & [<- | Hin] & Hx); [congruence | exists x; auto].
Qed.

Lemma keyword_matches_zero (keywords : list pystr) (text : pystr) :
  (forall keyword, In keyword keywords -> contains keyword text = false) ->
  (0 <? keyword_matches keywords text) = false.
Proof.
  intros H.
  destruct (0 <? keyword_matches keywords text) eqn:E; [|reflexivity].
  apply keyword_matches_pos in E; destruct E as (k & Hin & Hk).
  rewrite (H k Hin) in Hk; discriminate.
Qed.

Section Classification.
Context {U : Unicode} {Sv : Services}.

(** Without a rule match, [classify_intent] is the chat model's answer. *)
Lemma classify_intent_defers (message session_id : pystr) :
  _rule_based_classification message = None ->
  classify_intent message session_id = _llm_classification message session_id.
Proof. intros H; unfold classify_intent; rewrite H; reflexivity. Qed.

(** C4.  A message whose lower-cased, trimmed text contains a policy
    keyword is classified "company_policy" by the rules, whatever other
    keywords it contains; a message containing no keyword of the four sets
    gets no label from the rules, and [classify_intent] then returns what
    the chat model fallback returns. *)
Theorem rule_based_policy_first (message : pystr) :
  ((exists keyword, In keyword policy_keywords /\
                    contains keyword (strip (py_lower message)) = true) ->
   _rule_based_classification message = Some (lit "company_policy")) /\
  ((forall keyword,
      In keyword (policy_keywords ++ casual_keywords
                  ++ capability_keywords ++ history_keywords) ->
      contains keyword (strip (py_lower message)) = false) ->
   _rule_based_classification message = None /\
   forall session_id,
     classify_intent message session_id = _llm_classification message session_id).
Proof.
  split.
  - intros H; unfold _rule_based_classification.
    apply keyword_matches_pos in H; rewrite H; reflexivity.
  - intros H.
    assert (E : _rule_based_classification message = None).
    { unfold _rule_based_classification.
      rewrite !keyword_matches_zero; [reflexivity | | | |];
        intros k Hk; apply H; repeat (apply in_or_app; auto; right); auto. }
    split; [exact E | intros sid; apply classify_intent_defers, E].
Qed.

Lemma known_label (intent : pystr) :
  str_in intent [lit "company_policy"; lit "general"] = true <->
  intent = lit "company_policy" \/ intent = lit "general".
Proof.
  unfold str_in; simpl; rewrite !orb_true_iff, !pystr_eqb_eq.
  intuition discriminate.
Qed.

(** C5.  [_llm_classification] returns one of the two labels; it returns
    "general" when the call to the chat model raises, and when the answer,
    stripped and lower-cased, is neither of the two labels. *)
Theorem llm_classification_fail_safe (message session_id : pystr) :
  (_llm_classification message session_id = lit "company_policy" \/
   _llm_classification message session_id = lit "general") /\
  (forall e, llm_invoke message = Err e ->
             _llm_classification message session_id = lit "general") /\
  (forall response answer,
      llm_invoke message = Ok response ->
      getattr response "content" = Ok (PStr answer) ->
      py_lower (strip answer) <> lit "company_policy" ->
      py_lower (strip answer) <> lit "general" ->
      _llm_classification message session_id = lit "general").
Proof.
  unfold _llm_classification; repeat split.
  - destruct (llm_intent message session_id) as [intent|]; [|auto].
    destruct (str_in intent _) eqn:E; [apply known_label in E; exact E | auto].
  - intros e He; unfold llm_intent.
    destruct (get_session_history session_id); cbn [bind]; [rewrite He|]; reflexivity.
  - intros response answer Hr Hc Hp Hg; unfold llm_intent.
    destruct (get_session_history session_id); cbn [bind]; [|reflexivity].
    rewrite Hr; cbn [bind]; rewrite Hc; cbn [bind str_method].
    destruct (str_in (py_lower (strip answer)) _) eqn:E; [|reflexivity].
    apply known_label in E; tauto.
Qed.

End Classification.

(** The witness of [rule_based_policy_first]: a policy question that also
    greets, and a text with no keyword. *)
Lemma rule_based_policy_first_witness :
  _rule_based_classification (U := plain_unicode)
    (lit "Hello, what is our vacation policy?") = Some (lit "company_policy")
  /\ _rule_based_classification (U := plain_unicode) (lit "xyzzy") = None.
Proof.
  split.
  - apply (rule_based_policy_first (U := plain_unicode) (Sv := model_down)).
    exists (lit "policy"); split; [vm_compute; tauto | vm_compute; reflexivity].
  - apply (rule_based_policy_first (U := plain_unicode) (Sv := model_down)).
    intros k Hk. vm_compute in Hk.
    repeat (destruct Hk as [<- | Hk]; [vm_compute; reflexivity|]).
    destruct Hk.
Defined.

(** The witness of [llm_classification_fail_safe]: a model that is down,
    and one that answers with another word. *)
Lemma llm_classification_fail_safe_witness :
  _llm_classification (U := plain_unicode) (Sv := model_down)
    (lit "xyzzy") (lit "s1") = lit "general"
  /\ _llm_classification (U := plain_unicode) (Sv := model_says (lit " Maybe "))
       (lit "xyzzy") (lit "s1") = lit "general".
Proof.
  split.
  - destruct (llm_classification_fail_safe (U := plain_unicode) (Sv := model_down)
                (lit "xyzzy") (lit "s1")) as (_ & H & _).
    exact (H _ eq_refl).
  - destruct (llm_classification_fail_safe (U := plain_unicode)
                (Sv := model_says (lit " Maybe ")) (lit "xyzzy") (lit "s1"))
      as (_ & _ & H).
    apply (H _ (lit " Maybe ") eq_refl eq_refl); vm_compute; discriminate.
Defined.

(** ** Dictionaries *)

Lemma dict_find_set (k k' : pystr) (v : pyval) (d : dict) :
  dict_find k' (dict_set k v d)
  = if pystr_eqb k' k then Some v else dict_find k' d.
Proof.
  induction d as [|[k1 v1] d IH]; simpl.
  - destruct (pystr_eqb k' k); reflexivity.
  - destruct (pystr_eqb k k1) eqn:E; simpl.
    + apply pystr_eqb_eq in E; subst k1.
      destruct (pystr_eqb k' k); reflexivity.
    + rewrite IH.
      destruct (pystr_eqb k' k1) eqn:E1; [|reflexivity].
      apply pystr_eqb_eq in E1; subst k1.
      destruct (pystr_eqb k' k) eqn:E2; [|reflexivity].
      apply pystr_eqb_eq in E2; subst k'.
      rewrite pystr_eqb_refl in E; discriminate.
Qed.

(** Merging a one-key update. *)
Lemma dict_get_update1 (d : dict) (k : pystr) (v : pyval) (key : string) :
  dict_get (dict_update d [(k, v)]) key
  = if pystr_eqb (lit key) k then v else dict_get d key.
Proof.
  unfold dict_get, dict_update; simpl; rewrite dict_find_set.
  destruct (pystr_eqb (lit key) k); reflexivity.
Qed.

Lemma dict_set_head (k k0 : pystr) (v v0 : pyval) (d : dict) :
  pystr_eqb k k0 = false ->
  dict_set k v ((k0, v0) :: d) = (k0, v0) :: dict_set k v d.
Proof. intros H; simpl; rewrite H; reflexivity. Qed.

Lemma dict_update_head (k0 : pystr) (v0 : pyval) (d u : dict) :
  Forall (fun kv => pystr_eqb (fst kv) k0 = false) u ->
  dict_update ((k0, v0) :: d) u = (k0, v0) :: dict_update d u.
Proof.
  unfold dict_update; revert d.
  induction u as [|[k v] u IH]; intros d H; simpl; [reflexivity|].
  inversion H as [|? ? Hk Hu]; subst; simpl in Hk.
  rewrite Hk; apply IH; exact Hu.
Qed.

(** ** Routing in the company-policy graph *)

Section Routing.
Context {U : Unicode} {C : Collaborators}.

Lemma has_temp_table_found (state : dict) (check : pystr -> result pyval) :
  truthy (dict_get state "safe_session_id") = true ->
  has_temp_table check state
  = table_found (check (table_name (dict_get state "safe_session_id"))).
Proof. intros H; unfold has_temp_table; rewrite H; reflexivity. Qed.

(** C10.  When the query finds the session's temporary table,
    [route_after_history] answers "has_doc" and the graph goes straight to
    [policy_retriever], whatever [document_url] holds; when the query
    raises, the router answers as it does for an absent table, and the run
    goes on to the node that answer selects. *)
Theorem stored_document_takes_precedence (state : dict) :
  let name := table_name (dict_get state "safe_session_id") in
  (forall regclass,
      truthy (dict_get state "safe_session_id") = true ->
      temp_table_after_history name = Ok (PTuple [regclass]) ->
      truthy regclass = true ->
      route_after_history state = lit "has_doc" /\
      next_node history state = Ok (Some policy_retriever)) /\
  (forall e,
      temp_table_after_history name = Err e ->
      route_after_history state
      = (if truthy (dict_get state "document_url")
         then lit "with_doc" else lit "no_doc") /\
      next_node history state
      = Ok (Some (if truthy (dict_get state "document_url")
                  then doc_download else policy_retriever))).
Proof.
  intros name; split.
  - intros regclass Hs Hq Hr.
    assert (E : route_after_history state = lit "has_doc").
    { unfold route_after_history.
      rewrite has_temp_table_found by exact Hs.
      fold name; rewrite Hq; unfold table_found; simpl; rewrite Hr; reflexivity. }
    split; [exact E|].
    unfold next_node; rewrite E; reflexivity.
  - intros e Hq.
    assert (E : route_after_history state
                = if truthy (dict_get state "document_url")
                  then lit "with_doc" else lit "no_doc").
    { unfold route_after_history, has_temp_table.
      fold name; rewrite Hq; unfold table_found; simpl.
      destruct (truthy (dict_get state "safe_session_id")); reflexivity. }
    split; [exact E|].
    unfold next_node; rewrite E.
    destruct (truthy (dict_get state "document_url")); reflexivity.
Qed.

End Routing.

(** The witness of [stored_document_takes_precedence]: a state with a
    document URL, once with the table stored and once with the database
    down. *)
Lemma stored_document_takes_precedence_witness :
  let state := [(lit "safe_session_id", PStr (lit "s_1"));
                (lit "document_url", PStr (lit "https://example.com/a.pdf"))] in
  route_after_history (U := plain_unicode) (C := stored_document) state
  = lit "has_doc"
  /\ route_after_history (U := plain_unicode) (C := database_down) state
     = lit "with_doc".
Proof.
  intros state; split.
  - destruct (stored_document_takes_precedence (U := plain_unicode)
                (C := stored_document) state) as [H _].
    destruct (H (PStr (lit "public.temp_documents_s_1")) eq_refl eq_refl eq_refl)
      as [E _].
    exact E.
  - destruct (stored_document_takes_precedence (U := plain_unicode)
                (C := database_down) state) as [_ H].
    exact (proj1 (H _ eq_refl)).
Defined.

Section Paths.
Context {U : Unicode} {C : Collaborators}.

Lemma run_from_step (limit : nat) (n : node) (state : dict) :
  run_from (S limit) n state
  = let (tokens, r) := node_function n state in
    let here := {| step_node := n; step_state := state;
                   step_tokens := tokens; step_result := r |} in
    match r with
    | Err e => ([here], Some e)
    | Ok update =>
        match next_node n (dict_update state update) with
        | Err e => ([here], Some e)
        | Ok None => ([here], None)
        | Ok (Some n') =>
            let (steps, ending) := run_from limit n' (dict_update state update) in
            (here :: steps, ending)
        end
    end.
Proof. reflexivity. Qed.

(** No edge leads back to the document nodes once a run is past them. *)
Lemma next_node_past (n n' : node) (state : dict) :
  past_documents n = true ->
  next_node n state = Ok (Some n') ->
  past_documents n' = true.
Proof.
  destruct n; simpl; try discriminate; intros _ H;
    try (inversion H; subst; reflexivity).
  unfold route_after_policy in H.
  destruct (has_temp_table temp_table_after_policy state);
    inversion H; subst; reflexivity.
Qed.

Lemma run_from_past (limit : nat) : forall (n : node) (state : dict),
  past_documents n = true ->
  Forall (fun s => past_documents (step_node s) = true)
         (fst (run_from limit n state)).
Proof.
  induction limit as [|limit IH]; intros n state Hn; [constructor|].
  rewrite run_from_step.
  destruct (node_function n state) as [tokens [update|e]]; simpl;
    [|repeat constructor; exact Hn].
  destruct (next_node n (dict_update state update)) as [[n'|]|e] eqn:E;
    try (repeat constructor; exact Hn).
  specialize (IH n' (dict_update state update) (next_node_past _ _ _ Hn E)).
  destruct (run_from limit n' (dict_update state update)) as [steps ending].
  constructor; [exact Hn | exact IH].
Qed.

(** What [input_node] returns when it returns. *)
Lemma input_node_ok (state update : dict) :
  input_node state = Ok update ->
  exists s, dict_get state "session_id" = PStr s /\
            update = [(lit "safe_session_id", PStr (replace_char 45 95 s))].
Proof.
  unfold input_node, py_assert, bind.
  destruct (truthy (dict_get state "session_id")); [|discriminate].
  destruct (truthy (dict_get state "message")); [|discriminate].
  destruct (truthy (dict_get state "user_id")); [|discriminate].
  destruct (dict_get state "session_id") as [| | |s| | | |]; simpl;
    try discriminate.
  intros H; inversion H; exists s; auto.
Qed.

Lemma session_history_node_ok (state update : dict) :
  session_history_node state = Ok update ->
  exists l, update = [(lit "history", PList l)].
Proof.
  unfold session_history_node, bind.
  destruct (dict_find (lit "session_id") state); [|discriminate].
  destruct (get_history_from_orchestrator state) as [l|]; [|discriminate].
  intros H; inversion H; exists l; reflexivity.
Qed.

(** The state [route_after_history] sees: the initial one with the safe
    session id and the history merged in. *)
Lemma route_without_document (st u h : dict) :
  truthy (dict_get st "document_url") = false ->
  (forall s, dict_get st "session_id" = PStr s ->
             table_found (temp_table_after_history
                            (table_name (PStr (replace_char 45 95 s)))) = false) ->
  input_node st = Ok u ->
  session_history_node (dict_update st u) = Ok h ->
  route_after_history (dict_update (dict_update st u) h) = lit "no_doc".
Proof.
  intros Hurl Htab Hu Hh.
  apply input_node_ok in Hu; destruct Hu as (s & Hs & ->).
  apply session_history_node_ok in Hh; destruct Hh as (l & ->).
  unfold route_after_history, has_temp_table.
  rewrite !dict_get_update1.
  change (pystr_eqb (lit "safe_session_id") (lit "history")) with false.
  change (pystr_eqb (lit "document_url") (lit "history")) with false.
  change (pystr_eqb (lit "safe_session_id") (lit "safe_session_id")) with true.
  change (pystr_eqb (lit "document_url") (lit "safe_session_id")) with false.
  cbv iota.
  rewrite (Htab s Hs), Hurl.
  destruct (truthy (PStr (replace_char 45 95 s))); reflexivity.
Qed.

(** The nodes of a run that starts without a document and without a stored
    table. *)
Lemma run_without_document (st : dict) :
  truthy (dict_get st "document_url") = false ->
  (forall s, dict_get st "session_id" = PStr s ->
             table_found (temp_table_after_history
                            (table_name (PStr (replace_char 45 95 s)))) = false) ->
  Forall (fun s => document_node (step_node s) = false)
         (fst (run_company_policy_graph st)).
Proof.
  intros Hurl Htab.
  unfold run_company_policy_graph, recursion_limit.
  rewrite run_from_step.
  change (node_function input st) with (@nil pyval, input_node st).
  cbv beta iota.
  destruct (input_node st) as [u|e] eqn:Hu; [|repeat constructor].
  change (next_node input (dict_update st u)) with (Ok (A := option node) (Some history)).
  cbv beta iota.
  rewrite run_from_step.
  change (node_function history (dict_update st u))
    with (@nil pyval, session_history_node (dict_update st u)).
  cbv beta iota.
  destruct (session_history_node (dict_update st u)) as [h|e] eqn:Hh;
    [|repeat constructor].
  unfold next_node at 1.
  rewrite (route_without_document st u h Hurl Htab Hu Hh).
  change (destination (lit "no_doc") after_history_edges)
    with (Ok policy_retriever).
  cbv beta iota delta [bind].
  pose proof (run_from_past 23 policy_retriever
                (dict_update (dict_update st u) h) eq_refl) as Hpast.
  destruct (run_from 23 policy_retriever (dict_update (dict_update st u) h))
    as [steps ending].
  repeat constructor.
  simpl in Hpast; revert Hpast; apply Forall_impl.
  intros s; destruct (step_node s); simpl; congruence.
Qed.

End Paths.

(** ** The payloads of the formatter *)

Section Formatting.
Context {U : Unicode} {F : FileSystem}.

Lemma stage_payload_shape (n m : pystr) (extra : dict) :
  Forall (fun kv => pystr_eqb (fst kv) (lit "type") = false /\
                    pystr_eqb (fst kv) (lit "node") = false) extra ->
  exists rest,
    _build_stage_payload n m extra
    = (lit "type", PStr (lit "stage")) :: (lit "node", PStr n) :: rest.
Proof.
  intros H; unfold _build_stage_payload.
  destruct (truthy (PDict extra)); [|eexists; reflexivity].
  assert (Hf : forall k, (forall kv, In kv extra -> pystr_eqb (fst kv) k = false) ->
               Forall (fun kv => pystr_eqb (fst kv) k = false)
                      (filter (fun kv => negb (is_none (snd kv))) extra)).
  { intros k Hk; apply Forall_forall; intros kv Hin.
    apply filter_In in Hin; apply Hk, Hin. }
  rewrite Forall_forall in H.
  rewrite dict_update_head by (apply Hf; intros kv Hin; apply (H kv Hin)).
  rewrite dict_update_head by (apply Hf; intros kv Hin; apply (H kv Hin)).
  eexists; reflexivity.
Qed.

Lemma stage_is_formatter_payload (event_name n m : pystr) (extra : dict) :
  Forall (fun kv => pystr_eqb (fst kv) (lit "type") = false /\
                    pystr_eqb (fst kv) (lit "node") = false) extra ->
  reported_as event_name n ->
  formatter_payload event_name (_build_stage_payload n m extra).
Proof.
  intros H Hn; destruct (stage_payload_shape n m extra H) as [rest E].
  exists (lit "stage"), n, rest; repeat split; [exact E | simpl; auto | exact Hn].
Qed.

Lemma retrieval_is_formatter_payload
    (event_name : pystr) (node what key : string) (o : pyval) (s : dict) :
  reported_as event_name (lit node) ->
  formatter_payload event_name (retrieval_payload node what key o s).
Proof.
  intros Hn; unfold retrieval_payload.
  apply stage_is_formatter_payload; [|exact Hn].
  repeat constructor.
Qed.

End Formatting.

(** Brings both sides of an equation between texts to right-nested form. *)
Ltac norm_app := repeat (progress (simpl; rewrite <- ?app_assoc)).

(** Splits the dispatch of [format_body] recorded in hypothesis [H]. *)
Ltac split_dispatch H :=
  repeat match type of H with
         | context [if ?b then _ else _] => destruct b eqn:?
         | context [bind ?r _] => destruct r eqn:?; cbn [bind] in H
         end.

Ltac alias_known :=
  match goal with
  | E : (str_in ?nn ?aliases && _)%bool = true |- reported_as ?nn _ =>
      apply andb_true_iff in E; destruct E as [E _];
      right; exists aliases; split; [simpl; tauto | exact E]
  | E : str_in ?nn ?aliases = true |- reported_as ?nn _ =>
      right; exists aliases; split; [simpl; tauto | exact E]
  end.

Section FormatBody.
Context {U : Unicode} {F : FileSystem}.

(** Every payload of the [try] block is a stage, token or final payload
    reported under the event's name or the node that name stands for. *)
Lemma format_body_payloads (nn : pystr) (et : pyval) (ev st : dict)
    (ps : list dict) :
  format_body nn et ev st = Ok ps -> Forall (formatter_payload nn) ps.
Proof.
  unfold format_body; intros H.
  split_dispatch H; inversion H; subst; clear H;
    repeat constructor.
  all: try (apply stage_is_formatter_payload;
            [repeat constructor | first [alias_known | left; reflexivity]]).
  all: try (apply retrieval_is_formatter_payload; alias_known).
  all: try (eexists _, nn, _; repeat split; [simpl; tauto | left; reflexivity]).
Qed.

End FormatBody.

Section StageSequence.
Context {U : Unicode} {F : FileSystem} {C : Collaborators}.

Lemma lower_event_name (name : pystr) :
  str_method "lower" py_lower (py_or (PStr name) (PStr [])) = Ok (py_lower name).
Proof. destruct name; reflexivity. Qed.

(** The payloads made for an event with a string name. *)
Lemma format_event_payloads (ev st : dict) (name : pystr) (ps : list dict) :
  dict_get ev "name" = PStr name ->
  format_event_for_ui ev st = Ok ps ->
  Forall (fun p => (exists e, p = error_payload e) \/
                   formatter_payload (py_lower name) p) ps.
Proof.
  intros Hn; unfold format_event_for_ui.
  rewrite Hn, lower_event_name.
  destruct (format_body (py_lower name) (dict_get ev "event") ev st)
    as [payloads|e] eqn:E; intros H; inversion H; subst; clear H.
  - apply format_body_payloads in E.
    revert E; apply Forall_impl; auto.
  - constructor; [left; exists e; reflexivity | constructor].
Qed.

Lemma node_name_lower (n : node) : py_lower (node_name n) = node_name n.
Proof. destruct n; reflexivity. Qed.

Lemma event_of_step_name (s : step) (ev : dict) :
  In ev (events_of_step s) -> dict_get ev "name" = PStr (node_name (step_node s)).
Proof.
  unfold events_of_step; intros [<- | H]; [reflexivity|].
  apply in_app_or in H; destruct H as [H | H].
  - apply in_map_iff in H; destruct H as (tok & <- & _); reflexivity.
  - destruct (step_result s); [destruct H as [<- | []]; reflexivity | destruct H].
Qed.

Lemma reported_not_document (n : node) (x : pystr) :
  document_node n = false ->
  reported_as (node_name n) x ->
  x <> lit "doc_download" /\ x <> lit "doc_process".
Proof.
  intros Hn [-> | (aliases & Hin & Hs)].
  - destruct n; try discriminate Hn; split; vm_compute; discriminate.
  - simpl in Hin.
    repeat (destruct Hin as [Hin | Hin];
            [inversion Hin; subst; clear Hin;
             destruct n; try discriminate Hn; vm_compute in Hs;
             try discriminate Hs; split; vm_compute; discriminate|]).
    destruct Hin.
Qed.

(** The node named by a payload made from an event of a run. *)
Lemma payload_node_of_run (st : dict) (ev : dict) (ps : list dict) (p : dict)
    (x : pystr) :
  Forall (fun s => document_node (step_node s) = false)
         (fst (run_company_policy_graph st)) ->
  In ev (fst (company_policy_graph st)) ->
  format_event_for_ui ev st = Ok ps ->
  In p ps ->
  dict_get p "node" = PStr x ->
  x <> lit "doc_download" /\ x <> lit "doc_process".
Proof.
  intros Hrun Hev Hps Hp Hx.
  unfold company_policy_graph in Hev.
  destruct (run_company_policy_graph st) as [steps ending]; simpl in Hev, Hrun.
  apply in_flat_map in Hev; destruct Hev as (s & Hs & Hev).
  rewrite Forall_forall in Hrun; specialize (Hrun s Hs).
  apply event_of_step_name in Hev.
  pose proof (format_event_payloads ev st _ ps Hev Hps) as Hall.
  rewrite Forall_forall in Hall; specialize (Hall p Hp).
  rewrite node_name_lower in Hall.
  destruct Hall as [[e ->] | (t & n & rest & -> & _ & Hrep)].
  - discriminate Hx.
  - change (PStr n = PStr x) in Hx; inversion Hx; subst.
    apply (reported_not_document (step_node s)); assumption.
Qed.

(** C7.  A run of the company-policy graph that starts with no document URL
    and for whose session the database holds no temporary table never
    executes [doc_download] or [doc_process], and no payload made from its
    events names either node; the router after [history] answers
    "no_doc", which leads to [policy_retriever]. *)
Theorem no_document_skips_download (st : dict) :
  truthy (dict_get st "document_url") = false ->
  (forall s, dict_get st "session_id" = PStr s ->
             table_found (temp_table_after_history
                            (table_name (PStr (replace_char 45 95 s)))) = false) ->
  Forall (fun s => step_node s <> doc_download /\ step_node s <> doc_process)
         (fst (run_company_policy_graph st))
  /\ (forall ev ps p,
         In ev (fst (company_policy_graph st)) ->
         format_event_for_ui ev st = Ok ps ->
         In p ps ->
         dict_get p "node" <> PStr (lit "doc_download") /\
         dict_get p "node" <> PStr (lit "doc_process"))
  /\ (forall u h,
         input_node st = Ok u ->
         session_history_node (dict_update st u) = Ok h ->
         route_after_history (dict_update (dict_update st u) h) = lit "no_doc" /\
         next_node history (dict_update (dict_update st u) h)
         = Ok (Some policy_retriever)).
Proof.
  intros Hurl Htab.
  pose proof (run_without_document st Hurl Htab) as Hrun.
  split; [|split].
  - revert Hrun; apply Forall_impl.
    intros s Hs; split; intros E; rewrite E in Hs; discriminate.
  - intros ev ps p Hev Hps Hp.
    split; intros E;
      destruct (payload_node_of_run st ev ps p _ Hrun Hev Hps Hp E) as [G1 G2];
      [apply G1 | apply G2]; reflexivity.
  - intros u h Hu Hh.
    pose proof (route_without_document st u h Hurl Htab Hu Hh) as E.
    split; [exact E|].
    unfold next_node; rewrite E; reflexivity.
Qed.

End StageSequence.

(** The witness of [no_document_skips_download]: a valid request without a
    document, no table stored. *)
Lemma no_document_skips_download_witness :
  let st := [(lit "session_id", PStr (lit "s-1"));
             (lit "message", PStr (lit "What is our vacation policy?"));
             (lit "user_id", PStr (lit "u1"))] in
  Forall (fun s => step_node s <> doc_download /\ step_node s <> doc_process)
         (fst (run_company_policy_graph (U := plain_unicode)
                 (C := quiet_collaborators) st))
  /\ map step_node (fst (run_company_policy_graph (U := plain_unicode)
                           (C := quiet_collaborators) st))
     = [input; history; policy_retriever; context_combine; llm;
        session_update; output].
Proof.
  intros st; split; [|reflexivity].
  apply (no_document_skips_download (U := plain_unicode) (F := no_files)
           (C := quiet_collaborators) st).
  - reflexivity.
  - intros s _; reflexivity.
Defined.

(** ** The formatter and exceptions *)

Section FormatterErrors.
Context {U : Unicode} {F : FileSystem}.

(** With a name that is absent, falsy or a string, the formatter returns,
    and an exception raised in the [try] block becomes the single payload. *)
Lemma format_event_returns (ev st : dict) :
  truthy (dict_get ev "name") = false \/ (exists s, dict_get ev "name" = PStr s) ->
  exists node_name,
    str_method "lower" py_lower (py_or (dict_get ev "name") (PStr []))
    = Ok node_name /\
    format_event_for_ui ev st
    = Ok match format_body node_name (dict_get ev "event") ev st with
         | Ok payloads => payloads
         | Err e => [error_payload e]
         end.
Proof.
  unfold format_event_for_ui.
  intros [Hn | [s Hn]].
  - unfold py_or; rewrite Hn; cbn [str_method].
    eexists; split; reflexivity.
  - rewrite Hn, lower_event_name.
    eexists; split; reflexivity.
Qed.

(** C2 fails on every event whose name is truthy and not a string:
    [.lower()] raises before [node_name] and [ev_type] are bound, the
    handler replaces the payloads, and the [print] that follows the handler
    raises [UnboundLocalError], which reaches the caller. *)
Theorem format_event_raises_on_bad_name (ev st : dict) (name : pyval) :
  dict_get ev "name" = name ->
  truthy name = true ->
  (forall s, name <> PStr s) ->
  format_event_for_ui ev st = Err (UnboundLocalError "ev_type").
Proof.
  intros Hn Ht Hs; unfold format_event_for_ui, py_or.
  rewrite Hn, Ht.
  destruct name; try reflexivity.
  exfalso; eapply Hs; reflexivity.
Qed.

End FormatterErrors.

(** The witness of [format_event_raises_on_bad_name]: an event named by a
    number. *)
Lemma format_event_raises_on_bad_name_witness :
  format_event_for_ui (U := plain_unicode) (F := no_files)
    [(lit "name", PInt 5); (lit "event", PStr (lit "on_chain_start"))] []
  = Err (UnboundLocalError "ev_type").
Proof.
  apply (format_event_raises_on_bad_name (U := plain_unicode) (F := no_files)
           _ _ (PInt 5)); [reflexivity | reflexivity | discriminate].
Defined.

(** ** The final payload of the output node *)

Section OutputNode.
Context {U : Unicode} {F : FileSystem}.



Lemma ev_is_eq (et : pyval) (s : string) :
  ev_is et s = true -> et = PStr (lit s).
Proof.
  destruct et; simpl; try discriminate.
  intros H; apply pystr_eqb_eq in H; subst; reflexivity.
Qed.


End OutputNode.

Section OutputFinal.
Context {U : Unicode} {F : FileSystem}.

Lemma truthy_PStr (s : pystr) : truthy (PStr s) = nonempty s.
Proof. destruct s; reflexivity. Qed.





End OutputFinal.



(** ** Serialization *)

Section Serialization.
Context {U : Unicode} {F : FileSystem}.

(** A dictionary of two string members always serializes. *)
Lemma json_dumps_two_strings (k1 v1 k2 v2 : pystr) :
  json_dumps (PDict [(k1, PStr v1); (k2, PStr v2)])
  = Ok (lit "{" ++ json_string k1 ++ lit ": " ++ json_string v1 ++ lit ", "
        ++ json_string k2 ++ lit ": " ++ json_string v2 ++ lit "}").
Proof.
  cbn [json_dumps map sequence bind join].
  rewrite <- !app_assoc; reflexivity.
Qed.

Lemma json_dumps_safe_payload (payload : dict) :
  json_dumps (PDict (safe_payload payload))
  = Ok (lit "{" ++ json_string (lit "type") ++ lit ": "
        ++ json_string (lit "event") ++ lit ", "
        ++ json_string (lit "raw") ++ lit ": "
        ++ json_string (raw_form payload) ++ lit "}").
Proof. apply json_dumps_two_strings. Qed.

Lemma json_dumps_error_payload (e : exn) :
  json_dumps (PDict (error_payload e))
  = Ok (lit "{" ++ json_string (lit "type") ++ lit ": "
        ++ json_string (lit "error") ++ lit ", "
        ++ json_string (lit "error") ++ lit ": "
        ++ json_string (exn_str e) ++ lit "}").
Proof. apply json_dumps_two_strings. Qed.

Lemma json_dumps_end_payload :
  json_dumps (PDict end_payload)
  = Ok (lit "{" ++ json_string (lit "type") ++ lit ": "
        ++ json_string (lit "end") ++ lit "}").
Proof. reflexivity. Qed.

(** [serialize_payload_for_sse] returns for every payload. *)
Lemma serialize_total (payload : dict) :
  exists line, serialize_payload_for_sse payload = Ok line.
Proof.
  unfold serialize_payload_for_sse.
  destruct (json_dumps (PDict payload)); [eexists; reflexivity|].
  rewrite json_dumps_safe_payload; eexists; reflexivity.
Qed.



End Serialization.


(** ** The frames of a run *)

Section Frames.
Context {U : Unicode} {F : FileSystem}.

(** The text of a serialized dictionary starts with its first member. *)
Lemma json_dumps_head (k t : pystr) (rest : dict) (j : pystr) :
  json_dumps (PDict ((k, PStr t) :: rest)) = Ok j ->
  exists tail, j = lit "{" ++ json_string k ++ lit ": " ++ json_string t ++ tail.
Proof.
  cbn [json_dumps map sequence bind].
  destruct (sequence _) as [items|e]; cbn [bind]; [|discriminate].
  intros H; injection H as <-.
  destruct items as [|i items]; cbn [join].
  - exists (lit "}").
    unfold json_string; norm_app; reflexivity.
  - exists (lit ", " ++ join (lit ", ") (i :: items) ++ lit "}").
    unfold json_string; norm_app; reflexivity.
Qed.

(** No frame of a payload is the end frame. *)
Lemma body_frame_not_end (line : pystr) : body_frame line -> line <> end_frame.
Proof.
  intros (t & rest & j & Ht & Hj & ->) E.
  apply json_dumps_head in Hj; destruct Hj as [tail ->].
  unfold sse_line, end_frame in E; apply app_inv_head in E.
  simpl in Ht.
  repeat (destruct Ht as [<- | Ht]; [vm_compute in E; discriminate E|]).
  destruct Ht.
Qed.

Lemma error_frame_body (message : pystr) : body_frame (error_frame message).
Proof.
  exists (lit "error"), [(lit "error", PStr message)]; eexists.
  split; [simpl; tauto|]; split; [apply json_dumps_two_strings | reflexivity].
Qed.

Lemma fallback_frame_body (raw : pystr) : body_frame (fallback_frame raw).
Proof.
  exists (lit "event"), [(lit "raw", PStr raw)]; eexists.
  split; [simpl; tauto|]; split; [apply json_dumps_two_strings | reflexivity].
Qed.

Lemma serialize_typed (p : dict) :
  typed_payload p ->
  exists line, serialize_payload_for_sse p = Ok line /\ body_frame line.
Proof.
  intros (t & rest & -> & Ht); unfold serialize_payload_for_sse.
  destruct (json_dumps (PDict ((lit "type", PStr t) :: rest))) as [j|e] eqn:E.
  - eexists; split; [reflexivity|]; exists t, rest, j; auto.
  - rewrite json_dumps_safe_payload; eexists; split; [reflexivity|].
    apply fallback_frame_body.
Qed.

(** The inner loop queues one frame for each payload and never raises. *)
Lemma put_payloads_frames (payloads : list dict) : forall q,
  Forall typed_payload payloads ->
  exists frames,
    put_payloads payloads q = (q ++ map Some frames, None) /\
    Forall body_frame frames /\ length frames = length payloads.
Proof.
  induction payloads as [|p ps IH]; intros q H.
  - exists []; simpl; rewrite app_nil_r; auto.
  - inversion H as [|? ? Hp Hps]; subst.
    destruct (serialize_typed p Hp) as (line & E & Hline).
    destruct (IH (put q (Some line)) Hps) as (frames & E' & Hf & Hl).
    exists (line :: frames); cbn [put_payloads]; rewrite E, E'.
    unfold put; rewrite <- app_assoc; simpl; auto.
Qed.

Lemma format_event_typed (ev st : dict) (ps : list dict) :
  format_event_for_ui ev st = Ok ps -> Forall typed_payload ps.
Proof.
  unfold format_event_for_ui.
  destruct (str_method _ _ _) as [nn|]; [|discriminate].
  destruct (format_body nn (dict_get ev "event") ev st) as [payloads|e] eqn:E;
    intros H; inversion H; subst; clear H.
  - apply format_body_payloads in E; revert E; apply Forall_impl.
    intros p (t & n & rest & -> & Ht & _).
    exists t, ((lit "node", PStr n) :: rest); split; [reflexivity|].
    simpl in Ht |- *; tauto.
  - constructor; [|constructor].
    exists (lit "error"), [(lit "error", PStr (exn_str e))]; simpl; tauto.
Qed.

(** The event loop only queues frames of payloads. *)
Lemma consume_events_frames (events : list dict) (ending : option exn)
    (st : dict) : forall q,
  exists frames,
    fst (consume_events events ending st q) = q ++ map Some frames /\
    Forall body_frame frames.
Proof.
  induction events as [|ev events IH]; intros q; cbn [consume_events].
  - exists []; simpl; rewrite app_nil_r; auto.
  - destruct (format_event_for_ui ev st) as [payloads|e] eqn:E.
    + destruct (put_payloads_frames payloads q (format_event_typed _ _ _ E))
        as (f1 & E1 & H1 & _).
      rewrite E1.
      destruct (IH (q ++ map Some f1)) as (f2 & E2 & H2).
      exists (f1 ++ f2); rewrite E2, map_app, app_assoc; split; [reflexivity|].
      apply Forall_app; auto.
    + exists []; simpl; rewrite app_nil_r; auto.
Qed.

(** A stream that raises leaves the loop with an exception. *)
Lemma consume_events_raises (events : list dict) (e : exn) (st : dict) :
  forall q, snd (consume_events events (Some e) st q) <> None.
Proof.
  induction events as [|ev events IH]; intros q; cbn [consume_events].
  - discriminate.
  - destruct (format_event_for_ui ev st) as [payloads|e'] eqn:E; [|discriminate].
    destruct (put_payloads_frames payloads q (format_event_typed _ _ _ E))
      as (f1 & E1 & _).
    rewrite E1; apply IH.
Qed.

End Frames.

(** ** The producer *)

Section Producer.
Context {U : Unicode} {F : FileSystem}.

(** The literal of the [finally] clause's handler is the same frame. *)
Lemma end_literal_is_end_frame : end_literal = end_frame.
Proof. reflexivity. Qed.

Lemma put_end_frames (q : queue) : put_end q = q ++ [Some end_frame; None].
Proof.
  unfold put_end; rewrite json_dumps_end_payload.
  unfold put; rewrite <- app_assoc; reflexivity.
Qed.

Lemma put_error_frame (e : exn) (q : queue) :
  put_error e q = (q ++ [Some (error_frame (exn_str e))], None).
Proof. unfold put_error; rewrite json_dumps_error_payload; reflexivity. Qed.

(** C1.  Whatever the event stream does, [async_producer] returns without
    raising and leaves on the queue: the frames of the payloads it
    formatted, none of which is the end frame; then, if and only if an
    exception left the event loop (the stream raised, or the formatter
    did), one error frame carrying its message; then the end frame; then
    the [None] sentinel.  A stream that raises always gives the error
    frame. *)
Theorem producer_ends_with_end_frame (graph : dict -> stream) (st : dict)
    (q : queue) :
  let failure := snd (consume_events (fst (graph st)) (snd (graph st)) st q) in
  exists frames,
    async_producer graph st q
    = (q ++ map Some frames
         ++ match failure with
            | Some e => [Some (error_frame (exn_str e))]
            | None => []
            end
         ++ [Some end_frame; None], None)
    /\ Forall body_frame frames
    /\ Forall (fun line => line <> end_frame) frames
    /\ (forall e, error_frame (exn_str e) <> end_frame)
    /\ (forall e, snd (graph st) = Some e -> failure <> None).
Proof.
  intros failure; subst failure; unfold async_producer.
  destruct (graph st) as [events ending]; cbn [fst snd].
  destruct (consume_events_frames events ending st q) as (frames & E & Hf).
  exists frames.
  destruct (consume_events events ending st q) as [q' failure] eqn:Ec.
  cbn [fst snd] in E |- *; subst q'.
  split; [|split; [exact Hf|split; [|split]]].
  - destruct failure as [e|].
    + rewrite put_error_frame, put_end_frames, <- !app_assoc; reflexivity.
    + rewrite put_end_frames, <- !app_assoc; reflexivity.
  - revert Hf; apply Forall_impl; exact body_frame_not_end.
  - intros e; apply body_frame_not_end, error_frame_body.
  - intros e ->.
    pose proof (consume_events_raises events e st q) as H.
    rewrite Ec in H; exact H.
Qed.

End Producer.

(** The witness of [producer_ends_with_end_frame]: a stream that raises
    before its first event. *)
Lemma producer_ends_with_end_frame_witness :
  exists frames,
    async_producer (U := plain_unicode) (F := no_files)
      (fun _ => ([], Some (Exn (lit "RuntimeError") (lit "boom")))) [] []
    = (map Some frames
         ++ [Some (error_frame (lit "boom")); Some end_frame; None], None).
Proof.
  destruct (producer_ends_with_end_frame (U := plain_unicode) (F := no_files)
              (fun _ => ([], Some (Exn (lit "RuntimeError") (lit "boom")))) [] [])
    as (frames & E & _).
  exists frames; exact E.
Defined.

(** ** Validation of the initial state *)

(** The first step of the generator passes exactly for a message that can
    be sliced. *)
Lemma message_preview_sliceable (st : dict) :
  sliceable (dict_get_default st "message" (PStr [])) = true ->
  message_preview st = Ok tt.
Proof.
  unfold message_preview.
  destruct (dict_get_default st "message" (PStr [])); try discriminate; reflexivity.
Qed.

Lemma message_preview_raises (st : dict) :
  sliceable (dict_get_default st "message" (PStr [])) = false ->
  exists e, message_preview st = Err e.
Proof.
  unfold message_preview.
  destruct (dict_get_default st "message" (PStr [])); try discriminate;
    intros _; eexists; reflexivity.
Qed.

Section Validation.
Context {U : Unicode} {F : FileSystem} {C : Collaborators}.

Lemma input_node_missing (st : dict) :
  required_missing st ->
  exists message,
    input_node st = Err (Exn (lit "AssertionError") message) /\
    In message [lit "session_id required"; lit "message required";
                lit "user_id required"].
Proof.
  unfold input_node, py_assert, required_missing.
  destruct (truthy (dict_get st "session_id")); cbn [bind].
  2: { intros _; eexists; split; [reflexivity | simpl; auto]. }
  destruct (truthy (dict_get st "message")); cbn [bind].
  2: { intros _; eexists; split; [reflexivity | simpl; auto]. }
  destruct (truthy (dict_get st "user_id")); cbn [bind].
  2: { intros _; eexists; split; [reflexivity | simpl; auto]. }
  intros [H | [H | H]]; discriminate H.
Qed.

(** The payload made for the start of the input node. *)
Lemma format_input_start (st : dict) :
  format_event_for_ui (input_start st) st
  = Ok [match _safe_session (dict_get st "session_id") with
        | Ok session => validating_payload session st
        | Err e => error_payload e
        end].
Proof.
  unfold format_event_for_ui.
  change (dict_get (input_start st) "name") with (PStr (lit "input")).
  rewrite lower_event_name.
  change (format_body (py_lower (lit "input"))
            (dict_get (input_start st) "event") (input_start st) st)
    with (session <- _safe_session (dict_get st "session_id") ;;
          Ok [validating_payload session st]).
  destruct (_safe_session (dict_get st "session_id")); reflexivity.
Qed.

(** C6, as the code has it.  When a required field is missing or empty the
    run stops in the input node, the first node, and no other node runs.
    If the state's message can be sliced (a string, a list or a tuple, or
    no message at all), the consumer receives the frame made for the start
    of the input node (the stage frame "Validating session & user input",
    or the formatter's error frame when the session id is not a string),
    then one error frame with the message of the failed assertion, then the
    end frame.  For any other message ([None] or a number, say) the
    generator raises on its first step, where it prints the start of the
    message, and the consumer receives no frame at all. *)
Theorem missing_field_stops_at_input (st : dict) :
  required_missing st ->
  map step_node (fst (run_company_policy_graph st)) = [input]
  /\ (sliceable (dict_get_default st "message" (PStr [])) = true ->
      exists first message,
        create_stream_generator company_policy_graph st
        = Ok [first; error_frame message; end_frame]
        /\ In message [lit "session_id required"; lit "message required";
                       lit "user_id required"]
        /\ (exists p, format_event_for_ui (input_start st) st = Ok [p]
                      /\ serialize_payload_for_sse p = Ok first
                      /\ forall session,
                           _safe_session (dict_get st "session_id") = Ok session ->
                           p = validating_payload session st))
  /\ (sliceable (dict_get_default st "message" (PStr [])) = false ->
      exists e, create_stream_generator company_policy_graph st = Err e).
Proof.
  intros Hmiss.
  destruct (input_node_missing st Hmiss) as (message & Hin & Hmsg).
  assert (Hrun : run_company_policy_graph st
                 = ([{| step_node := input; step_state := st;
                        step_tokens := []; step_result := Err (Exn (lit "AssertionError") message) |}],
                    Some (Exn (lit "AssertionError") message))).
  { unfold run_company_policy_graph, recursion_limit.
    rewrite run_from_step.
    change (node_function input st) with (@nil pyval, input_node st).
    rewrite Hin; reflexivity. }
  split; [rewrite Hrun; reflexivity|]; split.
  - intros Hs.
    pose proof (format_input_start st) as Hfmt.
    set (p := match _safe_session (dict_get st "session_id") with
              | Ok session => validating_payload session st
              | Err e => error_payload e
              end) in Hfmt.
    destruct (serialize_total p) as [first Hser].
    exists first, message.
    split; [|split; [exact Hmsg|]].
    + unfold create_stream_generator.
      rewrite (message_preview_sliceable st Hs); cbn [bind].
      unfold async_producer, company_policy_graph.
      rewrite Hrun.
      change (flat_map events_of_step _) with [input_start st].
      cbn [consume_events].
      rewrite Hfmt; cbn [put_payloads]; rewrite Hser.
      rewrite put_error_frame, put_end_frames; reflexivity.
    + exists p; split; [exact Hfmt|]; split; [exact Hser|].
      intros session Hsess; subst p; rewrite Hsess; reflexivity.
  - intros Hs; unfold create_stream_generator.
    destruct (message_preview_raises st Hs) as [e ->].
    exists e; reflexivity.
Qed.

End Validation.

(** The witness of [missing_field_stops_at_input]: a request whose message
    is empty. *)
Lemma missing_field_stops_at_input_witness :
  exists first message,
    create_stream_generator (U := plain_unicode) (F := no_files)
      (company_policy_graph (U := plain_unicode) (C := quiet_collaborators))
      empty_message_state
    = Ok [first; error_frame message; end_frame].
Proof.
  destruct (proj1 (proj2 (missing_field_stops_at_input (U := plain_unicode)
                            (F := no_files) (C := quiet_collaborators)
                            empty_message_state
                            (or_intror (or_introl eq_refl)))) eq_refl)
    as (first & message & E & _).
  exists first, message; exact E.
Defined.

(** C6 as the specification words it fails: for a request whose message is
    empty the first frame the consumer receives is the stage frame of the
    input node, and the error frame comes second. *)
Lemma missing_field_stage_frame_first :
  required_missing empty_message_state /\
  (exists stage,
      create_stream_generator (U := plain_unicode) (F := no_files)
        (company_policy_graph (U := plain_unicode) (C := quiet_collaborators))
        empty_message_state
      = Ok [stage; error_frame (lit "message required"); end_frame]
      /\ serialize_payload_for_sse (U := plain_unicode)
           (validating_payload (U := plain_unicode) (lit "s_1")
              empty_message_state) = Ok stage) /\
  ~ exists message,
      create_stream_generator (U := plain_unicode) (F := no_files)
        (company_policy_graph (U := plain_unicode) (C := quiet_collaborators))
        empty_message_state
      = Ok [error_frame message; end_frame].
Proof.
  split; [right; left; reflexivity|]; split.
  - eexists; split; vm_compute; reflexivity.
  - intros [message H].
    assert (E : exists frames,
               create_stream_generator (U := plain_unicode) (F := no_files)
                 (company_policy_graph (U := plain_unicode)
                    (C := quiet_collaborators))
                 empty_message_state = Ok frames /\ length frames = 3)
      by (eexists; split; vm_compute; reflexivity).
    destruct E as (frames & E & Hl).
    rewrite H in E; injection E as <-; discriminate Hl.
Qed.

(** * Properties of the rest of the code *)

(** ** event_formatter.py: the shape of the output *)

Section FormatterShape.
Context {U : Unicode} {F : FileSystem}.

Lemma format_body_at_most_one (nn : pystr) (et : pyval) (ev st : dict)
    (ps : list dict) :
  format_body nn et ev st = Ok ps -> length ps <= 1.
Proof.
  unfold format_body; intros H.
  split_dispatch H; inversion H; subst; simpl; lia.
Qed.

(** X1.  [format_event_for_ui] never returns more than one payload for an
    event. *)
Theorem format_event_at_most_one (ev st : dict) (ps : list dict) :
  format_event_for_ui ev st = Ok ps -> length ps <= 1.
Proof.
  unfold format_event_for_ui.
  destruct (str_method _ _ _) as [nn|]; [|discriminate].
  destruct (format_body nn (dict_get ev "event") ev st) as [payloads|e] eqn:E;
    intros H; inversion H; subst; clear H.
  - exact (format_body_at_most_one _ _ _ _ _ E).
  - simpl; lia.
Qed.

(** X2.  An event that is none of the four kinds the formatter knows gives
    no payload, whatever node it names. *)
Theorem other_event_kinds_dropped (ev st : dict) :
  truthy (dict_get ev "name") = false \/ (exists s, dict_get ev "name" = PStr s) ->
  ev_is (dict_get ev "event") "on_chat_model_stream" = false ->
  ev_is (dict_get ev "event") "on_chat_model_end" = false ->
  ev_is (dict_get ev "event") "on_chain_start" = false ->
  ev_is (dict_get ev "event") "on_chain_end" = false ->
  format_event_for_ui ev st = Ok [].
Proof.
  intros Hname H1 H2 H3 H4.
  destruct (format_event_returns ev st Hname) as (nn & _ & ->).
  unfold format_body; rewrite H1, H2, H3, H4.
  rewrite !andb_false_r; cbn [orb andb].
  repeat match goal with
         | |- context [str_in ?a ?b] => destruct (str_in a b)
         end; reflexivity.
Qed.

(** X3.  A start or end event of a named node that has no branch of its own
    gives the generic stage payload, "Starting node" or "Finished node"
    with the lower-cased name; with an empty name it gives nothing. *)
Theorem unhandled_node_reported (ev st : dict) (name : pystr) (starting : bool) :
  dict_get ev "name" = PStr name ->
  dict_get ev "event" = PStr (chain_event starting) ->
  handled_in_own_branch (py_lower name) starting = false ->
  format_event_for_ui ev st
  = Ok (if nonempty (py_lower name)
        then [[(lit "type", PStr (lit "stage"));
               (lit "node", PStr (py_lower name));
               (lit "message",
                PStr ((if starting then lit "Starting" else lit "Finished")
                      ++ lit " node '" ++ py_lower name ++ lit "'"))]]
        else []).
Proof.
  intros Hname Hev Hh.
  unfold format_event_for_ui; rewrite Hname, lower_event_name, Hev.
  unfold handled_in_own_branch in Hh.
  apply orb_false_iff in Hh; destruct Hh as [Hh Hd].
  apply orb_false_iff in Hh; destruct Hh as [Hh Hc].
  apply orb_false_iff in Hh; destruct Hh as [Ha Hb].
  destruct starting; cbn [chain_event];
    [|do 5 (apply orb_false_iff in Hd; destruct Hd as [Hd ?])];
    unfold format_body;
    repeat match goal with
           | H : str_in _ _ = false |- _ => rewrite H; clear H
           end;
    repeat match goal with
           | |- context [str_in ?a ?b] => destruct (str_in a b)
           end;
    destruct (nonempty (py_lower name)); reflexivity.
Qed.

End FormatterShape.

(** The witness of [other_event_kinds_dropped]: a tool event of the
    generation node. *)
Lemma other_event_kinds_dropped_witness :
  format_event_for_ui (U := plain_unicode) (F := no_files)
    [(lit "event", PStr (lit "on_tool_start")); (lit "name", PStr (lit "llm"))] []
  = Ok [].
Proof.
  apply (other_event_kinds_dropped (U := plain_unicode) (F := no_files));
    [right; eexists; reflexivity | reflexivity ..].
Defined.

(** The witness of [unhandled_node_reported]: the start of the history
    node. *)
Lemma unhandled_node_reported_witness :
  format_event_for_ui (U := plain_unicode) (F := no_files)
    [(lit "event", PStr (lit "on_chain_start")); (lit "name", PStr (lit "History"))] []
  = Ok [[(lit "type", PStr (lit "stage")); (lit "node", PStr (lit "history"));
         (lit "message", PStr (lit "Starting node 'history'"))]].
Proof.
  apply (unhandled_node_reported (U := plain_unicode) (F := no_files)
           _ _ (lit "History") true); reflexivity.
Defined.

(** The witness of [format_event_at_most_one]: the end of the history
    node. *)
Lemma format_event_at_most_one_witness :
  length [_build_stage_payload (lit "history")
            (lit "Fetched 0 messages from history") [(lit "count", PInt 0)]] <= 1.
Proof.
  apply (format_event_at_most_one (U := plain_unicode) (F := no_files)
           [(lit "event", PStr (lit "on_chain_end"));
            (lit "name", PStr (lit "history"))] []).
  reflexivity.
Defined.

(** ** event_formatter.py: tokens, stage payloads, session ids *)

Section FormatterParts.
Context {U : Unicode} {F : FileSystem}.

Lemma extract_token_string_chunk (d : dict) (s : pystr) :
  dict_get d "chunk" = PStr s -> nonempty s = true ->
  _extract_token (PDict d) = Ok s.
Proof.
  intros H Hs; unfold _extract_token, py_or; rewrite H.
  rewrite truthy_PStr, Hs; reflexivity.
Qed.

(** X4.  A token event gives a payload only for a token that is not empty:
    the outcome is no payload, one [llm_stream] payload whose content is
    the non-empty token, or the error payload of an extraction that raised.
    A non-empty chunk that is a string is passed on as it is, whatever the
    delta holds. *)
Theorem token_payloads_not_empty (ev st : dict) (name : pystr) :
  dict_get ev "name" = PStr name ->
  ev_is (dict_get ev "event") "on_chat_model_stream" = true ->
  let data := py_or (dict_get ev "data") (PDict []) in
  ((format_event_for_ui ev st = Ok []
    /\ _extract_token data = Ok [])
   \/ (exists token, nonempty token = true /\ _extract_token data = Ok token
                     /\ format_event_for_ui ev st
                        = Ok [token_payload (py_lower name) token])
   \/ (exists e, _extract_token data = Err e
                 /\ format_event_for_ui ev st = Ok [error_payload e]))
  /\ (forall d s, data = PDict d -> dict_get d "chunk" = PStr s ->
                  nonempty s = true ->
                  format_event_for_ui ev st = Ok [token_payload (py_lower name) s]).
Proof.
  intros Hname Hev data.
  assert (E : format_event_for_ui ev st
              = Ok match (token <- _extract_token data ;;
                          Ok (if nonempty token
                              then [token_payload (py_lower name) token]
                              else [])) with
                   | Ok payloads => payloads
                   | Err e => [error_payload e]
                   end).
  { unfold format_event_for_ui; rewrite Hname, lower_event_name.
    unfold format_body; rewrite Hev; reflexivity. }
  rewrite E; split.
  - destruct (_extract_token data) as [token|e]; cbn [bind].
    + destruct token as [|c token].
      * left; split; reflexivity.
      * right; left; exists (c :: token); repeat split.
    + right; right; exists e; split; reflexivity.
  - intros d s Hd Hc Hs.
    rewrite Hd, (extract_token_string_chunk d s Hc Hs); cbn [bind].
    rewrite Hs; reflexivity.
Qed.

Lemma dict_set_no_none (k : pystr) (v : pyval) (d : dict) :
  v <> PNone ->
  Forall (fun kv => snd kv <> PNone) d ->
  Forall (fun kv => snd kv <> PNone) (dict_set k v d).
Proof.
  intros Hv; induction d as [|[k' v'] d IH]; intros H; simpl.
  - constructor; [exact Hv | constructor].
  - inversion H as [|? ? Hk Hd]; subst.
    destruct (pystr_eqb k k'); constructor; auto.
Qed.

Lemma dict_update_no_none (u : dict) : forall d,
  Forall (fun kv => snd kv <> PNone) u ->
  Forall (fun kv => snd kv <> PNone) d ->
  Forall (fun kv => snd kv <> PNone) (dict_update d u).
Proof.
  unfold dict_update.
  induction u as [|[k v] u IH]; intros d Hu Hd; simpl; [exact Hd|].
  inversion Hu as [|? ? Hk Hu']; subst.
  apply IH; [exact Hu' | apply dict_set_no_none; assumption].
Qed.

(** X5.  A stage payload never carries a [None]: an extra field whose value
    is [None] is left out.  When the extra fields do not reuse the names
    "type" and "node", the payload starts with its type "stage" and the
    node. *)
Theorem stage_payload_omits_none (n m : pystr) (extra : dict) :
  Forall (fun kv => snd kv <> PNone) (_build_stage_payload n m extra)
  /\ (Forall (fun kv => pystr_eqb (fst kv) (lit "type") = false /\
                        pystr_eqb (fst kv) (lit "node") = false) extra ->
      exists rest,
        _build_stage_payload n m extra
        = (lit "type", PStr (lit "stage")) :: (lit "node", PStr n) :: rest).
Proof.
  split; [|apply stage_payload_shape].
  unfold _build_stage_payload.
  assert (Hbase : Forall (fun kv : pystr * pyval => snd kv <> PNone)
                    [(lit "type", PStr (lit "stage")); (lit "node", PStr n);
                     (lit "message", PStr m)])
    by (repeat constructor; discriminate).
  destruct (truthy (PDict extra)); [|exact Hbase].
  apply dict_update_no_none; [|exact Hbase].
  apply Forall_forall; intros [k v] Hin.
  apply filter_In in Hin; destruct Hin as [_ Hv]; simpl in *.
  destruct v; try discriminate; discriminate Hv.
Qed.

Lemma replace_char_spec (a b : N) (s : pystr) :
  a <> b ->
  length (replace_char a b s) = length s /\
  ~ In a (replace_char a b s) /\
  replace_char a b (replace_char a b s) = replace_char a b s.
Proof.
  intros Hab; unfold replace_char; split; [apply length_map|].
  induction s as [|c s [IH1 IH2]]; simpl; [split; [tauto | reflexivity]|].
  destruct (N.eqb_spec c a) as [->|Hc]; split.
  - intros [E | E]; [congruence | exact (IH1 E)].
  - destruct (N.eqb_spec b a); [congruence|]; rewrite IH2; reflexivity.
  - intros [E | E]; [congruence | exact (IH1 E)].
  - destruct (N.eqb_spec c a); [congruence|]; rewrite IH2; reflexivity.
Qed.

(** X6.  [_safe_session] gives the empty string for a missing or empty id;
    for a string it gives a string of the same length without any hyphen,
    which it maps to itself; for any other value it raises. *)
Theorem safe_session_no_hyphen (value : pyval) :
  (truthy value = false -> _safe_session value = Ok [])
  /\ (forall s, value = PStr s ->
        exists safe, _safe_session value = Ok safe
                     /\ length safe = length s
                     /\ ~ In 45%N safe
                     /\ _safe_session (PStr safe) = Ok safe)
  /\ (truthy value = true -> (forall s, value <> PStr s) ->
      _safe_session value = Err (AttributeError value "replace")).
Proof.
  unfold _safe_session, py_or; split; [|split].
  - intros H; rewrite H; reflexivity.
  - intros s ->.
    destruct (replace_char_spec 45 95 s) as (Hl & Hn & Hi); [discriminate|].
    exists (replace_char 45 95 s).
    assert (E : (if truthy (PStr s) then PStr s else PStr []) = PStr s)
      by (destruct s; reflexivity).
    rewrite E; cbn [str_method]; repeat split; try assumption.
    assert (E' : (if truthy (PStr (replace_char 45 95 s))
                  then PStr (replace_char 45 95 s) else PStr [])
                 = PStr (replace_char 45 95 s))
      by (destruct (replace_char 45 95 s); reflexivity).
    rewrite E'; cbn [str_method]; rewrite Hi; reflexivity.
  - intros Ht Hs; rewrite Ht.
    destruct value; try reflexivity.
    exfalso; eapply Hs; reflexivity.
Qed.

End FormatterParts.

(** The witness of [token_payloads_not_empty]: a chunk that is a string. *)
Lemma token_payloads_not_empty_witness :
  format_event_for_ui (U := plain_unicode) (F := no_files)
    [(lit "event", PStr (lit "on_chat_model_stream")); (lit "name", PStr (lit "llm"));
     (lit "data", PDict [(lit "chunk", PStr (lit "Hel"))])] []
  = Ok [token_payload (lit "llm") (lit "Hel")].
Proof.
  destruct (token_payloads_not_empty (U := plain_unicode) (F := no_files)
              [(lit "event", PStr (lit "on_chat_model_stream"));
               (lit "name", PStr (lit "llm"));
               (lit "data", PDict [(lit "chunk", PStr (lit "Hel"))])] []
              (lit "llm") eq_refl eq_refl)
    as [_ H].
  exact (H _ (lit "Hel") eq_refl eq_refl eq_refl).
Defined.

(** The witness of [stage_payload_omits_none]: a download payload without a
    size. *)
Lemma stage_payload_omits_none_witness :
  _build_stage_payload (lit "doc_download") (lit "Document downloaded")
    [(lit "bytes", PNone); (lit "temp_path", PStr (lit "/tmp/x"))]
  = [(lit "type", PStr (lit "stage")); (lit "node", PStr (lit "doc_download"));
     (lit "message", PStr (lit "Document downloaded"));
     (lit "temp_path", PStr (lit "/tmp/x"))].
Proof.
  destruct (stage_payload_omits_none (lit "doc_download") (lit "Document downloaded")
              [(lit "bytes", PNone); (lit "temp_path", PStr (lit "/tmp/x"))])
    as [_ H].
  destruct H as [rest E]; [repeat constructor|].
  reflexivity.
Defined.

(** The witness of [safe_session_no_hyphen]: a UUID-like id. *)
Lemma safe_session_no_hyphen_witness :
  _safe_session (PStr (lit "ab-12-cd")) = Ok (lit "ab_12_cd")
  /\ _safe_session (PInt 7) = Err (AttributeError (PInt 7) "replace").
Proof.
  destruct (safe_session_no_hyphen (PStr (lit "ab-12-cd"))) as (_ & H & _).
  destruct (H _ eq_refl) as (safe & E & _).
  destruct (safe_session_no_hyphen (PInt 7)) as (_ & _ & H').
  split; [reflexivity|].
  apply H'; [reflexivity | discriminate].
Defined.

(** ** event_formatter.py with graph.py: what the stage payloads report *)

Section Reports.
Context {U : Unicode} {F : FileSystem} {C : Collaborators}.

Lemma input_node_session (st u : dict) :
  input_node st = Ok u ->
  exists c s, dict_get st "session_id" = PStr (c :: s) /\
              u = [(lit "safe_session_id", PStr (replace_char 45 95 (c :: s)))].
Proof.
  intros H; destruct (input_node_ok st u H) as (s & Hs & ->).
  unfold input_node, py_assert in H; rewrite Hs in H.
  destruct s as [|c s]; [discriminate H|].
  exists c, s; auto.
Qed.

(** X7.  The session the formatter reports when the input node ends is the
    safe session id the node returned, which is also the one reported when
    it started: the session id of the initial state with hyphens replaced. *)
Theorem validated_session_reported (st u : dict) :
  input_node st = Ok u ->
  exists safe,
    u = [(lit "safe_session_id", PStr safe)]
    /\ _safe_session (dict_get st "session_id") = Ok safe
    /\ format_event_for_ui (input_start st) st = Ok [validating_payload safe st]
    /\ format_event_for_ui (node_end input u) st
       = Ok [[(lit "type", PStr (lit "stage")); (lit "node", PStr (lit "input"));
              (lit "message", PStr (lit "Session validated"));
              (lit "session", PStr safe)]].
Proof.
  intros H; destruct (input_node_session st u H) as (c & s & Hs & ->).
  exists (replace_char 45 95 (c :: s)).
  split; [reflexivity|].
  assert (E : _safe_session (dict_get st "session_id")
              = Ok (replace_char 45 95 (c :: s))) by (rewrite Hs; reflexivity).
  split; [exact E|]; split.
  - rewrite format_input_start, E; reflexivity.
  - reflexivity.
Qed.

Lemma format_body_history (nn : pystr) (ev st : dict) :
  str_in nn [lit "history"; lit "session_history_node"] = true ->
  let data := py_or (dict_get ev "data") (PDict []) in
  let found := get_if_dict (get_if_dict data "output") "history" in
  let found := if is_none found && truthy (PDict (_maybe_get_state data))
               then dict_get (_maybe_get_state data) "history" else found in
  let count := py_or (_extract_count found) (PInt 0) in
  format_body nn (PStr (lit "on_chain_end")) ev st
  = Ok [_build_stage_payload (lit "history")
          (lit "Fetched " ++ py_str count ++ lit " messages from history")
          [(lit "count", count)]].
Proof.
  intros H; unfold str_in in H; simpl in H.
  rewrite !orb_true_iff, !pystr_eqb_eq in H.
  destruct H as [-> | [-> | H]]; [reflexivity | reflexivity | discriminate].
Qed.

Lemma count_is_number (v : pyval) :
  exists n, (0 <= n)%Z /\ py_or (_extract_count v) (PInt 0) = PInt n
            /\ (forall l, v = PList l -> n = Z.of_nat (length l)).
Proof.
  destruct v; try (exists 0%Z; split; [lia|]; split; [reflexivity | discriminate]).
  - exists (Z.of_nat (length l)); split; [lia|]; split.
    + destruct l; reflexivity.
    + intros l' E; inversion E; reflexivity.
  - exists (Z.of_nat (length l)); split; [lia|]; split; [|discriminate].
    destruct l; reflexivity.
  - exists (Z.of_nat (length d)); split; [lia|]; split; [|discriminate].
    destruct d; reflexivity.
Qed.

(** X8.  When the history node ends, the formatter reports a count that is
    a natural number, in the message and in the "count" field alike; it is
    the number of messages when the node's output holds a list. *)
Theorem history_count_reported (ev st : dict) (name : pystr) :
  dict_get ev "name" = PStr name ->
  str_in (py_lower name) [lit "history"; lit "session_history_node"] = true ->
  ev_is (dict_get ev "event") "on_chain_end" = true ->
  exists n,
    (0 <= n)%Z
    /\ format_event_for_ui ev st
       = Ok [[(lit "type", PStr (lit "stage")); (lit "node", PStr (lit "history"));
              (lit "message",
               PStr (lit "Fetched " ++ dec n ++ lit " messages from history"));
              (lit "count", PInt n)]]
    /\ (forall l,
          get_if_dict (get_if_dict (py_or (dict_get ev "data") (PDict [])) "output")
            "history" = PList l ->
          n = Z.of_nat (length l)).
Proof.
  intros Hname Hn Hev.
  unfold format_event_for_ui; rewrite Hname, lower_event_name.
  rewrite (ev_is_eq _ _ Hev), (format_body_history _ ev st Hn).
  cbv zeta.
  set (data := py_or (dict_get ev "data") (PDict [])).
  set (found := get_if_dict (get_if_dict data "output") "history").
  set (h := if is_none found && truthy (PDict (_maybe_get_state data))
            then dict_get (_maybe_get_state data) "history" else found).
  destruct (count_is_number h) as (n & Hpos & Hc & Hl).
  exists n; split; [exact Hpos|]; split.
  - rewrite Hc; reflexivity.
  - intros l E; apply Hl; subst h; rewrite E; reflexivity.
Qed.

End Reports.

(** The witness of [validated_session_reported]: a valid request. *)
Lemma validated_session_reported_witness :
  format_event_for_ui (U := plain_unicode) (F := no_files)
    (node_end input [(lit "safe_session_id", PStr (lit "s_1"))])
    [(lit "session_id", PStr (lit "s-1")); (lit "message", PStr (lit "hi"));
     (lit "user_id", PStr (lit "u1"))]
  = Ok [[(lit "type", PStr (lit "stage")); (lit "node", PStr (lit "input"));
         (lit "message", PStr (lit "Session validated"));
         (lit "session", PStr (lit "s_1"))]].
Proof.
  destruct (validated_session_reported (U := plain_unicode) (F := no_files)
              [(lit "session_id", PStr (lit "s-1")); (lit "message", PStr (lit "hi"));
               (lit "user_id", PStr (lit "u1"))]
              [(lit "safe_session_id", PStr (lit "s_1"))] eq_refl)
    as (safe & Hu & _ & _ & E).
  injection Hu as <-; exact E.
Defined.

(** The witness of [history_count_reported]: two messages fetched. *)
Lemma history_count_reported_witness :
  exists n,
    format_event_for_ui (U := plain_unicode) (F := no_files)
      (node_end history
         [(lit "history", PList [message "HumanMessage" (PStr (lit "a"));
                                 message "AIMessage" (PStr (lit "b"))])]) []
    = Ok [[(lit "type", PStr (lit "stage")); (lit "node", PStr (lit "history"));
           (lit "message",
            PStr (lit "Fetched " ++ dec n ++ lit " messages from history"));
           (lit "count", PInt n)]]
    /\ n = 2%Z.
Proof.
  destruct (history_count_reported (U := plain_unicode) (F := no_files)
              (node_end history
                 [(lit "history", PList [message "HumanMessage" (PStr (lit "a"));
                                         message "AIMessage" (PStr (lit "b"))])])
              [] (lit "history") eq_refl eq_refl eq_refl)
    as (n & _ & E & Hl).
  exists n; split; [exact E | exact (Hl _ eq_refl)].
Defined.

(** ** event_formatter.py: more on truncation and text extraction *)

Section TextHelpers.
Context {U : Unicode}.

Lemma drop_while_head {A : Type} (f : A -> bool) (l : list A) :
  drop_while f l = [] \/
  exists x rest, drop_while f l = x :: rest /\ f x = false.
Proof.
  induction l as [|x l IH]; simpl; [left; reflexivity|].
  destruct (f x) eqn:E; [exact IH|].
  right; exists x, l; auto.
Qed.

(** What [rstrip] keeps does not end in white space. *)
Lemma rstrip_last (s : pystr) :
  rstrip s = [] \/
  exists kept c, rstrip s = kept ++ [c] /\ is_space c = false.
Proof.
  unfold rstrip.
  destruct (drop_while_head is_space (rev s)) as [-> | (x & rest & -> & Hx)].
  - left; reflexivity.
  - right; exists (rev rest), x; simpl; auto.
Qed.

Lemma _truncate_length (text : pyval) (N : Z) :
  (1 <= N)%Z -> (Z.of_nat (length (_truncate text N)) <= N)%Z.
Proof.
  intros HN; unfold _truncate.
  destruct (is_none text); [simpl; lia|].
  destruct (Z.leb_spec (Z.of_nat (length (py_str text))) N); [assumption|].
  rewrite slice_to_nonneg by lia.
  rewrite length_app; simpl.
  pose proof (rstrip_length (firstn (Z.to_nat (N - 1)) (py_str text))) as Hl.
  rewrite length_firstn in Hl; lia.
Qed.

(** X9.  Truncating twice with the same limit of at least one changes
    nothing more: the result of [_truncate] is within the limit, so a
    second call returns it as it is. *)
Theorem truncate_idempotent (text : pyval) (N : Z) :
  (1 <= N)%Z ->
  _truncate (PStr (_truncate text N)) N = _truncate text N.
Proof.
  intros HN; apply _truncate_short, _truncate_length, HN.
Qed.

(** X10.  In a truncated text the ellipsis never follows white space: what
    is kept before it is empty or ends in a character that is not white
    space.  A [None] text gives the empty string. *)
Theorem truncate_no_space_before_ellipsis (s : pystr) (N : Z) :
  (N < Z.of_nat (length s))%Z ->
  (exists kept,
      _truncate (PStr s) N = kept ++ [ellipsis]
      /\ (kept = [] \/ exists before c, kept = before ++ [c] /\ is_space c = false))
  /\ _truncate PNone N = [].
Proof.
  intros H; split; [|reflexivity].
  rewrite _truncate_long by exact H.
  exists (rstrip (slice_to (N - 1) s)); split; [reflexivity|].
  apply rstrip_last.
Qed.

(** [_extract_text] flattens lists: the text of a concatenation is
    the concatenation of the texts, a list of strings gives the strings
    joined, a tuple gives what the list of its items gives, and a message
    object gives the text of its content. *)
Lemma extract_text_flattens (a b : list pyval) :
  _extract_text (PList (a ++ b))
  = _extract_text (PList a) ++ _extract_text (PList b)
  /\ (forall strings, _extract_text (PList (map PStr strings)) = concat strings)
  /\ _extract_text (PTuple a) = _extract_text (PList a)
  /\ (forall cls content,
        _extract_text (message cls content) = _extract_text content).
Proof.
  split; [|split; [|split]].
  - cbn [_extract_text]; rewrite map_app, concat_app; reflexivity.
  - intros strings; cbn [_extract_text]; rewrite map_map.
    f_equal; apply map_id.
  - reflexivity.
  - intros cls content; reflexivity.
Qed.

End TextHelpers.

(** The witness of [truncate_idempotent]. *)
Lemma truncate_idempotent_witness :
  _truncate (U := plain_unicode)
    (PStr (_truncate (U := plain_unicode) (PStr (lit "a long sentence")) 8)) 8
  = lit "a long" ++ [ellipsis].
Proof.
  rewrite (truncate_idempotent (U := plain_unicode)
             (PStr (lit "a long sentence")) 8) by lia.
  reflexivity.
Defined.

(** The witness of [truncate_no_space_before_ellipsis]: the cut falls after
    a blank. *)
Lemma truncate_no_space_before_ellipsis_witness :
  exists kept,
    _truncate (U := plain_unicode) (PStr (lit "a long sentence")) 8
    = kept ++ [ellipsis]
    /\ (kept = [] \/ exists before c, kept = before ++ [c] /\ is_space c = false).
Proof.
  destruct (truncate_no_space_before_ellipsis (U := plain_unicode)
              (lit "a long sentence") 8) as [H _]; [simpl; lia|].
  exact H.
Defined.

(** ** The retrieval nodes and what the formatter reports for them *)

Section RetrievalReports.
Context {U : Unicode} {F : FileSystem} {E : Externals}.

(** Both [retrieve_chunks] methods answer with a dictionary of two
    members. *)
Lemma chunks_answer_shape (rows : result (list pyval)) :
  (exists chunks,
      chunks_answer rows
      = PDict [(lit "status", PStr (lit "success")); (lit "chunks", PList chunks)]
      /\ exists rs, rows = Ok rs /\ sequence (map chunk_of_row rs) = Ok chunks)
  \/ (exists m,
        chunks_answer rows
        = PDict [(lit "status", PStr (lit "error")); (lit "message", PStr m)]).
Proof.
  unfold chunks_answer.
  destruct rows as [rs|e]; cbn [bind].
  - destruct (sequence (map chunk_of_row rs)) as [chunks|e] eqn:Es.
    + left; exists chunks; split; [reflexivity|]; exists rs; auto.
    + right; eexists; reflexivity.
  - right; eexists; reflexivity.
Qed.

Lemma policy_retriever_node_ok (state u : dict) :
  policy_retriever_node state = Ok u ->
  exists message,
    state_item state "message" = Ok message /\
    u = [(lit "policy_context", Retriever_retrieve_chunks message)].
Proof.
  unfold policy_retriever_node.
  destruct (state_item state "message") as [message|]; cbn [bind]; [|discriminate].
  destruct (slice_check message); cbn [bind]; [|discriminate].
  destruct (len_if_truthy _); cbn [bind]; [|discriminate].
  intros H; injection H as <-; exists message; auto.
Qed.

(** X11.  Whatever the policy retriever finds, the formatter reports
    "Retrieved 2 policy chunks" with count 2 and no sample when
    [policy_retriever_node] ends: the node stores the retriever's answer, a
    dictionary with the two members "status" and "chunks" (or "status" and
    "message"), and the formatter counts the members of that dictionary. *)
Theorem policy_retriever_always_reports_two (state u st : dict) :
  policy_retriever_node state = Ok u ->
  format_event_for_ui (node_end policy_retriever u) st
  = Ok [[(lit "type", PStr (lit "stage"));
         (lit "node", PStr (lit "policy_retriever"));
         (lit "message", PStr (lit "Retrieved 2 policy chunks"));
         (lit "count", PInt 2)]].
Proof.
  intros H; destruct (policy_retriever_node_ok state u H) as (message & _ & ->).
  unfold Retriever_retrieve_chunks.
  destruct (chunks_answer_shape (fetch_policy_rows message))
    as [(chunks & -> & _) | (m & ->)]; reflexivity.
Qed.

(** [policy_retriever_node] returns for every state whose message is a
    string, whatever the retriever does. *)
Lemma policy_retriever_node_total (state : dict) (m : pystr) :
  state_item state "message" = Ok (PStr m) ->
  policy_retriever_node state
  = Ok [(lit "policy_context", Retriever_retrieve_chunks (PStr m))].
Proof.
  intros H; unfold policy_retriever_node; rewrite H; cbn [bind slice_check].
  unfold Retriever_retrieve_chunks.
  destruct (chunks_answer_shape (fetch_policy_rows (PStr m)))
    as [(chunks & -> & _) | (e & ->)]; reflexivity.
Qed.

Lemma sequence_length {A : Type} (rs : list (result A)) (xs : list A) :
  sequence rs = Ok xs -> length xs = length rs.
Proof.
  revert xs; induction rs as [|r rs IH]; intros xs; simpl.
  - intros H; injection H as <-; reflexivity.
  - destruct r as [x|]; cbn [bind]; [|discriminate].
    destruct (sequence rs) as [ys|]; cbn [bind]; [|discriminate].
    intros H; injection H as <-; simpl; f_equal; apply IH; reflexivity.
Qed.

(** What [document_retriever_node] stores: the chunks of a successful
    retrieval, an empty list otherwise. *)
Lemma retrieved_doc_context_list (question sid : pyval) :
  exists chunks,
    match retrieved_doc_context question sid with
    | Ok doc_context => doc_context
    | Err _ => PList []
    end = PList chunks
    /\ (forall rs, fetch_session_rows question sid = Ok rs ->
                   forall cs, sequence (map chunk_of_row rs) = Ok cs -> chunks = cs)
    /\ (forall e, fetch_session_rows question sid = Err e -> chunks = []).
Proof.
  unfold retrieved_doc_context, TempRetriever_retrieve_chunks, chunks_answer.
  destruct (fetch_session_rows question sid) as [rs|e]; cbn [bind].
  - destruct (sequence (map chunk_of_row rs)) as [cs|e] eqn:Es.
    + exists cs; split; [reflexivity|]; split; [|discriminate].
      intros rs' Hr cs' Hc; injection Hr as <-; congruence.
    + exists []; split; [reflexivity|]; split; [|discriminate].
      intros rs' Hr cs' Hc; injection Hr as <-; congruence.
  - exists []; split; [reflexivity|]; split; [discriminate | reflexivity].
Qed.

(** X12.  [document_retriever_node] returns for every state whose message
    is a string, with a list under "doc_context": the chunks when the
    retrieval succeeds, one for each row, and the empty list when it fails
    or when the state has no safe session id.  The formatter then reports
    the length of that list as the count, and a sample of at most 160
    characters. *)
Theorem doc_retriever_reports_chunks (state st : dict) (m : pystr) :
  state_item state "message" = Ok (PStr m) ->
  exists chunks,
    document_retriever_node state = Ok [(lit "doc_context", PList chunks)]
    /\ (truthy (dict_get state "safe_session_id") = false -> chunks = [])
    /\ (forall e, fetch_session_rows (PStr m) (dict_get state "safe_session_id")
                     = Err e -> chunks = [])
    /\ (forall rs cs,
          truthy (dict_get state "safe_session_id") = true ->
          fetch_session_rows (PStr m) (dict_get state "safe_session_id") = Ok rs ->
          sequence (map chunk_of_row rs) = Ok cs ->
          chunks = cs /\ length chunks = length rs)
    /\ exists sample,
         format_event_for_ui
           (node_end doc_retriever [(lit "doc_context", PList chunks)]) st
         = Ok [[(lit "type", PStr (lit "stage"));
                (lit "node", PStr (lit "doc_retriever"));
                (lit "message",
                 PStr (lit "Retrieved " ++ dec (Z.of_nat (length chunks))
                       ++ lit " document chunks"));
                (lit "count", PInt (Z.of_nat (length chunks)));
                (lit "sample", PStr sample)]]
         /\ length sample <= 160.
Proof.
  intros Hm; unfold document_retriever_node; rewrite Hm; cbn [bind slice_check].
  set (sid := dict_get state "safe_session_id").
  assert (Hfmt : forall chunks, exists sample,
             format_event_for_ui
               (node_end doc_retriever [(lit "doc_context", PList chunks)]) st
             = Ok [[(lit "type", PStr (lit "stage"));
                    (lit "node", PStr (lit "doc_retriever"));
                    (lit "message",
                     PStr (lit "Retrieved " ++ dec (Z.of_nat (length chunks))
                           ++ lit " document chunks"));
                    (lit "count", PInt (Z.of_nat (length chunks)));
                    (lit "sample", PStr sample)]]
             /\ length sample <= 160).
  { intros chunks.
    exists (_truncate (if truthy (PInt (Z.of_nat (length chunks)))
                       then hd (PStr []) chunks else PStr []) 160).
    split.
    - destruct chunks; reflexivity.
    - pose proof (_truncate_length
                    (if truthy (PInt (Z.of_nat (length chunks)))
                     then hd (PStr []) chunks else PStr []) 160) as Hl.
      lia. }
  destruct (truthy sid) eqn:Hs; cbn [negb].
  - destruct (retrieved_doc_context_list (PStr m) sid) as (chunks & -> & Hok & Herr).
    exists chunks; split; [reflexivity|]; split; [discriminate|].
    split; [intros e He; exact (Herr e He)|].
    split; [|apply Hfmt].
    intros rs cs _ Hr Hc; rewrite (Hok rs Hr cs Hc); split; [reflexivity|].
    rewrite (sequence_length _ _ Hc), length_map; reflexivity.
  - exists []; split; [reflexivity|]; split; [reflexivity|].
    split; [reflexivity|]; split; [discriminate | apply Hfmt].
Qed.

End RetrievalReports.

(** The witness of [policy_retriever_always_reports_two]: five rows
    found. *)
Lemma policy_retriever_always_reports_two_witness :
  let row := PTuple [PInt 1; PStr (lit "Leave is 20 days."); PInt 0] in
  let state := [(lit "message", PStr (lit "leave?"))] in
  exists u,
    policy_retriever_node
      (E := simple_externals [] [row; row; row; row; row] (lit "ok")) state = Ok u
    /\ format_event_for_ui (U := plain_unicode) (F := no_files)
         (node_end policy_retriever u) []
       = Ok [[(lit "type", PStr (lit "stage"));
              (lit "node", PStr (lit "policy_retriever"));
              (lit "message", PStr (lit "Retrieved 2 policy chunks"));
              (lit "count", PInt 2)]].
Proof.
  intros row state; eexists; split; [reflexivity|].
  apply (policy_retriever_always_reports_two (U := plain_unicode) (F := no_files)
           (E := simple_externals [] [row; row; row; row; row] (lit "ok")) state).
  reflexivity.
Defined.

(** The witness of [doc_retriever_reports_chunks]: two rows found. *)
Lemma doc_retriever_reports_chunks_witness :
  let row := PTuple [PInt 1; PStr (lit "Clause 4."); PInt 0] in
  exists chunks,
    document_retriever_node (E := simple_externals [] [row; row] (lit "ok"))
      [(lit "message", PStr (lit "clause?")); (lit "safe_session_id", PStr (lit "s_1"))]
    = Ok [(lit "doc_context", PList chunks)]
    /\ length chunks = 2.
Proof.
  intros row.
  destruct (doc_retriever_reports_chunks (U := plain_unicode) (F := no_files)
              (E := simple_externals [] [row; row] (lit "ok"))
              [(lit "message", PStr (lit "clause?"));
               (lit "safe_session_id", PStr (lit "s_1"))] [] (lit "clause?") eq_refl)
    as (chunks & E & _ & _ & H & _).
  exists chunks; split; [exact E|].
  destruct (H [row; row] _ eq_refl eq_refl eq_refl) as [_ Hl]; exact Hl.
Defined.

(** ** What the consumer of the stream sees *)

Section Consumer.
Context {U : Unicode} {F : FileSystem}.

Lemma drain_frames (frames : list pystr) (rest : queue) :
  drain (map Some frames ++ None :: rest) = frames.
Proof. induction frames as [|f fs IH]; simpl; [|rewrite IH]; reflexivity. Qed.

(** The inner loop of the producer queues [payload_frame] of each payload,
    in order. *)
Lemma put_payloads_exact (payloads : list dict) : forall q,
  put_payloads payloads q = (q ++ map Some (map payload_frame payloads), None).
Proof.
  induction payloads as [|p ps IH]; intros q; cbn [put_payloads map].
  - rewrite app_nil_r; reflexivity.
  - unfold payload_frame at 1.
    destruct (serialize_total p) as [line E]; rewrite E, IH.
    unfold put; rewrite <- app_assoc; reflexivity.
Qed.

Lemma consume_events_all (events : list dict) (ending : option exn) (st : dict) :
  forall q,
  Forall (formats st) events ->
  consume_events events ending st q
  = (q ++ map Some (flat_map (event_frames st) events), ending).
Proof.
  induction events as [|ev events IH]; intros q H; cbn [consume_events flat_map].
  - simpl; rewrite app_nil_r; reflexivity.
  - inversion H as [|? ? [ps E] H']; subst.
    unfold event_frames at 1; rewrite E, put_payloads_exact, IH by assumption.
    rewrite map_app, app_assoc; reflexivity.
Qed.

Lemma consume_events_stops (pre post : list dict) (bad : dict) (e : exn)
    (ending : option exn) (st : dict) :
  forall q,
  Forall (formats st) pre ->
  format_event_for_ui bad st = Err e ->
  consume_events (pre ++ bad :: post) ending st q
  = (q ++ map Some (flat_map (event_frames st) pre), Some e).
Proof.
  induction pre as [|ev pre IH]; intros q H Hbad; cbn [consume_events flat_map app].
  - rewrite Hbad; simpl; rewrite app_nil_r; reflexivity.
  - inversion H as [|? ? [ps E] H']; subst.
    unfold event_frames at 1; rewrite E, put_payloads_exact, IH by assumption.
    rewrite map_app, app_assoc; reflexivity.
Qed.

(** X13.  Once the generator's first step has passed (the state's message
    can be sliced), and when the formatter returns for every event of the
    stream, [create_stream_generator] yields the frames of the events in
    the order of the events, each event's payloads in the formatter's
    order, then an error frame if the stream itself raised, then the end
    frame, and nothing after it. *)
Theorem generator_yields_in_order (graph : dict -> stream) (st : dict) :
  sliceable (dict_get_default st "message" (PStr [])) = true ->
  Forall (formats st) (fst (graph st)) ->
  create_stream_generator graph st
  = Ok (flat_map (event_frames st) (fst (graph st))
        ++ match snd (graph st) with
           | Some e => [error_frame (exn_str e)]
           | None => []
           end
        ++ [end_frame]).
Proof.
  intros Hs H; unfold create_stream_generator.
  rewrite (message_preview_sliceable st Hs); cbn [bind]; f_equal.
  unfold async_producer.
  destruct (graph st) as [events ending]; cbn [fst snd] in *.
  rewrite (consume_events_all events ending st [] H); cbn [app].
  destruct ending as [e|].
  - rewrite put_error_frame; cbn [fst]; rewrite put_end_frames.
    rewrite <- app_assoc; cbn [app].
    change (map Some ?l ++ Some ?a :: Some ?b :: None :: nil)
      with (map Some l ++ map Some [a; b] ++ None :: nil).
    rewrite app_assoc, <- map_app, drain_frames; reflexivity.
  - cbn [fst]; rewrite put_end_frames.
    change (map Some ?l ++ Some ?b :: None :: nil)
      with (map Some l ++ map Some [b] ++ None :: nil).
    rewrite app_assoc, <- map_app, drain_frames; reflexivity.
Qed.

(** X14.  Once the generator's first step has passed (the state's message
    can be sliced), the first event on which the formatter raises ends the
    stream: the frames of the events before it are yielded, then one error
    frame with the formatter's message, then the end frame.  Neither the
    events after it nor the way the stream would have ended change what is
    yielded. *)
Theorem formatter_failure_cuts_stream (pre post : list dict) (bad : dict)
    (ending : option exn) (e : exn) (st : dict) :
  sliceable (dict_get_default st "message" (PStr [])) = true ->
  Forall (formats st) pre ->
  format_event_for_ui bad st = Err e ->
  create_stream_generator (fun _ => (pre ++ bad :: post, ending)) st
  = Ok (flat_map (event_frames st) pre ++ [error_frame (exn_str e); end_frame]).
Proof.
  intros Hs H Hbad; unfold create_stream_generator.
  rewrite (message_preview_sliceable st Hs); cbn [bind]; f_equal.
  unfold async_producer.
  rewrite (consume_events_stops pre post bad e ending st [] H Hbad); cbn [app].
  rewrite put_error_frame; cbn [fst]; rewrite put_end_frames.
  rewrite <- app_assoc; cbn [app].
  change (map Some ?l ++ Some ?a :: Some ?b :: None :: nil)
    with (map Some l ++ map Some [a; b] ++ None :: nil).
  rewrite app_assoc, <- map_app, drain_frames; reflexivity.
Qed.

(** What the consumer loop yields ends with the end frame, which occurs
    nowhere else. *)
Lemma generator_ends_with_end_frame (graph : dict -> stream) (st : dict) :
  exists body,
    drain (fst (async_producer graph st [])) = body ++ [end_frame] /\
    Forall (fun line => line <> end_frame) body.
Proof.
  unfold async_producer.
  destruct (graph st) as [events ending].
  destruct (consume_events_frames events ending st []) as (frames & Eq & Hb).
  destruct (consume_events events ending st []) as [q' failure].
  cbn [fst app] in Eq; subst q'.
  exists (frames ++ match failure with
                    | Some e => [error_frame (exn_str e)]
                    | None => []
                    end); split.
  - destruct failure as [e|].
    + rewrite put_error_frame; cbn [fst]; rewrite put_end_frames, <- app_assoc.
      cbn [app].
      change (map Some ?l ++ Some ?a :: Some ?b :: None :: nil)
        with (map Some l ++ map Some [a; b] ++ None :: nil).
      rewrite app_assoc, <- map_app, drain_frames, <- app_assoc; reflexivity.
    + cbn [fst]; rewrite put_end_frames.
      change (map Some ?l ++ Some ?b :: None :: nil)
        with (map Some l ++ map Some [b] ++ None :: nil).
      rewrite app_assoc, <- map_app, drain_frames, app_nil_r; reflexivity.
  - apply Forall_app; split.
    + eapply Forall_impl; [|exact Hb]; intros line; apply body_frame_not_end.
    + destruct failure as [e|]; constructor; [|constructor].
      apply body_frame_not_end, error_frame_body.
Qed.

(** X15.  The first step of the generator of [create_stream_generator]
    slices the state's message for a [print] before the queue and the
    producer thread exist.  For a state with a message that can be sliced,
    or with none, the generator yields body frames and then the end frame.
    For any other message the generator raises on its first step and yields
    nothing, not even the end frame; [run_graph_stream] raises likewise
    before it asks the graph for events. *)
Theorem generator_first_step (graph : dict -> stream) (st : dict) :
  let message := dict_get_default st "message" (PStr []) in
  (sliceable message = true ->
     run_graph_stream graph st = graph st /\
     exists body,
       create_stream_generator graph st = Ok (body ++ [end_frame]) /\
       Forall (fun line => line <> end_frame) body)
  /\ (sliceable message = false ->
     exists e,
       create_stream_generator graph st = Err e /\
       run_graph_stream graph st = ([], Some e)).
Proof.
  intros message; unfold create_stream_generator, run_graph_stream, message_preview.
  fold message; split; intros Hs.
  - assert (E : slice_check message = Ok tt)
      by (destruct message; try discriminate Hs; reflexivity).
    rewrite E; cbn [bind]; split; [reflexivity|].
    destruct (generator_ends_with_end_frame graph st) as (body & -> & Hb).
    exists body; split; [reflexivity | exact Hb].
  - destruct message; try discriminate Hs; eexists; split; reflexivity.
Qed.

End Consumer.

(** The witness of [generator_yields_in_order]: two events, then the stream
    raises. *)
Lemma generator_yields_in_order_witness :
  let st := [(lit "session_id", PStr (lit "s-1"))] in
  let events := [input_start st;
                 node_end policy_retriever [(lit "policy_context", PList [])]] in
  create_stream_generator (U := plain_unicode) (F := no_files)
    (fun _ => (events, Some (Exn (lit "RuntimeError") (lit "boom")))) st
  = Ok (flat_map (event_frames (U := plain_unicode) (F := no_files) st) events
        ++ [error_frame (lit "boom")] ++ [end_frame]).
Proof.
  intros st events.
  apply (generator_yields_in_order (U := plain_unicode) (F := no_files)
           (fun _ => (events, Some (Exn (lit "RuntimeError") (lit "boom")))) st).
  - reflexivity.
  - repeat constructor; eexists; reflexivity.
Defined.

(** The witness of [formatter_failure_cuts_stream]: an event named by a
    number between two events of the graph. *)
Lemma formatter_failure_cuts_stream_witness :
  let st := [(lit "session_id", PStr (lit "s-1"))] in
  create_stream_generator (U := plain_unicode) (F := no_files)
    (fun _ => ([input_start st]
               ++ [(lit "name", PInt 5); (lit "event", PStr (lit "on_chain_start"))]
               :: [node_end policy_retriever [(lit "policy_context", PList [])]],
               None)) st
  = Ok (flat_map (event_frames (U := plain_unicode) (F := no_files) st)
          [input_start st]
        ++ [error_frame (exn_str (UnboundLocalError "ev_type")); end_frame]).
Proof.
  intros st.
  apply (formatter_failure_cuts_stream (U := plain_unicode) (F := no_files)).
  - reflexivity.
  - repeat constructor; eexists; reflexivity.
  - reflexivity.
Defined.

(** The witness of [generator_first_step]: a message that is a number. *)
Lemma generator_first_step_witness :
  let st := [(lit "message", PInt 7)] in
  exists e,
    create_stream_generator (U := plain_unicode) (F := no_files)
      (fun _ => ([], None)) st = Err e /\
    run_graph_stream (fun _ => ([], None)) st = ([], Some e).
Proof.
  intros st.
  exact (proj2 (generator_first_step (U := plain_unicode) (F := no_files)
                  (fun _ => ([], None)) st) eq_refl).
Defined.

(** ** The history store *)

Section HistoryStore.
Context {U : Unicode} {E : Externals}.

Lemma history_of_rows_messages (rows : list pyval) : forall hs,
  Orchestrator.history_of_rows rows = Ok hs ->
  Forall (chat_message ["HumanMessage"; "AIMessage"]%string) hs.
Proof.
  induction rows as [|msg rows IH]; intros hs; cbn [Orchestrator.history_of_rows].
  - intros H; injection H as <-; constructor.
  - destruct (py_getitem msg "role") as [role|]; cbn [bind]; [|discriminate].
    assert (Hm : forall cls content m,
               In cls ["HumanMessage"; "AIMessage"]%string ->
               make_message cls content = Ok m ->
               chat_message ["HumanMessage"; "AIMessage"]%string m).
    { intros cls content m Hin Hmk; exists cls, content; split; [exact Hin|].
      destruct content; try discriminate Hmk; injection Hmk as <-; reflexivity. }
    destruct (equals_str role "user");
      [|destruct (equals_str role "assistant")].
    + destruct (py_getitem msg "content") as [content|]; cbn [bind]; [|discriminate].
      destruct (make_message "HumanMessage" content) as [m|] eqn:Em;
        cbn [bind]; [|discriminate].
      destruct (Orchestrator.history_of_rows rows) as [more|]; cbn [bind]; [|discriminate].
      intros H; injection H as <-; constructor; [|apply IH; reflexivity].
      eapply Hm; [|exact Em]; simpl; auto.
    + destruct (py_getitem msg "content") as [content|]; cbn [bind]; [|discriminate].
      destruct (make_message "AIMessage" content) as [m|] eqn:Em;
        cbn [bind]; [|discriminate].
      destruct (Orchestrator.history_of_rows rows) as [more|]; cbn [bind]; [|discriminate].
      intros H; injection H as <-; constructor; [|apply IH; reflexivity].
      eapply Hm; [|exact Em]; simpl; auto.
    + cbn [bind].
      destruct (Orchestrator.history_of_rows rows) as [more|]; cbn [bind]; [|discriminate].
      intros H; injection H as <-; apply IH; reflexivity.
Qed.

(** The three shapes of what [get_session_history] returns. *)
Lemma session_history_shape (session_id : pyval) :
  let history := Orchestrator.get_session_history session_id in
  history <> [] /\
  (history = Orchestrator.default_history \/
   Forall (chat_message ["HumanMessage"; "AIMessage"]%string) history) /\
  (forall e, chat_repo_get_messages session_id = Err e ->
             history = Orchestrator.default_history).
Proof.
  unfold Orchestrator.get_session_history; cbv zeta.
  destruct (chat_repo_get_messages session_id) as [db|e]; cbn [bind].
  2: { split; [discriminate | split; [left; reflexivity | reflexivity]]. }
  destruct (py_iter db) as [rows|e]; cbn [bind].
  2: { split; [discriminate | split; [left; reflexivity | discriminate]]. }
  destruct (Orchestrator.history_of_rows rows) as [[|m hs]|e] eqn:Eh.
  - split; [discriminate | split; [left; reflexivity | discriminate]].
  - split; [discriminate | split; [right | discriminate]].
    apply (history_of_rows_messages rows); exact Eh.
  - split; [discriminate | split; [left; reflexivity | discriminate]].
Qed.


(** Every element of the history has a [content] attribute. *)
Lemma session_history_messages (session_id : pyval) :
  Forall (chat_message ["SystemMessage"; "HumanMessage"; "AIMessage"]%string)
         (Orchestrator.get_session_history session_id).
Proof.
  destruct (session_history_shape session_id) as (_ & [-> | H] & _).
  - repeat constructor; eexists _, _; split; [|reflexivity]; simpl; auto.
  - eapply Forall_impl; [|exact H].
    intros v (cls & content & Hin & ->); exists cls, content; split; [|reflexivity].
    simpl in *; tauto.
Qed.

(** X17.  [update_session_history] never raises, and the repository calls
    that go through are determined by which calls return: none when the
    title cannot be taken or the session call fails; the session call alone
    when saving the user message fails; the session call and the user
    message when saving the reply fails; all three, in that order, when
    every call returns.  So it stops at the first call that fails, and the
    reply is never saved without the user message.  The title is the first
    50 characters of the user message, "New Chat" for an empty message. *)
Theorem update_session_history_log (session_id user_id human_message ai_response : pyval) :
  let wanted := if truthy human_message then py_slice_to human_message 50
                else Ok (PStr (lit "New Chat")) in
  let session_made title :=
    wanted = Ok title /\
    chat_repo_get_or_create_session session_id user_id title = Ok tt in
  let user_saved :=
    chat_repo_save_message session_id (lit "user") human_message = Ok tt in
  let reply_saved :=
    chat_repo_save_message session_id (lit "assistant") ai_response = Ok tt in
  let calls :=
    Orchestrator.update_session_history session_id user_id human_message
      ai_response in
  ((forall title, ~ session_made title) -> calls = []) /\
  (forall title, session_made title ->
     (~ user_saved -> calls = [GetOrCreateSession session_id user_id title]) /\
     (user_saved -> ~ reply_saved ->
      calls = [GetOrCreateSession session_id user_id title;
               SaveMessage session_id (lit "user") human_message]) /\
     (user_saved -> reply_saved ->
      calls = [GetOrCreateSession session_id user_id title;
               SaveMessage session_id (lit "user") human_message;
               SaveMessage session_id (lit "assistant") ai_response])) /\
  (forall m, human_message = PStr m ->
             wanted = Ok (PStr (if nonempty m then slice_to 50 m
                                else lit "New Chat"))).
Proof.
  cbv zeta; unfold Orchestrator.update_session_history.
  set (wanted := if truthy human_message then py_slice_to human_message 50
                 else Ok (PStr (lit "New Chat"))).
  split; [|split].
  - intros Hno.
    destruct wanted as [title|e] eqn:Ew; cbn [bind]; [|reflexivity].
    destruct (chat_repo_get_or_create_session session_id user_id title)
      as [[]|e] eqn:Eg; cbn [bind]; [|reflexivity].
    exfalso; apply (Hno title); split; [reflexivity | exact Eg].
  - intros title [Hw Hg]; rewrite Hw; cbn [bind]; rewrite Hg; cbn [bind].
    destruct (chat_repo_save_message session_id (lit "user") human_message)
      as [[]|e] eqn:Eu.
    + destruct (chat_repo_save_message session_id (lit "assistant") ai_response)
        as [[]|e] eqn:Ea.
      * split; [intros H; contradiction H; reflexivity|].
        split; [intros _ H; contradiction H; reflexivity | reflexivity].
      * split; [intros H; contradiction H; reflexivity|].
        split; [reflexivity | intros _ H; discriminate H].
    + split; [reflexivity|].
      split; intros H; discriminate H.
  - intros m ->; subst wanted; destruct m; reflexivity.
Qed.

End HistoryStore.

(** ** The nodes after the retrievers *)

Section NodeBehaviour.
Context {U : Unicode} {E : Externals} {C : Collaborators}.

(** X18.  Once the state holds a history list and the combined user
    message, [llm_node] returns whatever the chat model does: with the
    model's reply when the call returns an object whose content has a
    length (or is empty), and with the fixed fallback text when the call
    raises.  The response it stores can always be measured by the [len]
    of [output_node]. *)
Theorem llm_node_falls_back (state : dict) (h : list pyval) (full : pystr) :
  state_item state "history" = Ok (PList h) ->
  state_item state "full_user_message" = Ok (PStr full) ->
  exists r,
    llm_node state = Ok [(lit "response", r)] /\
    len_if_truthy r = Ok tt /\
    (forall e, chat_model (conversation h (PStr full)) = Err e ->
               r = PStr llm_fallback) /\
    (forall response content,
        chat_model (conversation h (PStr full)) = Ok response ->
        getattr response "content" = Ok content ->
        len_if_truthy content = Ok tt ->
        r = content).
Proof.
  intros Hh Hf; unfold llm_node; rewrite Hh, Hf; cbn [bind py_len].
  unfold llm_answer; cbn [make_message bind with_history].
  replace (([message "SystemMessage" (PStr MAIN_PROMPT)] ++ h)
           ++ [message "HumanMessage" (PStr full)])
    with (conversation h (PStr full))
    by (unfold conversation; rewrite <- app_assoc; reflexivity).
  destruct (chat_model (conversation h (PStr full))) as [response|e] eqn:Ec;
    cbn [bind].
  - destruct (getattr response "content") as [content|e] eqn:Eg; cbn [bind].
    + destruct (len_if_truthy content) as [[]|e] eqn:El; cbn [bind].
      * exists content; split; [reflexivity|]; split; [exact El|].
        split; [discriminate|].
        intros response' content' H1 H2 _.
        injection H1 as <-; rewrite Eg in H2; injection H2 as <-; reflexivity.
      * exists (PStr llm_fallback); split; [reflexivity|]; split; [reflexivity|].
        split; [reflexivity|].
        intros response' content' H1 H2 H3.
        injection H1 as <-; rewrite Eg in H2; injection H2 as <-.
        rewrite El in H3; discriminate H3.
    + exists (PStr llm_fallback); split; [reflexivity|]; split; [reflexivity|].
      split; [reflexivity|].
      intros response' content' H1 H2; injection H1 as <-.
      rewrite Eg in H2; discriminate H2.
  - exists (PStr llm_fallback); split; [reflexivity|]; split; [reflexivity|].
    split; [reflexivity|].
    intros response' content' H1; discriminate H1.
Qed.

Lemma serialize_chat_messages (classes : list string) (messages : list pyval) :
  Forall (chat_message classes) messages ->
  exists serialized,
    serialize_messages messages = Ok serialized /\
    length serialized = length messages.
Proof.
  unfold serialize_messages.
  induction 1 as [|m ms (cls & content & _ & ->) _ (ss & Es & Hl)]; cbn [map sequence].
  - exists []; auto.
  - rewrite Es; cbn; eexists; split; [reflexivity | simpl; congruence].
Qed.

End NodeBehaviour.

(** The witness of [llm_node_falls_back]: the model is down. *)
Lemma llm_node_falls_back_witness :
  llm_node (E := failing_externals)
    [(lit "history", PList []); (lit "full_user_message", PStr (lit "hello"))]
  = Ok [(lit "response", PStr llm_fallback)].
Proof.
  destruct (llm_node_falls_back (E := failing_externals)
              [(lit "history", PList []); (lit "full_user_message", PStr (lit "hello"))]
              [] (lit "hello") eq_refl eq_refl) as (r & -> & _ & H & _).
  rewrite (H _ eq_refl); reflexivity.
Defined.


(** The witness of [update_session_history_log]: every call goes through. *)
Lemma update_session_history_log_witness :
  Orchestrator.update_session_history (E := simple_externals [] [] (lit "ok"))
    (PStr (lit "s-1")) (PStr (lit "u1")) (PStr (lit "leave?")) (PStr (lit "20 days"))
  = [GetOrCreateSession (PStr (lit "s-1")) (PStr (lit "u1")) (PStr (lit "leave?"));
     SaveMessage (PStr (lit "s-1")) (lit "user") (PStr (lit "leave?"));
     SaveMessage (PStr (lit "s-1")) (lit "assistant") (PStr (lit "20 days"))].
Proof.
  destruct (update_session_history_log (E := simple_externals [] [] (lit "ok"))
              (PStr (lit "s-1")) (PStr (lit "u1")) (PStr (lit "leave?"))
              (PStr (lit "20 days"))) as (_ & H & _).
  destruct (H (PStr (lit "leave?")) (conj eq_refl eq_refl)) as (_ & _ & Hall).
  exact (Hall eq_refl eq_refl).
Defined.

(** ** A validated request runs to the output node *)

Section RunSteps.
Context {U : Unicode} {C : Collaborators}.

Lemma dict_find_update_same (k : pystr) (v : pyval) (st : dict) :
  dict_find k (dict_update st [(k, v)]) = Some v.
Proof.
  unfold dict_update; simpl; rewrite dict_find_set, pystr_eqb_refl; reflexivity.
Qed.

Lemma dict_find_update_other (k k0 : pystr) (v : pyval) (st : dict) :
  pystr_eqb k k0 = false ->
  dict_find k (dict_update st [(k0, v)]) = dict_find k st.
Proof.
  intros H; unfold dict_update; simpl; rewrite dict_find_set, H; reflexivity.
Qed.

Lemma completes_step (limit : nat) (n n' : node) (st u : dict) (tokens : list pyval)
    (nodes : list node) :
  node_function n st = (tokens, Ok u) ->
  next_node n (dict_update st u) = Ok (Some n') ->
  completes limit n' (dict_update st u) nodes ->
  completes (S limit) n st (n :: nodes).
Proof.
  intros Hf Hn (steps & Er & Hm & Hr); unfold completes.
  rewrite run_from_step, Hf; cbv beta iota zeta; rewrite Hn, Er.
  eexists; split; [reflexivity|]; split; [simpl; rewrite Hm; reflexivity|].
  constructor; [exists u; reflexivity | exact Hr].
Qed.

Lemma completes_last (limit : nat) (n : node) (st u : dict) (tokens : list pyval) :
  node_function n st = (tokens, Ok u) ->
  next_node n (dict_update st u) = Ok None ->
  completes (S limit) n st [n].
Proof.
  intros Hf Hn; unfold completes.
  rewrite run_from_step, Hf; cbv beta iota zeta; rewrite Hn.
  eexists; split; [reflexivity|]; split; [reflexivity|].
  constructor; [exists u; reflexivity | constructor].
Qed.

End RunSteps.

Section FullRun.
Context {U : Unicode} {E : Externals} {C : Collaborators}.

Ltac lookup :=
  repeat first [ rewrite dict_find_update_same
               | rewrite dict_find_update_other by reflexivity ].

Lemma policy_node_returns (st : dict) (m : pystr) :
  dict_find (lit "message") st = Some (PStr m) ->
  exists d,
    policy_retriever_node st = Ok [(lit "policy_context", PDict d)] /\
    length d = 2.
Proof.
  intros Hm.
  rewrite (policy_retriever_node_total st m)
    by (unfold state_item; rewrite Hm; reflexivity).
  unfold Retriever_retrieve_chunks.
  destruct (chunks_answer_shape (fetch_policy_rows (PStr m)))
    as [(chunks & -> & _) | (e & ->)]; eexists; split; reflexivity.
Qed.

Lemma doc_retriever_returns (st : dict) (m : pystr) :
  dict_find (lit "message") st = Some (PStr m) ->
  exists chunks,
    document_retriever_node st = Ok [(lit "doc_context", PList chunks)].
Proof.
  intros Hm; unfold document_retriever_node, state_item; rewrite Hm.
  cbn [bind slice_check].
  destruct (truthy (dict_get st "safe_session_id")); cbn [negb].
  - destruct (retrieved_doc_context_list (PStr m) (dict_get st "safe_session_id"))
      as (chunks & -> & _).
    exists chunks; reflexivity.
  - exists []; reflexivity.
Qed.

Lemma context_node_returns (st : dict) (m : pystr) (d : dict) :
  dict_find (lit "message") st = Some (PStr m) ->
  dict_find (lit "policy_context") st = Some (PDict d) ->
  (dict_find (lit "doc_context") st = None \/
   exists chunks, dict_find (lit "doc_context") st = Some (PList chunks)) ->
  exists full,
    context_combination_node st = Ok [(lit "full_user_message", PStr full)].
Proof.
  intros Hm Hp Hd; unfold context_combination_node, state_item, dict_get.
  rewrite Hm, Hp; cbn [bind slice_check].
  assert (E1 : len_if_truthy (py_or (PDict d) (PList [])) = Ok tt)
    by (destruct d; reflexivity).
  rewrite E1; cbn [bind].
  assert (E2 : len_if_truthy
                 (py_or match dict_find (lit "doc_context") st with
                        | Some v => v
                        | None => PNone
                        end (PList [])) = Ok tt).
  { destruct Hd as [-> | (chunks & ->)]; [reflexivity | destruct chunks; reflexivity]. }
  rewrite E2; cbn [bind]; eexists; reflexivity.
Qed.

Lemma llm_node_returns (st : dict) (h : list pyval) (full : pystr) :
  dict_find (lit "history") st = Some (PList h) ->
  dict_find (lit "full_user_message") st = Some (PStr full) ->
  exists r,
    llm_node st = Ok [(lit "response", r)] /\ len_if_truthy r = Ok tt.
Proof.
  intros Hh Hf; unfold llm_node, state_item; rewrite Hh, Hf; cbn [bind py_len].
  destruct (llm_answer (PList h) (PStr full)) as [content|e] eqn:Ea.
  - exists content; split; [reflexivity|].
    unfold llm_answer in Ea; cbn [make_message bind with_history] in Ea.
    destruct (chat_model _) as [response|]; cbn [bind] in Ea; [|discriminate].
    destruct (getattr response "content") as [c|]; cbn [bind] in Ea; [|discriminate].
    destruct (len_if_truthy c) as [[]|] eqn:El; cbn [bind] in Ea; [|discriminate].
    injection Ea as <-; exact El.
  - exists (PStr llm_fallback); split; reflexivity.
Qed.

Lemma session_update_returns (st : dict) (sid : pyval) :
  dict_find (lit "session_id") st = Some sid ->
  dict_find (lit "orchestrator") st = Some Orchestrator.self_reference ->
  session_update_node st = Ok [].
Proof.
  intros Hs Ho; unfold session_update_node, orchestrator_method, state_item, dict_get.
  rewrite Hs, Ho; reflexivity.
Qed.

Lemma output_node_returns (st : dict) (sid : pystr) (r : pyval) :
  dict_find (lit "session_id") st = Some (PStr sid) ->
  dict_find (lit "orchestrator") st = Some Orchestrator.self_reference ->
  dict_find (lit "response") st = Some r ->
  len_if_truthy r = Ok tt ->
  exists serialized,
    output_node (C := with_history_store C) st
    = Ok [(lit "content", r); (lit "history", PList serialized)] /\
    (sid <> [] -> serialized <> []).
Proof.
  intros Hs Ho Hr Hl; unfold output_node, dict_get_default, dict_get.
  rewrite Hr, Hs, Hl; cbn [bind].
  destruct sid as [|c sid]; cbn [truthy].
  - exists []; split; [reflexivity | intros H; contradiction H; reflexivity].
  - cbn [get_history_from_orchestrator with_history_store].
    unfold history_from_orchestrator, orchestrator_method, state_item, dict_get.
    rewrite Ho, Hs; cbn [truthy is_orchestrator Orchestrator.self_reference
                           andb negb bind].
    change (pystr_eqb (lit "Orchestrator") (lit "Orchestrator")) with true.
    cbn [negb andb bind].
    destruct (serialize_chat_messages _ _
                (session_history_messages (PStr (c :: sid))))
      as (serialized & -> & Hlen).
    exists serialized; split; [reflexivity|]; intros _ ->.
    pose proof (proj1 (session_history_shape (PStr (c :: sid)))) as Hne.
    cbv zeta in Hne.
    destruct (Orchestrator.get_session_history (PStr (c :: sid)));
      [congruence | discriminate Hlen].
Qed.

(** From [context_combine] to the end. *)
Lemma completes_from_context (limit : nat) (st : dict) (sid m : pystr)
    (h : list pyval) (d : dict) :
  dict_find (lit "session_id") st = Some (PStr sid) ->
  dict_find (lit "message") st = Some (PStr m) ->
  dict_find (lit "history") st = Some (PList h) ->
  dict_find (lit "orchestrator") st = Some Orchestrator.self_reference ->
  dict_find (lit "policy_context") st = Some (PDict d) ->
  (dict_find (lit "doc_context") st = None \/
   exists chunks, dict_find (lit "doc_context") st = Some (PList chunks)) ->
  completes (C := wired C) (4 + limit) context_combine st
    [context_combine; llm; session_update; output].
Proof.
  intros Hs Hm Hh Ho Hp Hd.
  destruct (context_node_returns st m d Hm Hp Hd) as (full & Ec).
  set (st1 := dict_update st [(lit "full_user_message", PStr full)]).
  assert (Hh1 : dict_find (lit "history") st1 = Some (PList h))
    by (subst st1; lookup; exact Hh).
  assert (Hf1 : dict_find (lit "full_user_message") st1 = Some (PStr full))
    by (subst st1; lookup; reflexivity).
  destruct (llm_node_returns st1 h full Hh1 Hf1) as (r & El & Hr).
  set (st2 := dict_update st1 [(lit "response", r)]).
  assert (Hs2 : dict_find (lit "session_id") st2 = Some (PStr sid))
    by (subst st2 st1; lookup; exact Hs).
  assert (Ho2 : dict_find (lit "orchestrator") st2 = Some Orchestrator.self_reference)
    by (subst st2 st1; lookup; exact Ho).
  assert (Hr2 : dict_find (lit "response") st2 = Some r)
    by (subst st2; lookup; reflexivity).
  destruct (output_node_returns st2 sid r Hs2 Ho2 Hr2 Hr) as (ser & Eo & _).
  eapply (completes_step (C := wired C)) with (u := [(lit "full_user_message", PStr full)]);
    [cbn [node_function node_body wired source_node]; rewrite Ec; reflexivity
    | reflexivity |].
  fold st1.
  eapply (completes_step (C := wired C)) with (u := [(lit "response", r)]);
    [cbn [node_function node_body wired source_node]; rewrite El; reflexivity
    | reflexivity |].
  fold st2.
  eapply (completes_step (C := wired C)) with (u := []);
    [cbn [node_function node_body wired source_node];
     rewrite (session_update_returns st2 (PStr sid) Hs2 Ho2); reflexivity
    | reflexivity |].
  change (dict_update st2 []) with st2.
  eapply (completes_last (C := wired C));
    [cbn [node_function node_body wired source_node]; rewrite Eo; reflexivity
    | reflexivity].
Qed.

(** From [policy_retriever] to the end. *)
Lemma completes_from_policy (limit : nat) (st : dict) (sid m safe : pystr)
    (h : list pyval) :
  dict_find (lit "session_id") st = Some (PStr sid) ->
  dict_find (lit "message") st = Some (PStr m) ->
  dict_find (lit "history") st = Some (PList h) ->
  dict_find (lit "orchestrator") st = Some Orchestrator.self_reference ->
  dict_find (lit "safe_session_id") st = Some (PStr safe) ->
  safe <> [] ->
  dict_find (lit "doc_context") st = None ->
  completes (C := wired C) (6 + limit) policy_retriever st
    ([policy_retriever]
     ++ (if table_found (temp_table_after_policy (table_name (PStr safe)))
         then [doc_retriever] else [])
     ++ [context_combine; llm; session_update; output]).
Proof.
  intros Hs Hm Hh Ho Hsafe Hne Hd.
  destruct (policy_node_returns st m Hm) as (d & Ep & _).
  set (st1 := dict_update st [(lit "policy_context", PDict d)]).
  assert (Hroute : route_after_policy (C := wired C) st1
                   = if table_found (temp_table_after_policy
                                       (table_name (PStr safe)))
                     then lit "need_doc" else lit "no_doc_needed").
  { unfold route_after_policy, has_temp_table, dict_get; subst st1; lookup.
    rewrite Hsafe; destruct safe; [contradiction Hne; reflexivity|].
    reflexivity. }
  assert (Hs1 : dict_find (lit "session_id") st1 = Some (PStr sid))
    by (subst st1; lookup; exact Hs).
  assert (Hm1 : dict_find (lit "message") st1 = Some (PStr m))
    by (subst st1; lookup; exact Hm).
  assert (Hh1 : dict_find (lit "history") st1 = Some (PList h))
    by (subst st1; lookup; exact Hh).
  assert (Ho1 : dict_find (lit "orchestrator") st1 = Some Orchestrator.self_reference)
    by (subst st1; lookup; exact Ho).
  assert (Hp1 : dict_find (lit "policy_context") st1 = Some (PDict d))
    by (subst st1; lookup; reflexivity).
  assert (Hd1 : dict_find (lit "doc_context") st1 = None)
    by (subst st1; lookup; exact Hd).
  destruct (table_found (temp_table_after_policy (table_name (PStr safe)))) eqn:Et.
  - eapply (completes_step (C := wired C)) with (u := [(lit "policy_context", PDict d)])
                                (n' := doc_retriever);
      [cbn [node_function node_body wired source_node]; rewrite Ep; reflexivity
      | fold st1; cbn [next_node]; rewrite Hroute; reflexivity |].
    fold st1.
    destruct (doc_retriever_returns st1 m Hm1) as (chunks & Er).
    set (st2 := dict_update st1 [(lit "doc_context", PList chunks)]).
    eapply (completes_step (C := wired C)) with (u := [(lit "doc_context", PList chunks)]);
      [cbn [node_function node_body wired source_node]; rewrite Er; reflexivity
      | reflexivity |].
    fold st2.
    apply (completes_from_context (1 + limit) st2 sid m h d);
      try (subst st2; lookup; assumption).
    right; exists chunks; subst st2; lookup; reflexivity.
  - eapply (completes_step (C := wired C)) with (u := [(lit "policy_context", PDict d)])
                                (n' := context_combine);
      [cbn [node_function node_body wired source_node]; rewrite Ep; reflexivity
      | fold st1; cbn [next_node]; rewrite Hroute; reflexivity |].
    fold st1.
    apply (completes_from_context (1 + limit) st1 sid m h d); auto.
Qed.

(** X19.  A request that passes validation (a session id and a message
    that are non-empty strings, and a truthy user id) runs through the
    graph built by [build_company_policy_graph] to the output node, and no
    node raises, whatever the services outside the core do: a failed
    download, document processor, retriever, chat model or repository is
    absorbed by the node that called it.  The path depends only on the
    document URL and on the two look-ups of the session's temporary table:
    the download and processing nodes run when no table is found after the
    history node and a URL is given; the document retriever runs when the
    table is found after the policy retriever. *)
Theorem valid_request_runs_to_output (session_id message intent : pystr)
    (document_url user_id : pyval) :
  session_id <> [] ->
  message <> [] ->
  truthy user_id = true ->
  let st := Orchestrator.initial_state_of session_id message document_url
              user_id intent in
  let table := table_name (PStr (replace_char 45 95 session_id)) in
  let download := negb (table_found (temp_table_after_history table))
                  && truthy document_url in
  let retrieve := table_found (temp_table_after_policy table) in
  exists steps,
    run_company_policy_graph (C := wired C) st = (steps, None) /\
    map step_node steps = path_of download retrieve /\
    Forall returned steps.
Proof.
  intros Hsid Hmsg Huid st table download retrieve.
  change (completes (C := wired C) recursion_limit input st
            (path_of download retrieve)).
  set (safe := replace_char 45 95 session_id).
  assert (Hsafe : safe <> []).
  { subst safe; destruct session_id; [contradiction Hsid; reflexivity | discriminate]. }
  assert (Hts : truthy (PStr safe) = true).
  { subst safe; destruct session_id; [contradiction Hsid; reflexivity | reflexivity]. }
  assert (Ei : input_node st = Ok [(lit "safe_session_id", PStr safe)]).
  { unfold input_node, py_assert, st, Orchestrator.initial_state_of, dict_get.
    cbn [dict_find].
    repeat match goal with
           | |- context [pystr_eqb (lit ?a) (lit ?b)] =>
               let r := eval vm_compute in (pystr_eqb (lit a) (lit b)) in
               change (pystr_eqb (lit a) (lit b)) with r; cbv iota
           end.
    rewrite Huid.
    destruct session_id; [contradiction Hsid; reflexivity|].
    destruct message; [contradiction Hmsg; reflexivity|].
    reflexivity. }
  set (st1 := dict_update st [(lit "safe_session_id", PStr safe)]).
  set (h := Orchestrator.get_session_history (PStr session_id)).
  assert (F0 : dict_find (lit "session_id") st = Some (PStr session_id)
               /\ dict_find (lit "message") st = Some (PStr message)
               /\ dict_find (lit "orchestrator") st = Some Orchestrator.self_reference
               /\ dict_find (lit "doc_context") st = None
               /\ dict_find (lit "document_url") st = Some document_url)
    by (repeat split; reflexivity).
  destruct F0 as (Fs & Fm & Fo & Fd & Fu).
  assert (Eh : session_history_node (C := wired C) st1 = Ok [(lit "history", PList h)]).
  { unfold session_history_node; subst st1; lookup; rewrite Fs.
    cbn [get_history_from_orchestrator wired].
    unfold history_from_orchestrator, orchestrator_method, state_item, dict_get.
    lookup; rewrite Fo, Fs; reflexivity. }
  set (st2 := dict_update st1 [(lit "history", PList h)]).
  assert (Hroute : route_after_history (C := wired C) st2
                   = if table_found (temp_table_after_history table)
                     then lit "has_doc"
                     else if truthy document_url then lit "with_doc"
                     else lit "no_doc").
  { unfold route_after_history, has_temp_table, dict_get; subst st2 st1; lookup.
    rewrite Fu; cbv beta iota; rewrite Hts; reflexivity. }
  assert (G2 : dict_find (lit "session_id") st2 = Some (PStr session_id)
               /\ dict_find (lit "message") st2 = Some (PStr message)
               /\ dict_find (lit "orchestrator") st2 = Some Orchestrator.self_reference
               /\ dict_find (lit "doc_context") st2 = None
               /\ dict_find (lit "history") st2 = Some (PList h)
               /\ dict_find (lit "safe_session_id") st2 = Some (PStr safe)).
  { subst st2 st1; repeat split; lookup; auto. }
  destruct G2 as (Gs & Gm & Go & Gd & Gh & Gsafe).
  unfold recursion_limit.
  eapply (completes_step (C := wired C)) with (u := [(lit "safe_session_id", PStr safe)]);
    [cbn [node_function]; rewrite Ei; reflexivity | reflexivity |].
  fold st1.
  subst download.
  destruct (negb (table_found (temp_table_after_history table))
            && truthy document_url) eqn:Edl.
  - (* the document is downloaded and processed *)
    apply andb_true_iff in Edl; destruct Edl as [Et Eu].
    apply negb_true_iff in Et.
    eapply (completes_step (C := wired C)) with (u := [(lit "history", PList h)]) (n' := doc_download);
      [cbn [node_function]; rewrite Eh; reflexivity
      | fold st2; cbn [next_node]; rewrite Hroute, Et, Eu; reflexivity |].
    fold st2.
    assert (Ed : exists u,
               document_download_node st2 = Ok u /\
               (u = [] \/ exists name, u = [(lit "tmp_file_path", PStr name)])).
    { unfold document_download_node, dict_get; subst st2 st1; lookup.
      rewrite Fu, Eu.
      destruct (download_to_temp document_url) as [name|e].
      - eexists; split; [reflexivity | right; eexists; reflexivity].
      - eexists; split; [reflexivity | left; reflexivity]. }
    destruct Ed as (u & Ed & Hu).
    set (st3 := dict_update st2 u).
    assert (G3 : dict_find (lit "session_id") st3 = Some (PStr session_id)
                 /\ dict_find (lit "message") st3 = Some (PStr message)
                 /\ dict_find (lit "orchestrator") st3
                    = Some Orchestrator.self_reference
                 /\ dict_find (lit "doc_context") st3 = None
                 /\ dict_find (lit "history") st3 = Some (PList h)
                 /\ dict_find (lit "safe_session_id") st3 = Some (PStr safe)).
    { subst st3; destruct Hu as [-> | (name & ->)].
      - change (dict_update st2 []) with st2; auto 10.
      - repeat split; lookup; assumption. }
    destruct G3 as (Hs3 & Hm3 & Ho3 & Hd3 & Hh3 & Hsafe3).
    eapply (completes_step (C := wired C)) with (u := u);
      [cbn [node_function node_body wired source_node]; rewrite Ed; reflexivity
      | reflexivity |].
    fold st3.
    assert (Ep : document_processing_node st3 = Ok []).
    { unfold document_processing_node.
      destruct (truthy (dict_get st3 "tmp_file_path")); [|reflexivity].
      destruct (truthy (dict_get st3 "safe_session_id")); [|reflexivity].
      cbn [negb]; destruct (process_and_clean _ _); reflexivity. }
    eapply (completes_step (C := wired C)) with (u := []);
      [cbn [node_function node_body wired source_node]; rewrite Ep; reflexivity
      | reflexivity |].
    change (dict_update st3 []) with st3.
    apply (completes_from_policy 15 st3 session_id message safe h); assumption.
  - (* the retrievers come next *)
    eapply (completes_step (C := wired C)) with (u := [(lit "history", PList h)])
                                (n' := policy_retriever);
      [cbn [node_function]; rewrite Eh; reflexivity
      | fold st2; cbn [next_node]; rewrite Hroute |].
    { destruct (table_found (temp_table_after_history table)); [reflexivity|].
      destruct (truthy document_url); [discriminate Edl | reflexivity]. }
    fold st2.
    apply (completes_from_policy 17 st2 session_id message safe h); assumption.
Qed.

End FullRun.

(** The witness of [valid_request_runs_to_output]: every service outside
    the core is down, and the request still reaches the output node. *)
Lemma valid_request_runs_to_output_witness :
  exists steps,
    run_company_policy_graph (U := plain_unicode)
      (C := wired (U := plain_unicode) (E := failing_externals) database_down)
      (Orchestrator.initial_state_of (lit "s-1") (lit "leave?") PNone
         (PStr (lit "u1")) (lit "company_policy"))
    = (steps, None) /\
    map step_node steps = path_of false false.
Proof.
  destruct (valid_request_runs_to_output (U := plain_unicode)
              (E := failing_externals) (C := database_down)
              (lit "s-1") (lit "leave?") (lit "company_policy") PNone
              (PStr (lit "u1")))
    as (steps & Er & Hp & _);
    [discriminate | discriminate | reflexivity |].
  exists steps; split; [exact Er | exact Hp].
Defined.

(** ** The orchestrator's graphs and its per-session context *)

Section OrchestratorState.
Context {U : Unicode} {E : Externals} {Sv : Services}.
Variable G : Type.


Lemma classify_intent_label (message session_id : pystr) :
  classify_intent message session_id = lit "company_policy" \/
  classify_intent message session_id = lit "general".
Proof.
  assert (Hl : _llm_classification message session_id = lit "company_policy" \/
               _llm_classification message session_id = lit "general").
  { unfold _llm_classification.
    destruct (llm_intent message session_id) as [intent|]; [|auto].
    destruct (str_in intent _) eqn:Ei; [apply known_label in Ei; exact Ei | auto]. }
  unfold classify_intent, _rule_based_classification.
  repeat match goal with
         | |- context [if ?b then _ else _] => destruct b
         end; cbn [nonempty]; auto.
Qed.

(** X21.  [classify_intent] returns "company_policy" or "general" for every
    message, so that [get_graph] never raises its [ValueError] on the
    intent [create_stream_generator] passes to it: the call raises only an
    exception of the graph builder for that intent, and then the
    orchestrator is unchanged. *)
Theorem classified_intent_has_graph (build_cp build_gp : result G)
    (self : orchestrator G) (message session_id : pystr) :
  let intent := classify_intent message session_id in
  (intent = lit "company_policy" \/ intent = lit "general") /\
  forall e self',
    Orchestrator.get_graph build_cp build_gp self (PStr intent) = (Err e, self') ->
    self' = self /\
    ((intent = lit "company_policy" /\ build_cp = Err e /\
      cached_company_policy_graph self = None) \/
     (intent = lit "general" /\ build_gp = Err e /\
      cached_general_purpose_graph self = None)).
Proof.
  intros intent; split; [apply classify_intent_label|].
  intros e self'; unfold Orchestrator.get_graph.
  destruct (classify_intent_label message session_id) as [Hi | Hi];
    fold intent in Hi; rewrite Hi.
  - change (equals_str (PStr (lit "company_policy")) "company_policy") with true.
    cbv iota.
    destruct (cached_company_policy_graph self); [discriminate|].
    destruct build_cp; [discriminate|].
    intros H; injection H as <- <-; auto 10.
  - change (equals_str (PStr (lit "general")) "company_policy") with false.
    change (equals_str (PStr (lit "general")) "general") with true.
    cbv iota.
    destruct (cached_general_purpose_graph self); [discriminate|].
    destruct build_gp; [discriminate|].
    intros H; injection H as <- <-; auto 10.
Qed.

Lemma attribute_names_differ (s s' : pyval) :
  pystr_eqb (Orchestrator.last_intent_attribute s)
            (Orchestrator.context_data_attribute s') = false.
Proof.
  destruct (pystr_eqb _ _) eqn:Heq; [|reflexivity].
  apply pystr_eqb_eq in Heq; exfalso.
  unfold Orchestrator.last_intent_attribute, Orchestrator.context_data_attribute in Heq.
  change (lit "_last_intent_") with (95 :: lit "last_intent_")%N in Heq.
  change (lit "_context_data_") with (95 :: lit "context_data_")%N in Heq.
  change (lit "last_intent_") with (108 :: lit "ast_intent_")%N in Heq.
  change (lit "context_data_") with (99 :: lit "ontext_data_")%N in Heq.
  cbn [app] in Heq; discriminate Heq.
Qed.

Lemma attribute_names_differ' (s s' : pyval) :
  pystr_eqb (Orchestrator.context_data_attribute s)
            (Orchestrator.last_intent_attribute s') = false.
Proof.
  destruct (pystr_eqb _ _) eqn:Heq; [|reflexivity].
  apply pystr_eqb_eq in Heq; exfalso.
  unfold Orchestrator.last_intent_attribute, Orchestrator.context_data_attribute in Heq.
  change (lit "_last_intent_") with (95 :: lit "last_intent_")%N in Heq.
  change (lit "_context_data_") with (95 :: lit "context_data_")%N in Heq.
  change (lit "last_intent_") with (108 :: lit "ast_intent_")%N in Heq.
  change (lit "context_data_") with (99 :: lit "ontext_data_")%N in Heq.
  cbn [app] in Heq; discriminate Heq.
Qed.

(** X22.  What [update_global_context] stores is what
    [get_global_context] reads back for that session: the intent and the
    context data of the update.  An update without "intent" resets the
    session's last intent to [None], and an update without "context_data"
    keeps the data stored before.  The cached graphs are not touched. *)
Theorem global_context_round_trip (self : orchestrator G) (session_id : pyval)
    (context_updates : dict) :
  let self' := Orchestrator.update_global_context self session_id context_updates in
  let before := Orchestrator.get_global_context self session_id in
  let after := Orchestrator.get_global_context self' session_id in
  dict_get after "last_intent" = dict_get context_updates "intent" /\
  (forall data, dict_find (lit "context_data") context_updates = Some data ->
                dict_get after "context_data" = data) /\
  (dict_find (lit "context_data") context_updates = None ->
   dict_get after "context_data" = dict_get before "context_data") /\
  (dict_find (lit "intent") context_updates = None ->
   dict_get after "last_intent" = PNone) /\
  dict_get after "message_count" = dict_get before "message_count" /\
  cached_company_policy_graph self' = cached_company_policy_graph self /\
  cached_general_purpose_graph self' = cached_general_purpose_graph self.
Proof.
  cbv zeta.
  unfold Orchestrator.update_global_context, Orchestrator.get_global_context.
  change (dict_get ?d "last_intent")
    with (match dict_find (lit "last_intent") d with Some v => v | None => PNone end).
  change (dict_get ?d "context_data")
    with (match dict_find (lit "context_data") d with Some v => v | None => PNone end).
  cbn [dict_find].
  change (pystr_eqb (lit "last_intent") (lit "session_id")) with false.
  change (pystr_eqb (lit "last_intent") (lit "message_count")) with false.
  change (pystr_eqb (lit "last_intent") (lit "last_intent")) with true.
  change (pystr_eqb (lit "context_data") (lit "session_id")) with false.
  change (pystr_eqb (lit "context_data") (lit "message_count")) with false.
  change (pystr_eqb (lit "context_data") (lit "last_intent")) with false.
  change (pystr_eqb (lit "context_data") (lit "context_data")) with true.
  cbv iota.
  unfold Orchestrator.attribute_or.
  destruct (dict_find (lit "context_data") context_updates) as [data|] eqn:Ed;
    cbn [Orchestrator.set_attribute dynamic_attributes cached_company_policy_graph
         cached_general_purpose_graph];
    rewrite ?dict_find_set, ?pystr_eqb_refl, ?attribute_names_differ,
            ?attribute_names_differ', ?pystr_eqb_refl.
  - repeat split; try reflexivity.
    + intros data' H; injection H as <-; reflexivity.
    + discriminate.
    + unfold dict_get; intros ->; reflexivity.
  - repeat split; try reflexivity.
    + discriminate.
    + unfold dict_get; intros ->; reflexivity.
Qed.

End OrchestratorState.


(** The witness of [classified_intent_has_graph]: a greeting, and a builder
    of the general graph that raises. *)
Lemma classified_intent_has_graph_witness :
  let fresh := {| cached_company_policy_graph := @None nat;
                  cached_general_purpose_graph := None;
                  dynamic_attributes := [] |} in
  let e := Exn (lit "RuntimeError") (lit "no build") in
  classify_intent (U := plain_unicode) (Sv := model_down) (lit "hello") (lit "s-1")
  = lit "general" /\
  (fresh = fresh /\
   ((classify_intent (U := plain_unicode) (Sv := model_down) (lit "hello") (lit "s-1")
     = lit "company_policy" /\ Ok 1 = Err e /\
     cached_company_policy_graph fresh = None) \/
    (classify_intent (U := plain_unicode) (Sv := model_down) (lit "hello") (lit "s-1")
     = lit "general" /\ Err (A := nat) e = Err e /\
     cached_general_purpose_graph fresh = None))).
Proof.
  intros fresh e.
  split; [reflexivity|].
  exact (proj2 (classified_intent_has_graph (U := plain_unicode) (Sv := model_down)
                  nat (Ok 1) (Err e) fresh (lit "hello") (lit "s-1"))
               e fresh eq_refl).
Defined.

(** The witness of [global_context_round_trip]: an update that carries an
    intent and no context data. *)
Lemma global_context_round_trip_witness :
  let fresh := {| cached_company_policy_graph := @None nat;
                  cached_general_purpose_graph := None;
                  dynamic_attributes := [] |} in
  let updated := Orchestrator.update_global_context (U := plain_unicode) fresh (PStr (lit "s-1"))
                   [(lit "intent", PStr (lit "general"))] in
  dict_get (Orchestrator.get_global_context (U := plain_unicode) (E := failing_externals) updated
              (PStr (lit "s-1"))) "context_data"
  = dict_get (Orchestrator.get_global_context (U := plain_unicode) (E := failing_externals) fresh
                (PStr (lit "s-1"))) "context_data".
Proof.
  intros fresh updated.
  destruct (global_context_round_trip (U := plain_unicode) (E := failing_externals) nat fresh
              (PStr (lit "s-1")) [(lit "intent", PStr (lit "general"))])
    as (_ & _ & H & _).
  exact (H eq_refl).
Defined.

(** ** Chunking of an attached document *)

Section Chunking.
Context {T : Tokenizer}.

Lemma chunk_loop_more_fuel (sentences : list pystr) (spc overlap : Z) :
  forall fuel start chunks,
    chunk_loop fuel sentences spc overlap start = Some chunks ->
    chunk_loop (S fuel) sentences spc overlap start = Some chunks.
Proof.
  induction fuel as [|fuel IH]; intros start chunks; [discriminate|].
  cbn [chunk_loop].
  destruct (start <? Z.of_nat (length sentences))%Z; [|auto].
  destruct (chunk_loop fuel sentences spc overlap (start + (spc - overlap)))
    as [rest|] eqn:Er; [|discriminate].
  intros H; injection H as <-.
  apply IH in Er; cbn [chunk_loop] in Er; rewrite Er; reflexivity.
Qed.

Lemma chunk_loop_enough_fuel (sentences : list pystr) (spc overlap : Z)
    (fuel fuel' : nat) (start : Z) (chunks : list pystr) :
  chunk_loop fuel sentences spc overlap start = Some chunks ->
  fuel <= fuel' ->
  chunk_loop fuel' sentences spc overlap start = Some chunks.
Proof.
  intros H Hle; induction Hle as [|fuel' _ IH]; [exact H|].
  apply chunk_loop_more_fuel; exact IH.
Qed.

(** The loop from [start]: one chunk for every stride. *)
Lemma chunk_loop_closed_form (sentences : list pystr) (spc overlap : Z) :
  (0 <= overlap < spc)%Z ->
  forall fuel start,
    (0 <= start)%Z ->
    (Z.max 0 (Z.of_nat (length sentences) - start) < Z.of_nat fuel)%Z ->
    chunk_loop fuel sentences spc overlap start
    = Some (map (fun k => chunk_from sentences spc
                            (start + Z.of_nat k * (spc - overlap))%Z)
                (seq 0 (chunk_count (Z.of_nat (length sentences) - start)
                                    (spc - overlap)))).
Proof.
  intros Ho; set (n := Z.of_nat (length sentences)); set (stride := (spc - overlap)%Z).
  assert (Hs : (0 < stride)%Z) by (subst stride; lia).
  induction fuel as [|fuel IH]; intros start H0 Hf; [lia|].
  cbn [chunk_loop]; fold n; fold stride.
  destruct (Z.ltb_spec start n) as [Hlt|Hge].
  - rewrite IH by lia.
    assert (Ec : chunk_count (n - start) stride
                 = S (chunk_count (n - (start + stride)) stride)).
    { unfold chunk_count.
      assert (Hq : ((n - start + stride - 1) / stride
                    = (n - (start + stride) + stride - 1) / stride + 1)%Z).
      { replace (n - start + stride - 1)%Z
          with ((n - (start + stride) + stride - 1) + 1 * stride)%Z by ring.
        apply Z.div_add; lia. }
      assert (Hp : (0 <= (n - (start + stride) + stride - 1) / stride)%Z)
        by (apply Z.div_pos; lia).
      rewrite Hq; lia. }
    rewrite Ec; cbn [seq map].
    f_equal; f_equal.
    + unfold chunk_from; f_equal; f_equal; lia.
    + rewrite <- seq_shift, map_map.
      apply map_ext; intros k; f_equal; lia.
  - replace (chunk_count (n - start) stride) with 0%nat; [reflexivity|].
    unfold chunk_count.
    assert (Hq : ((n - start + stride - 1) / stride < 1)%Z)
      by (apply Z.div_lt_upper_bound; lia).
    lia.
Qed.

(** X23.  With [0 <= overlap < sentences_per_chunk] the loop of
    [chunk_text] ends, after at most as many rounds as there are sentences,
    and the chunks are: for every multiple of the stride
    [sentences_per_chunk - overlap] below the number of sentences, the
    [sentences_per_chunk] sentences from there (fewer at the end), joined
    by single spaces.  A text without sentences gives no chunk, and any
    other text at least one. *)
Theorem chunk_text_closed_form (text : pystr) (sentences_per_chunk overlap : Z) :
  (0 <= overlap < sentences_per_chunk)%Z ->
  let sentences := sent_tokenize (join (lit " ") (py_split text)) in
  let stride := (sentences_per_chunk - overlap)%Z in
  let chunks :=
    map (fun k => chunk_from sentences sentences_per_chunk (Z.of_nat k * stride)%Z)
        (seq 0 (chunk_count (Z.of_nat (length sentences)) stride)) in
  (forall fuel, length sentences < fuel ->
                chunk_text fuel text sentences_per_chunk overlap = Some chunks) /\
  (sentences = [] <-> chunks = []).
Proof.
  intros Ho sentences stride chunks; split.
  - intros fuel Hf; unfold chunk_text; fold sentences.
    rewrite (chunk_loop_closed_form sentences sentences_per_chunk overlap Ho)
      by lia.
    rewrite Z.sub_0_r; reflexivity.
  - subst chunks; unfold chunk_count.
    assert (Hs : (0 < stride)%Z) by (subst stride; lia).
    split.
    + intros ->; cbn [length Z.of_nat]; rewrite Z.add_0_l.
      rewrite Z.div_small by lia; reflexivity.
    + intros H; apply (f_equal (@length pystr)) in H.
      rewrite length_map, length_seq in H; cbn [length] in H.
      destruct sentences as [|s0 sentences']; [reflexivity | exfalso].
      assert (Hq : (1 <= (Z.of_nat (length (s0 :: sentences')) + stride - 1) / stride)%Z).
      { apply Z.div_le_lower_bound; [lia|]. cbn [length]; lia. }
      lia.
Qed.

Lemma chunk_loop_never_ends (sentences : list pystr) (spc overlap : Z) :
  (spc <= overlap)%Z ->
  sentences <> [] ->
  forall fuel start,
    (start <= 0)%Z -> chunk_loop fuel sentences spc overlap start = None.
Proof.
  intros Ho Hne; induction fuel as [|fuel IH]; intros start Hs; [reflexivity|].
  cbn [chunk_loop].
  destruct (Z.ltb_spec start (Z.of_nat (length sentences))) as [_|Hge].
  - rewrite IH by lia; reflexivity.
  - destruct sentences; [contradiction Hne; reflexivity | cbn [length] in Hge; lia].
Qed.

(** X24.  With [overlap >= sentences_per_chunk] the loop of [chunk_text]
    does not advance: for a text with at least one sentence it never ends,
    whatever the number of rounds it is given. *)
Theorem chunk_text_never_ends (text : pystr) (sentences_per_chunk overlap : Z) :
  (sentences_per_chunk <= overlap)%Z ->
  sent_tokenize (join (lit " ") (py_split text)) <> [] ->
  forall fuel, chunk_text fuel text sentences_per_chunk overlap = None.
Proof.
  intros Ho Hne fuel; unfold chunk_text.
  apply chunk_loop_never_ends; [exact Ho | exact Hne | lia].
Qed.

End Chunking.

(** The witness of [chunk_text_closed_form]: four sentences, two to a
    chunk, one shared. *)
Lemma chunk_text_closed_form_witness :
  chunk_text (T := full_stop_tokenizer) 5 (lit "A.  B. C.   D.") 2 1
  = Some [lit "A. B."; lit "B. C."; lit "C. D."; lit "D."].
Proof.
  rewrite (proj1 (chunk_text_closed_form (T := full_stop_tokenizer)
                    (lit "A.  B. C.   D.") 2 1 ltac:(lia)) 5)
    by (vm_compute; lia).
  vm_compute; reflexivity.
Defined.

(** The witness of [chunk_text_never_ends]: as many shared sentences as a
    chunk holds. *)
Lemma chunk_text_never_ends_witness :
  chunk_text (T := full_stop_tokenizer) 1000 (lit "A. B.") 3 3 = None.
Proof.
  apply (chunk_text_never_ends (T := full_stop_tokenizer) (lit "A. B.") 3 3);
    [lia | vm_compute; discriminate].
Defined.

(** ** Frames are single lines of printable ASCII *)

Section PyvalInduction.
Variable P : pyval -> Prop.
Hypothesis HNone : P PNone.
Hypothesis HBool : forall b, P (PBool b).
Hypothesis HInt : forall z, P (PInt z).
Hypothesis HStr : forall s, P (PStr s).
Hypothesis HList : forall l, Forall P l -> P (PList l).
Hypothesis HTuple : forall l, Forall P l -> P (PTuple l).
Hypothesis HDict : forall d, Forall (fun kv => P (snd kv)) d -> P (PDict d).
Hypothesis HObj : forall cls shown attrs,
  Forall (fun kv => P (snd kv)) attrs -> P (PObj cls shown attrs).

(** Induction on a value with the hypothesis for every element of a list
    and every member of a dictionary. *)
Lemma pyval_nested_ind : forall v, P v.
Proof.
  fix IH 1; intros [ | b | z | s | l | l | d | cls shown attrs].
  - exact HNone.
  - apply HBool.
  - apply HInt.
  - apply HStr.
  - apply HList; revert l; fix IHl 1; intros [|x l];
      constructor; [apply IH | apply IHl].
  - apply HTuple; revert l; fix IHl 1; intros [|x l];
      constructor; [apply IH | apply IHl].
  - apply HDict; revert d; fix IHd 1; intros [|[k x] d];
      constructor; [apply IH | apply IHd].
  - apply HObj; revert attrs; fix IHd 1; intros [|[k x] d];
      constructor; [apply IH | apply IHd].
Qed.

End PyvalInduction.

Section Printable.
Context {U : Unicode} {F : FileSystem}.

Lemma printable_app (a b : pystr) :
  printable a -> printable b -> printable (a ++ b).
Proof. intros Ha Hb; apply Forall_app; auto. Qed.

Lemma printable_check (s : pystr) :
  forallb (fun c => (32 <=? c) && (c <=? 126))%N s = true -> printable s.
Proof.
  unfold printable; rewrite forallb_forall, Forall_forall.
  intros H c Hc; specialize (H c Hc).
  apply andb_true_iff in H; destruct H as [H1 H2].
  apply N.leb_le in H1, H2; lia.
Qed.

Ltac literal := apply printable_check; reflexivity.

Lemma hex_digit_printable (n : N) :
  (n < 16)%N -> (32 <= hex_digit n <= 126)%N.
Proof.
  intros H; unfold hex_digit; destruct (N.ltb_spec n 10); lia.
Qed.

Lemma hex4_printable (c : N) : printable (hex4 c).
Proof.
  unfold hex4, printable.
  repeat constructor; apply hex_digit_printable; apply N.mod_lt; discriminate.
Qed.

Lemma json_escape_printable (c : N) : printable (json_escape c).
Proof.
  unfold json_escape.
  repeat match goal with
         | |- context [(c =? ?k)%N] => destruct (c =? k)%N; [literal|]
         end.
  destruct ((32 <=? c)%N && (c <=? 126)%N) eqn:Ep.
  - apply andb_true_iff in Ep; destruct Ep as [H1 H2].
    apply N.leb_le in H1, H2; repeat constructor; lia.
  - destruct (c <? 65536)%N;
      repeat (apply printable_app; [first [literal | apply hex4_printable]|]);
      apply hex4_printable.
Qed.

Lemma json_string_printable (s : pystr) : printable (json_string s).
Proof.
  unfold json_string.
  apply printable_app; [literal|]; apply printable_app; [|literal].
  induction s as [|c s IH]; simpl; [constructor|].
  apply printable_app; [apply json_escape_printable | exact IH].
Qed.

Lemma dec_printable (z : Z) : printable (dec z).
Proof.
  unfold dec.
  assert (Hu : forall d, printable (lit (NilEmpty.string_of_uint d))).
  { induction d; cbn; try constructor; try exact IHd; try (cbv; split; discriminate). }
  assert (Hn : forall d, printable (lit (NilZero.string_of_uint d))).
  { intros d; destruct d; try apply Hu; literal. }
  destruct (Z.to_int z) as [d|d]; cbn [NilZero.string_of_int].
  - apply Hn.
  - change (lit (String "-" (NilZero.string_of_uint d)))
      with (45%N :: lit (NilZero.string_of_uint d)).
    constructor; [lia | apply Hn].
Qed.

Lemma join_printable (sep : pystr) (parts : list pystr) :
  printable sep -> Forall printable parts -> printable (join sep parts).
Proof.
  intros Hs; induction 1 as [|p ps Hp Hps IH]; cbn [join]; [constructor|].
  destruct ps as [|q ps]; [exact Hp|].
  apply printable_app; [exact Hp|]; apply printable_app; [exact Hs | exact IH].
Qed.

Lemma sequence_Forall {A B : Type} (f : A -> result B) (Q : B -> Prop)
    (l : list A) :
  Forall (fun x => forall y, f x = Ok y -> Q y) l ->
  forall ys, sequence (map f l) = Ok ys -> Forall Q ys.
Proof.
  induction 1 as [|x l Hx _ IH]; intros ys; cbn [map sequence].
  - intros H; injection H as <-; constructor.
  - destruct (f x) as [y|] eqn:Ey; cbn [bind]; [|discriminate].
    destruct (sequence (map f l)) as [ys'|]; cbn [bind]; [|discriminate].
    intros H; injection H as <-; constructor; [apply Hx; reflexivity | apply IH; reflexivity].
Qed.

(** Whatever [json.dumps] returns is printable ASCII. *)
Lemma json_dumps_printable : forall v j, json_dumps v = Ok j -> printable j.
Proof.
  apply (pyval_nested_ind (fun v => forall j, json_dumps v = Ok j -> printable j));
    cbn [json_dumps].
  - intros j H; injection H as <-; literal.
  - intros [|] j H; injection H as <-; literal.
  - intros z j H; injection H as <-; apply dec_printable.
  - intros s j H; injection H as <-; apply json_string_printable.
  - intros l Hl j.
    destruct (sequence (map json_dumps l)) as [items|] eqn:Es; cbn [bind];
      [|discriminate].
    intros H; injection H as <-.
    apply (printable_app (lit "[")); [literal|]; apply printable_app; [|literal].
    apply join_printable; [literal|].
    exact (sequence_Forall json_dumps printable l Hl items Es).
  - intros l Hl j.
    destruct (sequence (map json_dumps l)) as [items|] eqn:Es; cbn [bind];
      [|discriminate].
    intros H; injection H as <-.
    apply (printable_app (lit "[")); [literal|]; apply printable_app; [|literal].
    apply join_printable; [literal|].
    exact (sequence_Forall json_dumps printable l Hl items Es).
  - intros d Hd j.
    destruct (sequence _) as [items|] eqn:Es; cbn [bind]; [|discriminate].
    intros H; injection H as <-.
    apply (printable_app (lit "{")); [literal|]; apply printable_app; [|literal].
    apply join_printable; [literal|].
    refine (sequence_Forall _ printable d _ items Es).
    eapply Forall_impl; [|exact Hd].
    intros [k x] Hx y; cbn [snd] in Hx.
    destruct (json_dumps x) as [jx|] eqn:Ex; cbn [bind]; [|discriminate].
    intros H; injection H as <-.
    apply (printable_app (json_string k)); [apply json_string_printable|].
    apply (printable_app (lit ": ")); [literal | apply Hx; reflexivity].
  - intros cls shown attrs _ j H; discriminate H.
Qed.

(** X25.  [serialize_payload_for_sse] returns for every payload one
    Server-Sent-Events frame: the prefix "data: ", a text of printable
    ASCII characters only, and two line breaks.  No line break, control
    character or character outside ASCII of a payload reaches the frame
    unescaped, on the regular path as on the fallback path, so a frame
    never ends early and never runs into the next. *)
Theorem frame_is_one_printable_line (payload : dict) :
  exists j,
    serialize_payload_for_sse payload = Ok (lit "data: " ++ j ++ [newline; newline]) /\
    printable j /\
    ~ In newline j.
Proof.
  assert (Hn : forall j, printable j -> ~ In newline j).
  { intros j Hj Hin; unfold printable in Hj; rewrite Forall_forall in Hj.
    specialize (Hj _ Hin); unfold newline in Hj; lia. }
  unfold serialize_payload_for_sse.
  destruct (json_dumps (PDict payload)) as [j|e] eqn:Ej.
  - exists j; split; [reflexivity|].
    pose proof (json_dumps_printable _ _ Ej); auto.
  - destruct (json_dumps (PDict (safe_payload payload))) as [j|e'] eqn:Es.
    + exists j; split; [reflexivity|].
      pose proof (json_dumps_printable _ _ Es); auto.
    + rewrite json_dumps_safe_payload in Es; discriminate Es.
Qed.

End Printable.

(** The witness of [frame_is_one_printable_line]: a payload whose text has a
    line break in it. *)
Lemma frame_is_one_printable_line_witness :
  exists j,
    serialize_payload_for_sse (U := plain_unicode)
      [(lit "type", PStr (lit "stage")); (lit "message", PStr [97; 10; 98]%N)]
    = Ok (lit "data: " ++ j ++ [newline; newline]) /\
    ~ In newline j.
Proof.
  destruct (frame_is_one_printable_line (U := plain_unicode)
              [(lit "type", PStr (lit "stage")); (lit "message", PStr [97; 10; 98]%N)])
    as (j & E & _ & H).
  exists j; split; [exact E | exact H].
Defined.

(** ** The shape of every run, and the synchronous entry point *)

Section Acyclic.
Context {U : Unicode} {C : Collaborators}.

(** Every edge of the graph leads forward. *)
Lemma next_node_forward (n n' : node) (state : dict) :
  next_node n state = Ok (Some n') -> rank n < rank n'.
Proof.
  destruct n; cbn [next_node]; intros H;
    try (injection H as <-; cbn; lia); try discriminate H.
  - unfold route_after_history in H.
    destruct (has_temp_table temp_table_after_history state);
      [|destruct (truthy (dict_get state "document_url"))];
      injection H as <-; cbn; lia.
  - unfold route_after_policy in H.
    destruct (has_temp_table temp_table_after_policy state);
      injection H as <-; cbn; lia.
Qed.

Lemma rank_below_ten (n : node) : rank n < 10.
Proof. destruct n; cbn; lia. Qed.

Lemma run_from_forward (limit : nat) : forall (n : node) (state : dict),
  Forall (fun s => rank n <= rank (step_node s)) (fst (run_from limit n state)) /\
  NoDup (map step_node (fst (run_from limit n state))).
Proof.
  induction limit as [|limit IH]; intros n state;
    [split; constructor|].
  rewrite run_from_step.
  destruct (node_function n state) as [tokens [update|e]]; cbn [fst map].
  2: { split; repeat constructor; auto. }
  destruct (next_node n (dict_update state update)) as [[n'|]|e] eqn:En;
    cbn [fst map].
  2,3: split; repeat constructor; auto.
  apply next_node_forward in En.
  destruct (IH n' (dict_update state update)) as [Hf Hn].
  destruct (run_from limit n' (dict_update state update)) as [steps ending].
  cbn [fst map step_node] in *; split.
  - constructor; [cbn; lia|].
    eapply Forall_impl; [|exact Hf]; cbn; intros s Hs; lia.
  - constructor; [|exact Hn].
    intros Hin; apply in_map_iff in Hin; destruct Hin as (s & Es & Hs).
    rewrite Forall_forall in Hf; specialize (Hf s Hs).
    rewrite Es in Hf; lia.
Qed.

Lemma run_from_enough (k : nat) : forall (limit : nat) (n : node) (state : dict),
  10 - rank n <= k -> k <= limit ->
  run_from limit n state = run_from k n state.
Proof.
  induction k as [|k IH]; intros limit n state Hk Hl.
  - pose proof (rank_below_ten n); lia.
  - destruct limit as [|limit]; [lia|].
    rewrite !run_from_step.
    destruct (node_function n state) as [tokens [update|e]]; [|reflexivity].
    destruct (next_node n (dict_update state update)) as [[n'|]|e] eqn:En;
      try reflexivity.
    apply next_node_forward in En.
    rewrite (IH limit n' (dict_update state update)) by lia; reflexivity.
Qed.

(** X26.  The edges [build_company_policy_graph] declares lead forward
    only: in every run, whatever the nodes and the routers do, no node runs
    twice and at most ten nodes run, so the run-time's bound on the number
    of steps is never what ends a run: every bound of ten or more gives
    the same steps and the same ending as the bound in force. *)
Theorem no_node_runs_twice (initial_state : dict) :
  let steps := fst (run_company_policy_graph initial_state) in
  NoDup (map step_node steps) /\
  length steps <= 10 /\
  forall limit, 10 <= limit ->
                run_from limit input initial_state
                = run_company_policy_graph initial_state.
Proof.
  cbv zeta; unfold run_company_policy_graph, recursion_limit.
  destruct (run_from_forward 25 input initial_state) as [_ Hn].
  split; [exact Hn|]; split.
  - rewrite <- (length_map step_node).
    change 10 with (length all_nodes).
    apply NoDup_incl_length; [exact Hn|].
    intros n _; destruct n; cbn; auto 12.
  - intros limit Hl.
    rewrite (run_from_enough 10 limit input initial_state) by (cbn; lia).
    rewrite (run_from_enough 10 25 input initial_state) by (cbn; lia).
    reflexivity.
Qed.

(** X27.  [run_company_policy] never returns an answer of the graph: the
    state it builds has no user id, so [input_node] fails its third
    assertion at the latest, and the function returns the text "Error
    processing request: " followed by the message of the failed assertion
    (or by the message of the exception of the graph builder).  It raises
    itself only for a message that cannot be sliced. *)
Theorem run_company_policy_reports_error (built : result unit)
    (session_id message document_url : pyval) :
  (sliceable message = true ->
   exists reason,
     run_company_policy built session_id message document_url
     = Ok (PStr (lit "Error processing request: " ++ reason)) /\
     (forall e, built = Err e -> reason = exn_str e) /\
     (built = Ok tt ->
      In reason [lit "session_id required"; lit "message required";
                 lit "user_id required"]) /\
     (built = Ok tt -> truthy session_id = true -> truthy message = true ->
      reason = lit "user_id required")) /\
  (sliceable message = false ->
   exists e, run_company_policy built session_id message document_url = Err e).
Proof.
  unfold run_company_policy; split; intros Hs.
  - assert (Es : slice_check message = Ok tt)
      by (destruct message; try discriminate Hs; reflexivity).
    rewrite Es; cbn [bind].
    unfold company_policy_content.
    destruct built as [[]|e]; cbn [bind].
    + set (st := [(lit "session_id", session_id); (lit "message", message);
                  (lit "document_url", document_url)]).
      assert (Hm : required_missing st) by (right; right; reflexivity).
      destruct (input_node_missing st Hm) as (reason & Ei & Hin).
      assert (Ev : invoke st = Err (Exn (lit "AssertionError") reason)).
      { unfold invoke, run_company_policy_graph, recursion_limit.
        rewrite run_from_step.
        change (node_function input st) with (@nil pyval, input_node st).
        cbv beta iota; rewrite Ei; reflexivity. }
      rewrite Ev; cbn [bind exn_str].
      exists reason; split; [reflexivity|]; split; [discriminate|].
      split; [intros _; exact Hin|].
      intros _ Hsid Hmsg.
      unfold input_node, py_assert in Ei.
      change (dict_get st "session_id") with session_id in Ei.
      change (dict_get st "message") with message in Ei.
      change (dict_get st "user_id") with PNone in Ei.
      rewrite Hsid, Hmsg in Ei; cbn in Ei.
      injection Ei as <-; reflexivity.
    + exists (exn_str e); split; [reflexivity|]; split.
      * intros e' H; injection H as <-; reflexivity.
      * split; discriminate.
  - destruct message; try discriminate Hs; cbn [slice_check bind];
      eexists; reflexivity.
Qed.

End Acyclic.

(** The witness of [no_node_runs_twice]: a bound of a thousand steps. *)
Lemma no_node_runs_twice_witness :
  run_from (U := plain_unicode) (C := quiet_collaborators) 1000 input
    empty_message_state
  = run_company_policy_graph (U := plain_unicode) (C := quiet_collaborators)
      empty_message_state.
Proof.
  apply (no_node_runs_twice (U := plain_unicode) (C := quiet_collaborators)
           empty_message_state); lia.
Defined.

(** The witness of [run_company_policy_reports_error]: a question about
    leave. *)
Lemma run_company_policy_reports_error_witness :
  exists reason,
    run_company_policy (U := plain_unicode) (C := quiet_collaborators) (Ok tt)
      (PStr (lit "s-1")) (PStr (lit "How much leave do I have?")) PNone
    = Ok (PStr (lit "Error processing request: " ++ reason)) /\
    reason = lit "user_id required".
Proof.
  destruct (proj1 (run_company_policy_reports_error (U := plain_unicode)
                     (C := quiet_collaborators) (Ok tt)
                     (PStr (lit "s-1")) (PStr (lit "How much leave do I have?")) PNone)
                  eq_refl) as (reason & E & _ & _ & H).
  exists reason; split; [exact E | exact (H eq_refl eq_refl eq_refl)].
Defined.

(** ** The orchestrator's stream *)

Section OrchestratorStream.
Context {U : Unicode} {F : FileSystem} {Sv : Services}.


End OrchestratorStream.

